(** * Xcode Cloud automation client: a shallow embedding of
      [xcode_cloud_automation.py] and the properties of its token cache,
      request dispatch and resource operations. *)

From Stdlib Require Import ZArith Lia List.
From Stdlib.Strings Require Import String Ascii Byte.
From stdpp Require Import base gmap strings list pretty.

Local Open Scope string_scope.
Local Open Scope Z_scope.

(** ** Python values *)

(** JSON documents, as [json.loads] / [response.json()] produce them and as
    [requests] serialises them ([json=data]).  A dict keeps insertion order,
    so it is an association list with unique keys. *)
#[warnings="-register-all"]
Inductive JSON : Type :=
| JNull
| JBool (b : bool)
| JInt (n : Z)
| JStr (s : string)
| JList (l : list JSON)
| JDict (kvs : list (string * JSON)).

Fixpoint dict_lookup (k : string) (kvs : list (string * JSON)) : option JSON :=
  match kvs with
  | [] => None
  | (k', v) :: rest => if String.eqb k k' then Some v else dict_lookup k rest
  end.

(** [d[k] = v] on a dict: overwrite in place, or append a new key. *)
Fixpoint dict_store (k : string) (v : JSON) (kvs : list (string * JSON))
  : list (string * JSON) :=
  match kvs with
  | [] => [(k, v)]
  | (k', v') :: rest =>
      if String.eqb k k' then (k, v) :: rest else (k', v') :: dict_store k v rest
  end.

(** Truthiness of an [Optional[str]] argument: [None] and [''] are false. *)
Definition truthy (s : option string) : bool :=
  match s with
  | None => false
  | Some s => negb (String.eqb s "")
  end.

(** The value an f-string or an assignment reads from an [Optional[str]]
    that passed a truthiness test. *)
Definition str_of (s : option string) : string := default "" s.

(** ** Tokens *)

(** [jwt.encode] is modelled symbolically: a token is the term recording
    what was signed, with which key, algorithm and header.  Its compact
    serialisation (three dot-separated segments) is never the empty string,
    so a token is always truthy. *)
Inductive Algorithm : Type := HS256 | RS256 | ES256.

Definition elliptic_curve (a : Algorithm) : bool :=
  match a with ES256 => true | _ => false end.

Record Payload : Type := mkPayload {
  iss : string;
  iat : Z;
  exp : Z;
  aud : string
}.

Record JwtHeaders : Type := mkJwtHeaders {
  kid : string;
  typ : string
}.

Record Token : Type := JwtEncode {
  tok_payload : Payload;
  tok_key : string;
  tok_algorithm : Algorithm;
  tok_headers : JwtHeaders
}.

(** ** Calls of the HTTP library *)

Inductive Verb : Type := GET | POST | PATCH | DELETE.

(** Header values: a plain string, or [f'Bearer {token}']. *)
Inductive HeaderValue : Type :=
| HStr (s : string)
| Bearer (t : Token).

(** A call of the [requests] library as the client makes it: the function
    called and the arguments as passed.  The URL is the string handed
    over; what the library makes of it before anything goes on the wire
    (it normalises the path, and follows redirects on its own) is the
    library's business and is not modelled. *)
Record Request : Type := mkRequest {
  req_verb : Verb;
  req_url : string;
  req_headers : list (string * HeaderValue);
  req_json : option JSON;
  req_stream : bool
}.

(** The response object a call of the library hands back, with what the
    client reads of it: when the library followed redirects, the last
    answer it received. *)
Record Response : Type := mkResponse {
  status_code : Z;
  content : list byte
}.

(** ** Exceptions *)

Inductive Exn : Type :=
| FileNotFoundError (path : string)
| PermissionError (path : string)
| InvalidKeyError
| ValueError (msg : string)
| ConnectionError
| HTTPError (response : Response)
| JSONDecodeError
| AttributeError
| KeyError (key : string).

Inductive Result (A : Type) : Type :=
| Ok (a : A)
| Raise (e : Exn).
Arguments Ok {A} a.
Arguments Raise {A} e.

(** ** The client object and the world around it *)

(** Instance attributes of [XcodeCloudAutomation].  [token_expiry] is a
    naive [datetime], kept in microseconds. *)
Record Client : Type := mkClient {
  issuer_id : string;
  key_id : string;
  private_key_path : string;
  app_id : string;
  base_url : string;
  token : option Token;
  token_expiry : option Z
}.

(** The world.  Time: [clock] is the time since the epoch, in
    microseconds, which [time.time()] reads; [utc_offset] is what the local
    zone adds to it, so that the naive local time [datetime.now()] reads is
    their sum; time stands still during one client call.  Then the file
    system, the libraries' partial functions ([json.loads], key parsing),
    and [transport]: what a call of the [requests] library returns or
    raises, the network and the server behind it included.  Last, ghost
    logs of what the client did: the calls of [requests] with the time
    they were made at, the tokens signed, and the chunks written to
    files. *)
Record World : Type := mkWorld {
  clock : Z;
  utc_offset : Z;
  files : gmap string (list byte);
  writable : string -> bool;
  ec_key_ok : string -> bool;
  json_loads : list byte -> option JSON;
  transport : Request -> Result Response;
  requests_calls : list (Z * Request);
  sign_log : list Token;
  write_log : list (string * list byte)
}.

Record St : Type := mkSt {
  self : Client;
  world : World
}.

(** ** A state-and-exception monad: a raised exception keeps the state
    changes made before it. *)
Definition M (A : Type) : Type := St -> Result A * St.

Definition ret {A} (a : A) : M A := fun s => (Ok a, s).
Definition raise {A} (e : Exn) : M A := fun s => (Raise e, s).
Definition bind {A B} (m : M A) (k : A -> M B) : M B :=
  fun s => match m s with
           | (Ok a, s') => k a s'
           | (Raise e, s') => (Raise e, s')
           end.

Notation "'let*' x ':=' m 'in' k" := (bind m (fun x => k))
  (at level 10, x name, m at level 100, k at level 200).
Notation "m ';;' k" := (bind m (fun _ => k))
  (at level 100, k at level 200, right associativity).

Definition get_self : M Client := fun s => (Ok (self s), s).
Definition get_world : M World := fun s => (Ok (world s), s).
Definition put_self (c : Client) : M unit :=
  fun s => (Ok tt, mkSt c (world s)).
Definition put_world (w : World) : M unit :=
  fun s => (Ok tt, mkSt (self s) w).

Definition set_token (t : option Token) (c : Client) : Client :=
  mkClient (issuer_id c) (key_id c) (private_key_path c) (app_id c)
           (base_url c) t (token_expiry c).
Definition set_token_expiry (d : option Z) (c : Client) : Client :=
  mkClient (issuer_id c) (key_id c) (private_key_path c) (app_id c)
           (base_url c) (token c) d.

Definition set_files (fs : gmap string (list byte)) (w : World) : World :=
  mkWorld (clock w) (utc_offset w) fs (writable w) (ec_key_ok w) (json_loads w)
          (transport w) (requests_calls w) (sign_log w) (write_log w).
Definition set_requests_calls (l : list (Z * Request)) (w : World) : World :=
  mkWorld (clock w) (utc_offset w) (files w) (writable w) (ec_key_ok w)
          (json_loads w)
          (transport w) l (sign_log w) (write_log w).
Definition set_sign_log (l : list Token) (w : World) : World :=
  mkWorld (clock w) (utc_offset w) (files w) (writable w) (ec_key_ok w)
          (json_loads w)
          (transport w) (requests_calls w) l (write_log w).
Definition set_write_log (l : list (string * list byte)) (w : World) : World :=
  mkWorld (clock w) (utc_offset w) (files w) (writable w) (ec_key_ok w)
          (json_loads w)
          (transport w) (requests_calls w) (sign_log w) l.

(** ** Library calls *)

Definition MICRO : Z := 1000000.

(** The naive local time. *)
Definition local_now (w : World) : Z := clock w + utc_offset w.

(** [datetime.now()] *)
Definition datetime_now : M Z := fun s => (Ok (local_now (world s)), s).

(** [int(time.time())]: whole seconds, truncated towards zero.  The two
    reads of one signing see the same instant. *)
Definition int_time_time : M Z :=
  fun s => (Ok (Z.quot (clock (world s)) MICRO), s).

(** [timedelta(minutes=n)] *)
Definition timedelta_minutes (n : Z) : Z := n * 60 * MICRO.

(** [with open(path, 'r') as f: f.read()].  The file is there or it is
    not; a path that exists and cannot be read (a directory, a file without
    the permission) is not modelled. *)
Definition read_text (path : string) : M string :=
  fun s => match files (world s) !! path with
           | Some bs => (Ok (string_of_list_byte bs), s)
           | None => (Raise (FileNotFoundError path), s)
           end.

(** [jwt.encode(payload, key, algorithm=alg, headers=h)].  [ec_key_ok]
    says whether the library accepts the key; [InvalidKeyError] stands for
    whatever it raises when it does not, of whichever class. *)
Definition jwt_encode (p : Payload) (key : string) (alg : Algorithm)
    (h : JwtHeaders) : M Token :=
  let* w := get_world in
  if ec_key_ok w key then
    let t := JwtEncode p key alg h in
    put_world (set_sign_log (sign_log w ++ [t]) w);;
    ret t
  else raise InvalidKeyError.

(** [requests.get / post / delete]: one call of the library.  The call
    is logged with its arguments, and [transport] gives what it returns or
    raises. *)
Definition requests_request (verb : Verb) (url : string)
    (headers : list (string * HeaderValue)) (json : option JSON)
    (stream : bool) : M Response :=
  let* w := get_world in
  let r := mkRequest verb url headers json stream in
  put_world (set_requests_calls (requests_calls w ++ [(clock w, r)]) w);;
  match transport w r with
  | Ok resp => ret resp
  | Raise e => raise e
  end.

Definition requests_get url headers (stream : bool) : M Response :=
  requests_request GET url headers None stream.
Definition requests_post url headers (json : option JSON) : M Response :=
  requests_request POST url headers json false.
Definition requests_delete url headers : M Response :=
  requests_request DELETE url headers None false.

(** [Response.raise_for_status()] of the requests library: an [HTTPError]
    holding the response for a 4xx or 5xx status, nothing otherwise. *)
Definition raise_for_status (r : Response) : M unit :=
  if (400 <=? status_code r) && (status_code r <? 600)
  then raise (HTTPError r)
  else ret tt.

(** [Response.json()] *)
Definition response_json (r : Response) : M JSON :=
  let* w := get_world in
  match json_loads w (content r) with
  | Some j => ret j
  | None => raise JSONDecodeError
  end.

(** [d.get(key, default)]; only a dict has [get]. *)
Definition py_get (d : JSON) (key : string) (dflt : JSON) : M JSON :=
  match d with
  | JDict kvs => ret (default dflt (dict_lookup key kvs))
  | _ => raise AttributeError
  end.

(** [d[key]] *)
Definition py_getitem (d : JSON) (key : string) : M JSON :=
  match d with
  | JDict kvs =>
      match dict_lookup key kvs with
      | Some v => ret v
      | None => raise (KeyError key)
      end
  | _ => raise AttributeError
  end.

(** ** The client *)

(** [XcodeCloudAutomation.__init__] *)
Definition init (issuer key path app : string) : Client :=
  mkClient issuer key path app
           "https://api.appstoreconnect.apple.com/v1" None None.

(** Times are unbounded integers: that [datetime] arithmetic overflows
    beyond the year 9999 is not modelled. *)
Definition _generate_jwt_token : M Token :=
  let* c := get_self in
  let* cached :=
    match token c, token_expiry c with
    | Some t, Some d =>
        let* now := datetime_now in
        ret (if now <? d then Some t else None)
    | _, _ => ret None
    end in
  match cached with
  | Some t => ret t
  | None =>
      let* private_key := read_text (private_key_path c) in
      let* t_iat := int_time_time in
      let* t_exp := int_time_time in
      let payload := mkPayload (issuer_id c) t_iat (t_exp + 1200)
                               "appstoreconnect-v1" in
      let* t := jwt_encode payload private_key ES256
                           (mkJwtHeaders (key_id c) "JWT") in
      (let* c := get_self in put_self (set_token (Some t) c));;
      let* now := datetime_now in
      (let* c := get_self in
       put_self (set_token_expiry (Some (now + timedelta_minutes 19)) c));;
      let* c := get_self in
      ret (default t (token c))
  end.

Definition _make_request (endpoint : string) (method : string)
    (data : option JSON) : M JSON :=
  let* tk := _generate_jwt_token in
  let headers := [("Authorization", Bearer tk);
                  ("Content-Type", HStr "application/json")] in
  let* c := get_self in
  let url := base_url c +:+ endpoint in
  let* response :=
    if String.eqb method "GET" then requests_get url headers false
    else if String.eqb method "POST" then requests_post url headers data
    else if String.eqb method "DELETE" then requests_delete url headers
    else raise (ValueError ("Unsupported method: " +:+ method)) in
  raise_for_status response;;
  response_json response.

Definition list_workflows : M JSON :=
  let* c := get_self in
  let endpoint := "/apps/" +:+ app_id c +:+ "/ciWorkflows" in
  let* response := _make_request endpoint "GET" None in
  py_get response "data" (JList []).

Definition get_workflow (workflow_id : string) : M JSON :=
  let endpoint := "/ciWorkflows/" +:+ workflow_id in
  let* response := _make_request endpoint "GET" None in
  py_get response "data" (JDict []).

(** [limit: int = 20]: an omitted argument takes the default. *)
Definition list_builds_default_limit : Z := 20.

Definition list_builds (workflow_id : option string) (limit : option Z)
  : M JSON :=
  let limit := default list_builds_default_limit limit in
  let* c := get_self in
  let endpoint :=
    if truthy workflow_id
    then "/ciWorkflows/" +:+ str_of workflow_id +:+ "/builds"
    else "/apps/" +:+ app_id c +:+ "/ciBuildRuns" in
  let endpoint := endpoint +:+ "?limit=" +:+ pretty limit in
  let* response := _make_request endpoint "GET" None in
  py_get response "data" (JList []).

Definition get_build (build_id : string) : M JSON :=
  let endpoint := "/ciBuildRuns/" +:+ build_id in
  let* response := _make_request endpoint "GET" None in
  py_get response "data" (JDict []).

(** [data["data"]["attributes"][key] = value]: the nested dicts are shared
    with [data], so the assignment is an update of [data] along the path. *)
Definition set_data_attribute (data : JSON) (key value : string) : M JSON :=
  let* d := py_getitem data "data" in
  let* a := py_getitem d "attributes" in
  match data, d, a with
  | JDict top, JDict inner, JDict attrs =>
      ret (JDict (dict_store "data"
             (JDict (dict_store "attributes"
                (JDict (dict_store key (JStr value) attrs)) inner)) top))
  | _, _, _ => raise AttributeError
  end.

Definition trigger_build (workflow_id : string)
    (branch tag commit : option string) : M JSON :=
  let endpoint := "/ciWorkflows/" +:+ workflow_id +:+ "/builds" in
  let data := JDict [("data", JDict [("type", JStr "ciBuildRuns");
                                     ("attributes", JDict [])])] in
  let* data :=
    if truthy branch then set_data_attribute data "branch" (str_of branch)
    else if truthy tag then set_data_attribute data "tag" (str_of tag)
    else if truthy commit then set_data_attribute data "commit" (str_of commit)
    else ret data in
  let* response := _make_request endpoint "POST" (Some data) in
  py_get response "data" (JDict []).

Definition cancel_build (build_id : string) : M JSON :=
  let endpoint := "/ciBuildRuns/" +:+ build_id in
  let data := JDict [("data", JDict [("type", JStr "ciBuildRuns");
                                     ("id", JStr build_id);
                                     ("attributes",
                                      JDict [("canceled", JBool true)])])] in
  let* response := _make_request endpoint "PATCH" (Some data) in
  py_get response "data" (JDict []).

Definition retry_build (build_id : string) : M JSON :=
  let endpoint := "/ciBuildRuns/" +:+ build_id +:+ "/retry" in
  let* response := _make_request endpoint "POST" None in
  py_get response "data" (JDict []).

Definition get_build_artifacts (build_id : string) : M JSON :=
  let endpoint := "/ciBuildRuns/" +:+ build_id +:+ "/artifacts" in
  let* response := _make_request endpoint "GET" None in
  py_get response "data" (JList []).

(** [response.iter_content(chunk_size=n)]: the body in pieces of [n] bytes,
    the last one possibly shorter.  Every round takes at least one byte, so
    [length body] rounds are enough. *)
Fixpoint iter_content_fuel (fuel : nat) (n : nat) (body : list byte)
  : list (list byte) :=
  match fuel with
  | O => []
  | S fuel' =>
      match body with
      | [] => []
      | _ => take n body :: iter_content_fuel fuel' n (drop n body)
      end
  end.

Definition iter_content (chunk_size : nat) (body : list byte)
  : list (list byte) :=
  iter_content_fuel (length body) chunk_size body.

(** [open(path, 'wb')]: create or truncate.  [writable] says whether the
    file can be opened for writing; [PermissionError] stands for whatever
    is raised when it cannot (for a missing directory that is
    [FileNotFoundError]).  Paths are names: that two of them may denote one
    file is not modelled. *)
Definition open_wb (path : string) : M unit :=
  let* w := get_world in
  if writable w path
  then put_world (set_files (<[path := []]> (files w)) w)
  else raise (PermissionError path).

(** [f.write(chunk)] on the file opened at [path]: append. *)
Definition f_write (path : string) (chunk : list byte) : M unit :=
  let* w := get_world in
  let w := set_files (<[path := (default [] (files w !! path) ++ chunk)%list]>
                        (files w)) w in
  put_world (set_write_log (write_log w ++ [(path, chunk)]) w).

(** [for chunk in chunks: f.write(chunk)] *)
Fixpoint write_chunks (path : string) (chunks : list (list byte)) : M unit :=
  match chunks with
  | [] => ret tt
  | chunk :: rest => f_write path chunk;; write_chunks path rest
  end.

Definition CHUNK_SIZE : nat := Z.to_nat 8192.

Definition download_artifact (artifact_id output_path : string) : M unit :=
  let endpoint := "/ciArtifacts/" +:+ artifact_id +:+ "/download" in
  let* tk := _generate_jwt_token in
  let headers := [("Authorization", Bearer tk)] in
  let* c := get_self in
  let* response := requests_get (base_url c +:+ endpoint) headers true in
  raise_for_status response;;
  open_wb output_path;;
  write_chunks output_path (iter_content CHUNK_SIZE (content response)).

(** ** Calls and histories *)

(** The public operations of the client, and what one of them returns. *)
Inductive Call : Type :=
| ListWorkflows
| GetWorkflow (workflow_id : string)
| ListBuilds (workflow_id : option string) (limit : option Z)
| GetBuild (build_id : string)
| TriggerBuild (workflow_id : string) (branch tag commit : option string)
| CancelBuild (build_id : string)
| RetryBuild (build_id : string)
| GetBuildArtifacts (build_id : string)
| DownloadArtifact (artifact_id output_path : string).

Definition run_call (c : Call) : M JSON :=
  match c with
  | ListWorkflows => list_workflows
  | GetWorkflow i => get_workflow i
  | ListBuilds wf l => list_builds wf l
  | GetBuild i => get_build i
  | TriggerBuild wf b t cm => trigger_build wf b t cm
  | CancelBuild i => cancel_build i
  | RetryBuild i => retry_build i
  | GetBuildArtifacts i => get_build_artifacts i
  | DownloadArtifact i p => download_artifact i p;; ret JNull
  end.

(** What happens to a client over time: the environment moves (the clock,
    the files, the server change; the logs do not), the offset of local
    time changes (daylight saving begins or ends, the zone of the process
    is set), or the caller invokes an operation and handles whatever it
    raises. *)
Inductive Event : Type :=
| Environment (now : Z) (fs : gmap string (list byte))
              (tr : Request -> Result Response)
| Timezone (offset : Z)
| Invoke (c : Call).

Definition environment_step (now : Z) (fs : gmap string (list byte))
    (tr : Request -> Result Response) (w : World) : World :=
  mkWorld now (utc_offset w) fs (writable w) (ec_key_ok w) (json_loads w) tr
          (requests_calls w) (sign_log w) (write_log w).

Definition set_utc_offset (offset : Z) (w : World) : World :=
  mkWorld (clock w) offset (files w) (writable w) (ec_key_ok w)
          (json_loads w) (transport w) (requests_calls w) (sign_log w)
          (write_log w).

Definition step (s : St) (e : Event) : St :=
  match e with
  | Environment now fs tr =>
      mkSt (self s) (environment_step now fs tr (world s))
  | Timezone offset => mkSt (self s) (set_utc_offset offset (world s))
  | Invoke c => snd (run_call c s)
  end.

Definition run_events (es : list Event) (s : St) : St :=
  fold_left step es s.

(** * Properties *)

(** ** Reading the state *)

(** The condition of the cache test: a token and an expiry are stored and
    the local time is before the stored expiry. *)
Definition cache_valid (s : St) : bool :=
  match token (self s), token_expiry (self s) with
  | Some _, Some d => local_now (world s) <? d
  | _, _ => false
  end.

(** The token the signer builds for client [c] at time [now] from [key]. *)
Definition signed_at (c : Client) (now : Z) (key : string) : Token :=
  JwtEncode (mkPayload (issuer_id c) (Z.quot now MICRO)
                       (Z.quot now MICRO + 1200) "appstoreconnect-v1")
            key ES256 (mkJwtHeaders (key_id c) "JWT").

(** The state after a refresh that signed [t]. *)
Definition refreshed (s : St) (t : Token) : St :=
  mkSt (set_token_expiry (Some (local_now (world s) + timedelta_minutes 19))
          (set_token (Some t) (self s)))
       (set_sign_log (sign_log (world s) ++ [t]) (world s)).


Definition SAFETY_MARGIN : Z := 60 * MICRO.
Definition cached_expiry (c : Client) : option Z :=
  match token_expiry c with
  | Some d => Some (d + SAFETY_MARGIN)
  | None => None
  end.

(** ** Concrete clients and worlds for the examples *)

Definition bytes_of (s : string) : list byte := list_byte_of_string s.

(** A [json.loads] that knows the documents listed in [table]. *)
Definition example_json_loads (table : list (string * JSON))
    (body : list byte) : option JSON :=
  dict_lookup (string_of_list_byte body) table.

Definition example_client : Client :=
  init "iss-1" "key-1" "AuthKey.p8" "6751781514".

(** A world at time [now], local time being UTC, where the calls of
    [requests] are answered by [tr]; the key file is in place, nothing has
    been logged yet. *)
Definition example_world (now : Z) (table : list (string * JSON))
    (tr : Request -> Result Response) : World :=
  mkWorld now 0 {[ "AuthKey.p8" := bytes_of "EC PRIVATE KEY" ]}
          (fun _ => true) (fun _ => true) (example_json_loads table) tr
          [] [] [].

Definition example_state (now : Z) (table : list (string * JSON))
    (tr : Request -> Result Response) : St :=
  mkSt example_client (example_world now table tr).

Definition offline : Request -> Result Response :=
  fun _ => Raise ConnectionError.

(** ** Reading the dispatcher *)

(** The call of [requests] that [_make_request] makes for a method it
    knows, with the token [t] attached; [None] for any other method. *)
Definition request_for (c : Client) (t : Token) (endpoint method : string)
    (data : option JSON) : option Request :=
  let headers := [("Authorization", Bearer t);
                  ("Content-Type", HStr "application/json")] in
  let url := base_url c +:+ endpoint in
  if String.eqb method "GET" then Some (mkRequest GET url headers None false)
  else if String.eqb method "POST"
       then Some (mkRequest POST url headers data false)
  else if String.eqb method "DELETE"
       then Some (mkRequest DELETE url headers None false)
  else None.

(** The state once the call [r] of [requests] has been made. *)
Definition sent (s : St) (r : Request) : St :=
  mkSt (self s)
       (set_requests_calls
          (requests_calls (world s) ++ [(clock (world s), r)]) (world s)).

(** What the dispatcher makes of the response handed back. *)
Definition outcome (w : World) (resp : Response) : Result JSON :=
  if (400 <=? status_code resp) && (status_code resp <? 600)
  then Raise (HTTPError resp)
  else match json_loads w (content resp) with
       | Some j => Ok j
       | None => Raise JSONDecodeError
       end.

(** The token a call passes in its authorization header. *)
Definition attached_token (r : Request) : option Token :=
  match req_headers r with
  | ("Authorization", Bearer t) :: _ => Some t
  | _ => None
  end.

(** The calls of [requests] a computation added to the log, oldest
    first. *)
Definition new_requests (s s' : St) : list Request :=
  map snd (drop (length (requests_calls (world s)))
                (requests_calls (world s'))).

(** The creation body of [trigger_build] with the given attributes. *)
Definition build_run_body (attributes : list (string * JSON)) : JSON :=
  JDict [("data", JDict [("type", JStr "ciBuildRuns");
                         ("attributes", JDict attributes)])].

(** The attributes [trigger_build] puts into the body: the first truthy
    one of branch, tag, commit. *)
Definition trigger_build_attributes (branch tag commit : option string)
  : list (string * JSON) :=
  if truthy branch then [("branch", JStr (str_of branch))]
  else if truthy tag then [("tag", JStr (str_of tag))]
  else if truthy commit then [("commit", JStr (str_of commit))]
  else [].

(** ** Reading the log *)

(** A logged call carried a token whose expiry claim lay after the
    moment the call was made. *)
Definition unexpired_at (e : Z * Request) : Prop :=
  exists t, attached_token (snd e) = Some t
            /\ fst e < exp (tok_payload t) * MICRO.

(** The cache is safe: the stored refresh time, a local time, is reached
    before the expiry claim of the stored token, a time since the epoch. *)
Definition cache_ok (s : St) : Prop :=
  forall t d, token (self s) = Some t -> token_expiry (self s) = Some d ->
              d - utc_offset (world s) < exp (tok_payload t) * MICRO.

(** A history in which the offset of local time, [off] at its start, never
    gets smaller. *)
Fixpoint offsets_rise (off : Z) (es : list Event) : Prop :=
  match es with
  | [] => True
  | Timezone off' :: es => off <= off' /\ offsets_rise off' es
  | _ :: es => offsets_rise off es
  end.

(** A call of [requests] logged by an operation started in state [s]: made
    at the time of the operation, with a token that is not expired then,
    and that was issued at that very time when the cache did not hold a
    valid one. *)
Definition fresh_request (s : St) (e : Z * Request) : Prop :=
  fst e = clock (world s)
  /\ exists t, attached_token (snd e) = Some t
       /\ clock (world s) < exp (tok_payload t) * MICRO
       /\ (cache_valid s = false ->
           iat (tok_payload t) = Z.quot (clock (world s)) MICRO
           /\ In t (drop (length (sign_log (world s)))
                         (sign_log (world (snd (_generate_jwt_token s)))))).

(** What a call started in a safe state leaves: a safe state with the same
    offset of local time, and a log grown by calls that were fresh. *)
Definition logged_fresh (s s' : St) : Prop :=
  cache_ok s'
  /\ utc_offset (world s') = utc_offset (world s)
  /\ exists new,
      requests_calls (world s') = (requests_calls (world s) ++ new)%list
      /\ Forall (fresh_request s) new.

(** ** Reading the operations *)

(** The call of [requests] each operation makes once it holds the token
    [t]:
    [None] for the operation whose method the dispatcher rejects. *)
Definition call_request (c : Call) (cl : Client) (t : Token)
  : option Request :=
  match c with
  | ListWorkflows =>
      request_for cl t ("/apps/" +:+ app_id cl +:+ "/ciWorkflows") "GET" None
  | GetWorkflow i => request_for cl t ("/ciWorkflows/" +:+ i) "GET" None
  | ListBuilds wf limit =>
      request_for cl t
        ((if truthy wf then "/ciWorkflows/" +:+ str_of wf +:+ "/builds"
          else "/apps/" +:+ app_id cl +:+ "/ciBuildRuns")
         +:+ "?limit=" +:+ pretty (default list_builds_default_limit limit))
        "GET" None
  | GetBuild i => request_for cl t ("/ciBuildRuns/" +:+ i) "GET" None
  | TriggerBuild wf b tg cm =>
      request_for cl t ("/ciWorkflows/" +:+ wf +:+ "/builds") "POST"
        (Some (build_run_body (trigger_build_attributes b tg cm)))
  | CancelBuild i =>
      request_for cl t ("/ciBuildRuns/" +:+ i) "PATCH"
        (Some (JDict [("data", JDict [("type", JStr "ciBuildRuns");
                                      ("id", JStr i);
                                      ("attributes",
                                       JDict [("canceled", JBool true)])])]))
  | RetryBuild i =>
      request_for cl t ("/ciBuildRuns/" +:+ i +:+ "/retry") "POST" None
  | GetBuildArtifacts i =>
      request_for cl t ("/ciBuildRuns/" +:+ i +:+ "/artifacts") "GET" None
  | DownloadArtifact i _ =>
      Some (mkRequest GET
              (base_url cl +:+ "/ciArtifacts/" +:+ i +:+ "/download")
              [("Authorization", Bearer t)] None true)
  end.

(** The immutable part of a client: everything but the token cache. *)
Definition same_configuration (c c' : Client) : Prop :=
  issuer_id c' = issuer_id c /\ key_id c' = key_id c
  /\ private_key_path c' = private_key_path c
  /\ app_id c' = app_id c /\ base_url c' = base_url c.

(** What a call leaves alone in the world whatever it does: the time, the
    libraries and what answers them. *)
Definition same_environment (w w' : World) : Prop :=
  clock w' = clock w /\ writable w' = writable w
  /\ ec_key_ok w' = ec_key_ok w /\ json_loads w' = json_loads w
  /\ transport w' = transport w /\ utc_offset w' = utc_offset w.

(** The operations that hand back the [data] entry of a JSON answer, and
    the default each of them passes to [get]. *)
Definition returns_data (c : Call) : bool :=
  match c with
  | CancelBuild _ | DownloadArtifact _ _ => false
  | _ => true
  end.

Definition call_default (c : Call) : JSON :=
  match c with
  | ListWorkflows | ListBuilds _ _ | GetBuildArtifacts _ => JList []
  | _ => JDict []
  end.

(** A world without the key file. *)
Definition keyless_state (now : Z) : St :=
  mkSt example_client (set_files ∅ (example_world now [] offline)).

(** The functions of [requests] the resource operations call: [get]
    without a body, or [post]. *)
Definition get_or_post (r : Request) : Prop :=
  (req_verb r = GET /\ req_json r = None) \/ req_verb r = POST.

(** The URL handed to [requests] begins with the base URL of the client
    (what follows it is the endpoint, ids included as they were given). *)
Definition on_api_base (c : Client) (r : Request) : Prop :=
  String.prefix (base_url c) (req_url r) = true.

(** A history that keeps the local time before [d]; [clk] and [off] are
    the clock and the offset of local time at its start. *)
Fixpoint local_before (d : Z) (clk off : Z) (es : list Event) : Prop :=
  match es with
  | [] => True
  | Environment now _ _ :: es => now + off < d /\ local_before d now off es
  | Timezone off' :: es => clk + off' < d /\ local_before d clk off' es
  | Invoke _ :: es => local_before d clk off es
  end.

(** The token cache holds nothing older than the last signing: a refresh
    time is stored only with a token, and the token stored is the one
    signed last. *)
Definition cache_holds_last (s : St) : Prop :=
  (is_Some (token_expiry (self s)) -> is_Some (token (self s)))
  /\ forall t, token (self s) = Some t -> last (sign_log (world s)) = Some t.

(** ** The signer of [test_app_access.py] *)

(** [generate_jwt_token(issuer_id, key_id, private_key_path)]: a function
    of the script, not a method; it knows no client and no cache. *)
Definition generate_jwt_token (issuer_id key_id private_key_path : string)
  : M Token :=
  let* private_key := read_text private_key_path in
  let* t_iat := int_time_time in
  let* t_exp := int_time_time in
  let payload := mkPayload issuer_id t_iat (t_exp + 1200)
                           "appstoreconnect-v1" in
  let* token := jwt_encode payload private_key ES256
                           (mkJwtHeaders key_id "JWT") in
  ret token.

(** ** Scripts *)

(** A script runs in a process: the world, and what it has printed.  A
    [print] is recorded by the line it stands on in its source file and the
    values its text formats; the text around the values is not modelled. *)
Inductive PyExn : Type :=
| Lib (e : Exn)
| TypeError
| IndexError
| IntKeyError (n : Z)
| ImportError (name : string).

Inductive PyResult (A : Type) : Type :=
| PyOk (a : A)
| PyRaise (e : PyExn).
Arguments PyOk {A} a.
Arguments PyRaise {A} e.

Inductive Arg : Type :=
| AJson (v : JSON)
| AStr (s : string)
| AInt (n : Z)
| AText (r : Response)
| AExn (e : PyExn).

Record Printed : Type := mkPrinted {
  print_line : nat;
  print_args : list Arg
}.

Record Proc : Type := mkProc {
  pworld : World;
  stdout : list Printed
}.

Definition Script (A : Type) : Type := Proc -> PyResult A * Proc.

Definition sret {A} (a : A) : Script A := fun p => (PyOk a, p).
Definition sraise {A} (e : PyExn) : Script A := fun p => (PyRaise e, p).
Definition sbind {A B} (m : Script A) (k : A -> Script B) : Script B :=
  fun p => match m p with
           | (PyOk a, p') => k a p'
           | (PyRaise e, p') => (PyRaise e, p')
           end.

Notation "'let!' x ':=' m 'in' k" := (sbind m (fun x => k))
  (at level 10, x name, m at level 100, k at level 200).
Notation "m ';!' k" := (sbind m (fun _ => k))
  (at level 100, k at level 200, right associativity).

(** [try: body except Exception as e: handler] *)
Definition try_except {A} (body : Script A) (handler : PyExn -> Script A)
  : Script A :=
  fun p => match body p with
           | (PyOk a, p') => (PyOk a, p')
           | (PyRaise e, p') => handler e p'
           end.

Definition print (line : nat) (args : list Arg) : Script unit :=
  fun p => (PyOk tt, mkProc (pworld p) (stdout p ++ [mkPrinted line args])).

(** A method call on the client object [c]: the result and the object as
    the call left it.  When the call raises, the object is out of reach of
    the code that follows in these scripts. *)
Definition call {A} (m : M A) (c : Client) : Script (A * Client) :=
  fun p => match m (mkSt c (pworld p)) with
           | (Ok a, s) => (PyOk (a, self s), mkProc (world s) (stdout p))
           | (Raise e, s) => (PyRaise (Lib e), mkProc (world s) (stdout p))
           end.

(** Python's view of a parsed JSON value: truthiness, [for x in v],
    [v[key]] with a string key, [v[0]]. *)
Definition json_truthy (v : JSON) : bool :=
  match v with
  | JNull => false
  | JBool b => b
  | JInt n => negb (n =? 0)
  | JStr s => negb (String.eqb s "")
  | JList l => match l with [] => false | _ => true end
  | JDict kvs => match kvs with [] => false | _ => true end
  end.

Definition py_iter (v : JSON) : Script (list JSON) :=
  match v with
  | JList l => sret l
  | JDict kvs => sret (map (fun kv => JStr (fst kv)) kvs)
  | JStr s => sret (map (fun a => JStr (String a "")) (list_ascii_of_string s))
  | _ => sraise TypeError
  end.

Definition py_item (v : JSON) (key : string) : Script JSON :=
  match v with
  | JDict kvs =>
      match dict_lookup key kvs with
      | Some x => sret x
      | None => sraise (Lib (KeyError key))
      end
  | _ => sraise TypeError
  end.

Definition py_first (v : JSON) : Script JSON :=
  match v with
  | JList (x :: _) => sret x
  | JList [] => sraise IndexError
  | JStr (String a _) => sret (JStr (String a ""))
  | JStr "" => sraise IndexError
  | JDict _ => sraise (IntKeyError 0)
  | _ => sraise TypeError
  end.

(** [for x in l: body(x)] *)
Fixpoint for_each {A} (l : list A) (body : A -> Script unit) : Script unit :=
  match l with
  | [] => sret tt
  | x :: rest => body x ;! for_each rest body
  end.

(** ** [main] of [xcode_cloud_automation.py] *)

Definition ISSUER_ID : string := "1fe78bc1-c522-4611-94d9-5e49639f876e".
Definition KEY_ID : string := "PZZU8CMTA6".
Definition PRIVATE_KEY_PATH : string := "AuthKey_PZZU8CMTA6.p8".
Definition APP_ID : string := "6751781514".

(** [py_format] is Python's formatting of a value inside an f-string (the
    string itself for a string); the ids read from the answers reach the
    operations through it. *)
Definition main (py_format : JSON -> string) : Script unit :=
  let xcode_cloud := init ISSUER_ID KEY_ID PRIVATE_KEY_PATH APP_ID in
  try_except
    (print 185 [] ;!
     let! r := call list_workflows xcode_cloud in
     let workflows := fst r in
     let xcode_cloud := snd r in
     let! ws := py_iter workflows in
     for_each ws (fun workflow =>
       let! workflow_id := py_item workflow "id" in
       let! attributes := py_item workflow "attributes" in
       let! workflow_name := py_item attributes "name" in
       print 190 [AJson workflow_name; AJson workflow_id]) ;!
     if json_truthy workflows then
       let! first_workflow := py_first workflows in
       let! workflow_id := py_item first_workflow "id" in
       let! attributes := py_item first_workflow "attributes" in
       let! name := py_item attributes "name" in
       print 197 [AJson name] ;!
       let! r := call (get_workflow (py_format workflow_id)) xcode_cloud in
       let workflow_details := fst r in
       let xcode_cloud := snd r in
       let! attributes := py_item workflow_details "attributes" in
       let! enabled := py_item attributes "isEnabled" in
       print 199 [AJson enabled] ;!
       let! attributes := py_item workflow_details "attributes" in
       let! repository := py_item attributes "repositoryName" in
       print 200 [AJson repository] ;!
       print 203 [AJson workflow_id] ;!
       let! r := call (list_builds
                         (if json_truthy workflow_id
                          then Some (py_format workflow_id) else None)
                         (Some 5)) xcode_cloud in
       let builds := fst r in
       let! bs := py_iter builds in
       for_each bs (fun build =>
         let! build_id := py_item build "id" in
         let! attributes := py_item build "attributes" in
         let! status := py_item attributes "completionStatus" in
         let! attributes := py_item build "attributes" in
         let! created := py_item attributes "createdDate" in
         print 209 [AJson build_id; AJson status; AJson created])
     else sret tt)
    (fun e =>
       print 217 [AExn e] ;!
       print 218 [] ;!
       print 219 [] ;!
       print 220 [] ;!
       print 221 [] ;!
       print 222 []).

(** A call of [requests.get] without a body, on a URL that begins with
    the API's base URL. *)
Definition api_get_call (r : Request) : Prop :=
  req_verb r = GET /\ req_json r = None
  /\ String.prefix "https://api.appstoreconnect.apple.com/v1" (req_url r)
     = true.

(** What a script did to the world amounts to at most [n] such calls: it
    made no other call of [requests], and it touched no file. *)
Definition only_gets (n : nat) (w w' : World) : Prop :=
  files w' = files w /\ write_log w' = write_log w
  /\ exists new,
      requests_calls w' = (requests_calls w ++ new)%list
      /\ (length new <= n)%nat
      /\ Forall (fun e => api_get_call (snd e)) new.

(** A script that always amounts to at most [n] such calls and
    whose result, when it returns, is [good]. *)
Definition gets {A} (n : nat) (good : A -> Prop) (m : Script A) : Prop :=
  forall p,
    only_gets n (pworld p) (pworld (snd (m p)))
    /\ match fst (m p) with
       | PyOk a => good a
       | PyRaise _ => True
       end.


(** [v[key]] succeeds and gives [x]. *)
Definition has_item (v : JSON) (key : string) (x : JSON) : Prop :=
  exists kvs, v = JDict kvs /\ dict_lookup key kvs = Some x.



(** A script that leaves the world alone: it computes and prints. *)
Definition silent {A} (m : Script A) : Prop :=
  forall p, pworld (snd (m p)) = pworld p.

(** The call of [requests.get] for [endpoint] with the token [t]. *)
Definition get_request (t : Token) (endpoint : string) : Request :=
  mkRequest GET ("https://api.appstoreconnect.apple.com/v1" +:+ endpoint)
            [("Authorization", Bearer t);
             ("Content-Type", HStr "application/json")] None false.

(** ** [test_app_access] of [test_app_access.py] *)

(** A library call or a module-level function: it runs without a client
    object.  The state monad is handed a blank one, which none of these
    computations reads. *)
Definition lib {A} (m : M A) : Script A :=
  fun p => match m (mkSt (init "" "" "" "") (pworld p)) with
           | (Ok a, s) => (PyOk a, mkProc (world s) (stdout p))
           | (Raise e, s) => (PyRaise (Lib e), mkProc (world s) (stdout p))
           end.

(** [len(v)] *)
Definition py_len (v : JSON) : Script Z :=
  match v with
  | JList l => sret (Z.of_nat (length l))
  | JDict kvs => sret (Z.of_nat (length kvs))
  | JStr s => sret (Z.of_nat (String.length s))
  | _ => sraise TypeError
  end.

(** The function has the constants of [main] above under the same names.
    [AText response] stands for [response.text]. *)
Definition test_app_access : Script unit :=
  try_except
    (let! token := lib (generate_jwt_token ISSUER_ID KEY_ID PRIVATE_KEY_PATH) in
     let headers := [("Authorization", Bearer token);
                     ("Content-Type", HStr "application/json")] in
     let base_url := "https://api.appstoreconnect.apple.com/v1" in
     print 48 [] ;!
     print 51 [] ;!
     let! response := lib (requests_get (base_url +:+ "/apps") headers false) in
     (if status_code response =? 200 then
        let! document := lib (response_json response) in
        let! apps := lib (py_get document "data" (JList [])) in
        print 55 [] ;!
        let! n := py_len apps in
        print 56 [AInt n] ;!
        let! l := py_iter apps in
        for_each l (fun app =>
          let! app_id := py_item app "id" in
          let! attributes := py_item app "attributes" in
          let! app_name := py_item attributes "name" in
          print 60 [AJson app_name; AJson app_id])
      else
        print 62 [AInt (status_code response)] ;!
        print 63 [AText response]) ;!
     print 66 [AStr APP_ID] ;!
     let! response :=
       lib (requests_get (base_url +:+ "/apps/" +:+ APP_ID) headers false) in
     (if status_code response =? 200 then
        let! document := lib (response_json response) in
        let! app_data := lib (py_get document "data" (JDict [])) in
        let! attributes := lib (py_get app_data "attributes" (JDict [])) in
        let! app_name := lib (py_get attributes "name" (JStr "Unknown")) in
        print 71 [AJson app_name]
      else
        print 73 [AStr APP_ID; AInt (status_code response)] ;!
        print 74 [AText response]) ;!
     print 77 [] ;!
     let! response :=
       lib (requests_get (base_url +:+ "/apps/" +:+ APP_ID +:+ "/ciWorkflows")
                         headers false) in
     (if status_code response =? 200 then
        let! document := lib (response_json response) in
        let! workflows := lib (py_get document "data" (JList [])) in
        print 81 [] ;!
        let! n := py_len workflows in
        print 82 [AInt n] ;!
        let! l := py_iter workflows in
        for_each l (fun workflow =>
          let! attributes := py_item workflow "attributes" in
          let! workflow_name := py_item attributes "name" in
          let! workflow_id := py_item workflow "id" in
          print 86 [AJson workflow_name; AJson workflow_id])
      else
        print 88 [AInt (status_code response)] ;!
        print 89 [AText response] ;!
        print 90 [] ;!
        print 91 [] ;!
        print 92 [] ;!
        print 93 []) ;!
     print 96 [] ;!
     let! response :=
       lib (requests_get (base_url +:+ "/apps/" +:+ APP_ID +:+ "/ciBuildRuns")
                         headers false) in
     (if status_code response =? 200 then
        let! document := lib (response_json response) in
        let! builds := lib (py_get document "data" (JList [])) in
        print 100 [] ;!
        let! n := py_len builds in
        print 101 [AInt n]
      else
        print 103 [AInt (status_code response)] ;!
        print 104 [AText response]))
    (fun e => print 107 [AExn e]).

(** The endpoints of the four calls of [requests.get] in
    [test_app_access], in the order it makes them. *)
Definition access_endpoints : list string :=
  ["/apps"; "/apps/6751781514"; "/apps/6751781514/ciWorkflows";
   "/apps/6751781514/ciBuildRuns"].

(** ** The setup check, [test_xcode_cloud_setup.py] *)

(** [os.path.exists(path)]; the world holds files only. *)
Definition os_path_exists (path : string) : Script bool :=
  fun p => (PyOk (match files (pworld p) !! path with
                  | Some _ => true
                  | None => false
                  end), p).

(** [with open(path, "r") as f: json.load(f)] *)
Definition json_load_file (path : string) : Script JSON :=
  fun p => match files (pworld p) !! path with
           | None => (PyRaise (Lib (FileNotFoundError path)), p)
           | Some bs =>
               match json_loads (pworld p) bs with
               | Some j => (PyOk j, p)
               | None => (PyRaise (Lib JSONDecodeError), p)
               end
           end.

(** [import name]: the module is there, or [ImportError] is raised. *)
Definition py_import (importable : string -> bool) (name : string)
  : Script unit :=
  fun p => if importable name then (PyOk tt, p)
           else (PyRaise (ImportError name), p).

(** [s.upper()], on ASCII. *)
Definition ascii_upper (a : ascii) : ascii :=
  let n := nat_of_ascii a in
  if (97 <=? n)%nat && (n <=? 122)%nat then ascii_of_nat (n - 32) else a.

Fixpoint str_upper (s : string) : string :=
  match s with
  | EmptyString => EmptyString
  | String a rest => String (ascii_upper a) (str_upper rest)
  end.

(** [v != s] for a string [s] *)
Definition differs_from (v : JSON) (s : string) : bool :=
  match v with
  | JStr s' => negb (String.eqb s' s)
  | _ => true
  end.

(** A loop that updates a local variable. *)
Fixpoint for_fold {A S} (l : list A) (body : A -> S -> Script S) (acc : S)
  : Script S :=
  match l with
  | [] => sret acc
  | x :: rest => let! acc := body x acc in for_fold rest body acc
  end.

Module test_xcode_cloud_setup.

(** Each [try: import m ... except ImportError: ... return False]. *)
Definition test_dependencies (importable : string -> bool) : Script bool :=
  print 11 [] ;!
  let! r := try_except (py_import importable "jwt" ;!
                        print 15 [] ;! sret None)
              (fun e => match e with
                        | ImportError _ => print 17 [] ;! sret (Some false)
                        | _ => sraise e
                        end) in
  match r with
  | Some b => sret b
  | None =>
  let! r := try_except (py_import importable "requests" ;!
                        print 22 [] ;! sret None)
              (fun e => match e with
                        | ImportError _ => print 24 [] ;! sret (Some false)
                        | _ => sraise e
                        end) in
  match r with
  | Some b => sret b
  | None =>
  let! r := try_except (py_import importable "cryptography" ;!
                        print 29 [] ;! sret None)
              (fun e => match e with
                        | ImportError _ => print 31 [] ;! sret (Some false)
                        | _ => sraise e
                        end) in
  match r with
  | Some b => sret b
  | None => sret true
  end end end.

Definition test_config_files : Script bool :=
  print 38 [] ;!
  let required_files := ["xcode_cloud_automation.py";
                         "xcode_cloud_config.json";
                         "requirements.txt"] in
  let! missing_files :=
    for_fold required_files (fun file missing_files =>
      let! found := os_path_exists file in
      if found then print 49 [AStr file] ;! sret missing_files
      else print 51 [AStr file] ;! sret (missing_files ++ [file])%list) [] in
  sret (Nat.eqb (length missing_files) 0).

Definition test_private_key : Script bool :=
  print 58 [] ;!
  let private_key_path := "AuthKey_PZZU8CMTA6.p8" in
  let! found := os_path_exists private_key_path in
  if found then print 62 [AStr private_key_path] ;! sret true
  else print 65 [AStr private_key_path] ;! print 66 [] ;! sret false.

(** [value and value != f"YOUR_{key.upper()}_HERE"] *)
Definition value_set (key : string) (value : JSON) : bool :=
  json_truthy value
  && differs_from value ("YOUR_" +:+ str_upper key +:+ "_HERE").

Definition check_config_values : Script bool :=
  print 71 [] ;!
  try_except
    (let! config := json_load_file "xcode_cloud_config.json" in
     let! app_config := lib (py_get config "app_store_connect" (JDict [])) in
     let! v_issuer_id := lib (py_get app_config "issuer_id" JNull) in
     let! v_key_id := lib (py_get app_config "key_id" JNull) in
     let! v_app_id := lib (py_get app_config "app_id" JNull) in
     let! v_private_key_path :=
       lib (py_get app_config "private_key_path" JNull) in
     let required_values := [("issuer_id", v_issuer_id);
                             ("key_id", v_key_id);
                             ("app_id", v_app_id);
                             ("private_key_path", v_private_key_path)] in
     for_each required_values (fun kv =>
       let key := fst kv in
       let value := snd kv in
       if value_set key value then print 91 [AStr key; AJson value]
       else print 93 [AStr key]) ;!
     sret (forallb (fun kv => value_set (fst kv) (snd kv)) required_values))
    (fun e => print 99 [AExn e] ;! sret false).

Definition main (importable : string -> bool) : Script bool :=
  print 104 [] ;!
  print 105 [] ;!
  let all_tests_passed := true in
  let! r := test_dependencies importable in
  let all_tests_passed := if negb r then false else all_tests_passed in
  let! r := test_config_files in
  let all_tests_passed := if negb r then false else all_tests_passed in
  let! r := test_private_key in
  let all_tests_passed := if negb r then false else all_tests_passed in
  let! r := check_config_values in
  let all_tests_passed := if negb r then false else all_tests_passed in
  print 125 [] ;!
  (if all_tests_passed then
     print 127 [] ;! print 128 [] ;! print 129 [] ;! print 130 [] ;!
     print 131 []
   else
     print 133 [] ;! print 134 []) ;!
  sret all_tests_passed.

End test_xcode_cloud_setup.

(** What [check_config_values] asks of the configuration file: it parses
    to an object whose [app_store_connect] entry is an object in which each
    of the four settings is present, truthy, and not its placeholder. *)
Definition setting_given (app : list (string * JSON))
    (key placeholder : string) : Prop :=
  exists v, dict_lookup key app = Some v /\ json_truthy v = true
            /\ v <> JStr placeholder.

Definition config_values_set (w : World) : Prop :=
  exists bs config app,
    files w !! "xcode_cloud_config.json" = Some bs
    /\ json_loads w bs = Some (JDict config)
    /\ dict_lookup "app_store_connect" config = Some (JDict app)
    /\ setting_given app "issuer_id" "YOUR_ISSUER_ID_HERE"
    /\ setting_given app "key_id" "YOUR_KEY_ID_HERE"
    /\ setting_given app "app_id" "YOUR_APP_ID_HERE"
    /\ setting_given app "private_key_path" "YOUR_PRIVATE_KEY_PATH_HERE".

(** What the whole check asks of the installation. *)
Definition setup_ready (importable : string -> bool) (w : World) : Prop :=
  (importable "jwt" = true /\ importable "requests" = true
   /\ importable "cryptography" = true)
  /\ (is_Some (files w !! "xcode_cloud_automation.py")
      /\ is_Some (files w !! "xcode_cloud_config.json")
      /\ is_Some (files w !! "requirements.txt"))
  /\ is_Some (files w !! "AuthKey_PZZU8CMTA6.p8")
  /\ config_values_set w.
Ltac unfold_monad :=
  unfold bind, ret, raise, get_self, get_world, put_self, put_world,
    datetime_now, int_time_time, read_text in *.

Lemma generate_valid (s : St) (t : Token) (d : Z) :
  token (self s) = Some t -> token_expiry (self s) = Some d ->
  local_now (world s) < d ->
  _generate_jwt_token s = (Ok t, s).
Proof.
  intros Ht Hd Hlt. unfold _generate_jwt_token. unfold_monad.
  rewrite Ht, Hd. apply Z.ltb_lt in Hlt. by rewrite Hlt.
Qed.

Lemma cache_valid_true (s : St) :
  cache_valid s = true ->
  exists t d, token (self s) = Some t /\ token_expiry (self s) = Some d
              /\ local_now (world s) < d.
Proof.
  unfold cache_valid. destruct (token (self s)) as [t|]; [|done].
  destruct (token_expiry (self s)) as [d|]; [|done].
  intros H%Z.ltb_lt. by exists t, d.
Qed.

Lemma cache_valid_false (s : St) :
  cache_valid s = false <->
  ~ exists t e, token (self s) = Some t /\ cached_expiry (self s) = Some e
                /\ local_now (world s) < e - SAFETY_MARGIN.
Proof.
  unfold cache_valid, cached_expiry.
  destruct (token (self s)) as [t|]; destruct (token_expiry (self s)) as [d|].
  - rewrite Z.ltb_ge. split.
    + intros Hle (t' & e & _ & [= <-] & Hlt). lia.
    + intros Hn. destruct (Z.le_gt_cases d (local_now (world s))) as [|Hlt];
        [done|].
      exfalso. apply Hn. exists t, (d + SAFETY_MARGIN). repeat split. lia.
  - split; [|done]. by intros _ (t' & e & _ & [=] & _).
  - split; [|done]. by intros _ (t' & e & [=] & _).
  - split; [|done]. by intros _ (t' & e & [=] & _).
Qed.

Lemma generate_stale (s : St) (key : list byte) :
  cache_valid s = false ->
  files (world s) !! private_key_path (self s) = Some key ->
  ec_key_ok (world s) (string_of_list_byte key) = true ->
  let t := signed_at (self s) (clock (world s)) (string_of_list_byte key) in
  _generate_jwt_token s = (Ok t, refreshed s t).
Proof.
  intros Hc Hf Hk. unfold _generate_jwt_token, cache_valid in *.
  unfold jwt_encode. unfold_monad.
  destruct (token (self s)) as [t0|] eqn:Ht;
    destruct (token_expiry (self s)) as [d|] eqn:Hd;
    try rewrite Hc; rewrite Hf; simpl; rewrite Hk; reflexivity.
Qed.

(** A refresh that cannot read or parse the key raises and changes
    nothing. *)
Lemma generate_raises (s s' : St) (e : Exn) :
  _generate_jwt_token s = (Raise e, s') -> s' = s /\ cache_valid s = false.
Proof.
  unfold _generate_jwt_token, cache_valid, jwt_encode. unfold_monad.
  destruct (token (self s)) as [t0|]; destruct (token_expiry (self s)) as [d|];
    try destruct (local_now (world s) <? d); try discriminate;
    (destruct (files (world s) !! private_key_path (self s)); simpl;
     [destruct (ec_key_ok (world s) _)|]; intros [= <- <-]; done).
Qed.

(** Every successful call is a cache hit or a refresh. *)
Lemma generate_returns (s s' : St) (t : Token) :
  _generate_jwt_token s = (Ok t, s') ->
  (cache_valid s = true /\ token (self s) = Some t /\ s' = s)
  \/ (cache_valid s = false /\
      exists key, files (world s) !! private_key_path (self s) = Some key
        /\ t = signed_at (self s) (clock (world s)) (string_of_list_byte key)
        /\ s' = refreshed s t).
Proof.
  intros H. destruct (cache_valid s) eqn:Hc.
  - left. destruct (cache_valid_true s Hc) as (t0 & d & Ht & Hd & Hlt).
    rewrite (generate_valid s t0 d Ht Hd Hlt) in H. by injection H as <- <-.
  - right. split; [done|].
    destruct (files (world s) !! private_key_path (self s)) as [key|] eqn:Hf.
    + destruct (ec_key_ok (world s) (string_of_list_byte key)) eqn:Hk.
      * rewrite (generate_stale s key Hc Hf Hk) in H.
        injection H as <- <-. by exists key.
      * exfalso. revert H. unfold _generate_jwt_token, cache_valid, jwt_encode
          in *. unfold_monad.
        destruct (token (self s)); destruct (token_expiry (self s));
          try rewrite Hc; rewrite Hf; simpl; rewrite Hk; discriminate.
    + exfalso. revert H. unfold _generate_jwt_token, cache_valid in *.
      unfold_monad.
      destruct (token (self s)); destruct (token_expiry (self s));
        try rewrite Hc; rewrite Hf; discriminate.
Qed.

Lemma quot_micro_bounds (now : Z) :
  now - MICRO < Z.quot now MICRO * MICRO /\ Z.quot now MICRO * MICRO < now + MICRO.
Proof.
  unfold MICRO. pose proof (Z.quot_rem' now 1000000) as E.
  pose proof (Z.rem_bound_abs now 1000000 ltac:(lia)). lia.
Qed.

(** ** The token cache *)





(** ** The signer *)

Lemma app_same_nil {A} (l new : list A) : l = (l ++ new)%list -> new = [].
Proof.
  intros H. apply (app_inv_head l). by rewrite app_nil_r.
Qed.

(** C7. Every token the signer produces during a call carries the claims
    issued-at = the clock in whole seconds, expiry = that plus 1200, the
    client's issuer id and the audience tag, is signed with the contents of
    the key file under the elliptic-curve algorithm ES256, and has the key
    id and the type tag JWT in its header; it is the token the call
    returns. *)
Theorem signer_claims (s s' : St) (r : Result Token) (new : list Token)
    (t : Token) :
  _generate_jwt_token s = (r, s') ->
  sign_log (world s') = (sign_log (world s) ++ new)%list ->
  In t new ->
  exists key,
    files (world s) !! private_key_path (self s) = Some key
    /\ iat (tok_payload t) = Z.quot (clock (world s)) MICRO
    /\ exp (tok_payload t) = Z.quot (clock (world s)) MICRO + 1200
    /\ iss (tok_payload t) = issuer_id (self s)
    /\ aud (tok_payload t) = "appstoreconnect-v1"
    /\ tok_key t = string_of_list_byte key
    /\ tok_algorithm t = ES256
    /\ elliptic_curve (tok_algorithm t) = true
    /\ kid (tok_headers t) = key_id (self s)
    /\ typ (tok_headers t) = "JWT"
    /\ new = [t]
    /\ r = Ok t.
Proof.
  intros Hgen Hlog Hin. destruct r as [t0|e].
  - destruct (generate_returns s s' t0 Hgen)
      as [(_ & _ & ->) | (_ & key & Hf & Ht & ->)].
    + apply app_same_nil in Hlog. subst new. destruct Hin.
    + simpl in Hlog. apply app_inv_head in Hlog. subst new.
      destruct Hin as [<- | []]. exists key. subst t0.
      repeat split; try reflexivity. exact Hf.
  - destruct (generate_raises s s' e Hgen) as [-> _].
    apply app_same_nil in Hlog. subst new. destruct Hin.
Qed.

Lemma signer_claims_witness :
  exists key,
    files (world (example_state 7500000 [] offline)) !! "AuthKey.p8" = Some key
    /\ iat (tok_payload (signed_at example_client 7500000 "EC PRIVATE KEY")) = 7
    /\ exp (tok_payload (signed_at example_client 7500000 "EC PRIVATE KEY"))
       = 1207.
Proof.
  destruct (signer_claims (example_state 7500000 [] offline)
              (snd (_generate_jwt_token (example_state 7500000 [] offline)))
              (fst (_generate_jwt_token (example_state 7500000 [] offline)))
              [signed_at example_client 7500000 "EC PRIVATE KEY"]
              (signed_at example_client 7500000 "EC PRIVATE KEY"))
    as (key & Hf & Hiat & Hexp & _).
  - reflexivity.
  - reflexivity.
  - left. reflexivity.
  - exists key. split; [exact Hf|]. split; [exact Hiat | exact Hexp].
Defined.

(** ** The dispatcher *)

(** Token generation touches the cache and the signing log only. *)
Lemma generate_frame (s s' : St) (r : Result Token) :
  _generate_jwt_token s = (r, s') ->
  clock (world s') = clock (world s)
  /\ files (world s') = files (world s)
  /\ transport (world s') = transport (world s)
  /\ json_loads (world s') = json_loads (world s)
  /\ writable (world s') = writable (world s)
  /\ requests_calls (world s') = requests_calls (world s)
  /\ write_log (world s') = write_log (world s)
  /\ base_url (self s') = base_url (self s)
  /\ app_id (self s') = app_id (self s).
Proof.
  intros H. destruct r as [t|e].
  - destruct (generate_returns s s' t H) as [(_ & _ & ->) | (_ & k & _ & _ & ->)];
      repeat split.
  - destruct (generate_raises s s' e H) as [-> _]. repeat split.
Qed.

Lemma generate_offset (s s' : St) (r : Result Token) :
  _generate_jwt_token s = (r, s') ->
  utc_offset (world s') = utc_offset (world s).
Proof.
  intros H. destruct r as [t|e].
  - by destruct (generate_returns s s' t H)
      as [(_ & _ & ->) | (_ & k & _ & _ & ->)].
  - by destruct (generate_raises s s' e H) as [-> _].
Qed.

Lemma make_request_unfold (endpoint method : string) (data : option JSON)
    (s : St) :
  _make_request endpoint method data s =
  match _generate_jwt_token s with
  | (Raise e, s1) => (Raise e, s1)
  | (Ok t, s1) =>
      match request_for (self s1) t endpoint method data with
      | None => (Raise (ValueError ("Unsupported method: " +:+ method)), s1)
      | Some r =>
          match transport (world s1) r with
          | Raise e => (Raise e, sent s1 r)
          | Ok resp => (outcome (world s1) resp, sent s1 r)
          end
      end
  end.
Proof.
  unfold _make_request, request_for, outcome, raise_for_status, response_json,
    requests_get, requests_post, requests_delete, requests_request.
  unfold_monad. destruct (_generate_jwt_token s) as [[t|e] s1]; [|reflexivity].
  destruct (String.eqb method "GET");
    [|destruct (String.eqb method "POST");
      [|destruct (String.eqb method "DELETE"); [|reflexivity]]];
    (destruct (transport (world s1) _) as [resp|e]; [|reflexivity];
     destruct ((400 <=? status_code resp) && (status_code resp <? 600));
       [reflexivity|]; simpl;
     destruct (json_loads (world s1) (content resp)); reflexivity).
Qed.

Lemma outcome_error (w : World) (resp : Response) :
  400 <= status_code resp < 600 -> outcome w resp = Raise (HTTPError resp).
Proof.
  intros [H1 H2]. unfold outcome.
  apply Z.leb_le in H1. apply Z.ltb_lt in H2. by rewrite H1, H2.
Qed.

Lemma outcome_parsed (w : World) (resp : Response) (j : JSON) :
  status_code resp < 400 \/ 600 <= status_code resp ->
  json_loads w (content resp) = Some j ->
  outcome w resp = Ok j.
Proof.
  intros H Hj. unfold outcome. rewrite Hj.
  destruct H as [H|H]; [apply Z.leb_gt in H | apply Z.ltb_ge in H]; rewrite H;
    [reflexivity | by rewrite andb_false_r].
Qed.

Lemma make_request_ok (endpoint method : string) (data : option JSON)
    (s s1 : St) (t : Token) (req : Request) (resp : Response) (j : JSON) :
  _generate_jwt_token s = (Ok t, s1) ->
  request_for (self s1) t endpoint method data = Some req ->
  transport (world s) req = Ok resp ->
  status_code resp < 400 \/ 600 <= status_code resp ->
  json_loads (world s) (content resp) = Some j ->
  _make_request endpoint method data s = (Ok j, sent s1 req).
Proof.
  intros Hgen Hreq Htr Hst Hj. rewrite make_request_unfold, Hgen, Hreq.
  destruct (generate_frame s s1 _ Hgen) as (_ & _ & -> & Hl & _).
  rewrite Htr. f_equal. apply outcome_parsed; [exact Hst | by rewrite Hl].
Qed.

(** C2 (amended). One call of the dispatcher calls the HTTP library at
    most once: the dispatcher retries nothing (a redirect the library
    follows within that call is the library's own doing).  For the response
    the library hands back: a status from 400 to 599 makes the call fail
    with the HTTP error that holds that response, status code and body
    unchanged; any other status, the 2xx ones among them, with a body that
    parses as JSON makes the call return the parsed document. *)
Theorem dispatcher_status (endpoint method : string) (data : option JSON)
    (s s' : St) (r : Result JSON) :
  _make_request endpoint method data s = (r, s') ->
  exists new,
    requests_calls (world s') = (requests_calls (world s) ++ new)%list
    /\ (length new <= 1)%nat
    /\ forall sent_at req resp,
        In (sent_at, req) new ->
        transport (world s) req = Ok resp ->
        (400 <= status_code resp < 600 ->
           r = Raise (HTTPError resp)
           /\ forall e, r = Raise e ->
                exists resp', e = HTTPError resp'
                  /\ status_code resp' = status_code resp
                  /\ content resp' = content resp)
        /\ (status_code resp < 400 \/ 600 <= status_code resp ->
            forall j, json_loads (world s) (content resp) = Some j ->
                      r = Ok j).
Proof.
  rewrite make_request_unfold.
  destruct (_generate_jwt_token s) as [[t|e] s1] eqn:Hgen.
  - destruct (generate_frame s s1 _ Hgen) as (_ & _ & Htr & Hl & _ & Hlog & _).
    destruct (request_for (self s1) t endpoint method data) as [req0|].
    + intros H. exists [(clock (world s1), req0)].
      assert (Hlog' : requests_calls (world s')
                      = (requests_calls (world s)
                         ++ [(clock (world s1), req0)])%list).
      { destruct (transport (world s1) req0); injection H as _ <-;
          simpl; by rewrite Hlog. }
      split; [exact Hlog'|]. split; [simpl; lia|].
      intros sent_at req resp [[= _ <-] | []] Hresp.
      rewrite Htr, Hresp in H. injection H as <- _. split.
      * intros Hst. rewrite (outcome_error _ _ Hst). split; [reflexivity|].
        intros e [= <-]. by exists resp.
      * intros Hst j Hj. apply outcome_parsed; [exact Hst | by rewrite Hl].
    + intros [= <- <-]. exists []. split; [by rewrite app_nil_r|].
      split; [simpl; lia|]. intros ? ? ? [].
  - intros [= <- <-].
    destruct (generate_frame s s1 _ Hgen) as (_ & _ & _ & _ & _ & Hlog & _).
    exists []. split; [by rewrite app_nil_r|].
    split; [simpl; lia|]. intros ? ? ? [].
Qed.

(** C2, the claim as written fails: a response handed back with status
    300 and a JSON body is returned to the caller as a result, no error is
    raised. *)
Lemma dispatcher_status_counterexample :
  let resp := mkResponse 300 (bytes_of "{}") in
  let s := example_state 5000000 [("{}", JDict [])] (fun _ => Ok resp) in
  exists req s',
    _make_request "/apps/6751781514/ciWorkflows" "GET" None s
      = (Ok (JDict []), s')
    /\ requests_calls (world s') = [(5000000, req)]
    /\ transport (world s) req = Ok resp
    /\ 300 <= status_code resp.
Proof.
  simpl. eexists _, _. split; [vm_compute; reflexivity|].
  split; [reflexivity|]. split; [reflexivity|]. simpl. lia.
Qed.

Lemma dispatcher_status_witness :
  let resp := mkResponse 403 (bytes_of "Forbidden") in
  let s := example_state 5000000 [] (fun _ => Ok resp) in
  fst (_make_request "/apps/6751781514/ciWorkflows" "GET" None s)
    = Raise (HTTPError resp)
  /\ length (requests_calls (world
       (snd (_make_request "/apps/6751781514/ciWorkflows" "GET" None s))))
     = 1%nat.
Proof.
  intros resp s.
  destruct (dispatcher_status "/apps/6751781514/ciWorkflows" "GET" None s
              (snd (_make_request "/apps/6751781514/ciWorkflows" "GET" None s))
              (fst (_make_request "/apps/6751781514/ciWorkflows" "GET" None s)))
    as (new & Hlog & Hlen & Hnew).
  - reflexivity.
  - split; [|reflexivity].
    apply (Hnew 5000000
             (mkRequest GET
                "https://api.appstoreconnect.apple.com/v1/apps/6751781514/ciWorkflows"
                [("Authorization",
                  Bearer (signed_at example_client 5000000 "EC PRIVATE KEY"));
                 ("Content-Type", HStr "application/json")] None false) resp).
    + vm_compute in Hlog. subst new. left. reflexivity.
    + reflexivity.
    + simpl. lia.
Defined.

(** ** Resource operations *)

Lemma bind_py_get (m : M JSON) (dflt : JSON) (s : St) :
  bind m (fun response => py_get response "data" dflt) s =
  match m s with
  | (Ok (JDict kvs), s') => (Ok (default dflt (dict_lookup "data" kvs)), s')
  | (Ok _, s') => (Raise AttributeError, s')
  | (Raise e, s') => (Raise e, s')
  end.
Proof.
  unfold bind. destruct (m s) as [[j|e] s']; [|reflexivity].
  destruct j; reflexivity.
Qed.

Lemma new_requests_sent (s s1 : St) (req : Request) :
  requests_calls (world s1) = requests_calls (world s) ->
  new_requests s (sent s1 req) = [req].
Proof.
  intros H. unfold new_requests, sent; simpl. rewrite H.
  by rewrite drop_app_length.
Qed.

Lemma cancel_build_unfold (build_id : string) (s : St) :
  cancel_build build_id s =
  match _generate_jwt_token s with
  | (Ok t, s1) => (Raise (ValueError "Unsupported method: PATCH"), s1)
  | (Raise e, s1) => (Raise e, s1)
  end.
Proof.
  unfold cancel_build. rewrite bind_py_get, make_request_unfold.
  destruct (_generate_jwt_token s) as [[t|e] s1]; reflexivity.
Qed.

(** C1, as the code has it: [cancel_build] never reaches the HTTP layer.
    For every build id and every state it raises; no request is added to
    the log; and whenever a token could be obtained the exception is the
    dispatcher's own [ValueError] for the method PATCH. *)
Theorem cancel_build_never_dispatches (build_id : string) (s : St) :
  (exists e, fst (cancel_build build_id s) = Raise e)
  /\ requests_calls (world (snd (cancel_build build_id s)))
     = requests_calls (world s)
  /\ new_requests s (snd (cancel_build build_id s)) = []
  /\ forall t s1,
      _generate_jwt_token s = (Ok t, s1) ->
      cancel_build build_id s
        = (Raise (ValueError "Unsupported method: PATCH"), s1).
Proof.
  rewrite cancel_build_unfold.
  destruct (_generate_jwt_token s) as [[t|e] s1] eqn:Hgen;
    destruct (generate_frame s s1 _ Hgen) as (_ & _ & _ & _ & _ & Hlog & _);
    simpl; (split; [eexists; reflexivity|]); (split; [exact Hlog|]);
    (split; [unfold new_requests; rewrite Hlog; by rewrite drop_all|]).
  - by intros t' s1' [= <- <-].
  - intros t' s1' [=].
Qed.

(** C1 at a concrete call: cancelling build [b-1] with the key in place
    and a server that would accept anything. *)
Example cancel_build_example :
  let s := example_state 5000000 [("{}", JDict [])]
             (fun _ => Ok (mkResponse 200 (bytes_of "{}"))) in
  fst (cancel_build "b-1" s) = Raise (ValueError "Unsupported method: PATCH")
  /\ requests_calls (world (snd (cancel_build "b-1" s))) = [].
Proof. split; reflexivity. Qed.

Lemma snd_bind_py_get (m : M JSON) (dflt : JSON) (s : St) :
  snd (bind m (fun response => py_get response "data" dflt) s) = snd (m s).
Proof.
  rewrite bind_py_get. destruct (m s) as [[j|e] s']; [|reflexivity].
  destruct j; reflexivity.
Qed.

Lemma make_request_requests (endpoint method : string) (data : option JSON)
    (s s1 : St) (t : Token) (req : Request) :
  _generate_jwt_token s = (Ok t, s1) ->
  request_for (self s1) t endpoint method data = Some req ->
  snd (_make_request endpoint method data s) = sent s1 req
  /\ new_requests s (snd (_make_request endpoint method data s)) = [req].
Proof.
  intros Hgen Hreq. rewrite make_request_unfold, Hgen, Hreq.
  destruct (generate_frame s s1 _ Hgen) as (_ & _ & _ & _ & _ & Hlog & _).
  destruct (transport (world s1) req); simpl;
    (split; [reflexivity | by apply new_requests_sent]).
Qed.

Lemma trigger_build_unfold (workflow_id : string)
    (branch tag commit : option string) (s : St) :
  trigger_build workflow_id branch tag commit s =
  bind (_make_request ("/ciWorkflows/" +:+ workflow_id +:+ "/builds") "POST"
          (Some (build_run_body (trigger_build_attributes branch tag commit))))
       (fun response => py_get response "data" (JDict [])) s.
Proof.
  unfold trigger_build, trigger_build_attributes.
  destruct (truthy branch); [reflexivity|].
  destruct (truthy tag); [reflexivity|].
  destruct (truthy commit); reflexivity.
Qed.

Lemma trigger_build_requests (workflow_id : string)
    (branch tag commit : option string) (s s1 : St) (t : Token) :
  _generate_jwt_token s = (Ok t, s1) ->
  new_requests s (snd (trigger_build workflow_id branch tag commit s)) =
  [mkRequest POST
     (base_url (self s) +:+ "/ciWorkflows/" +:+ workflow_id +:+ "/builds")
     [("Authorization", Bearer t); ("Content-Type", HStr "application/json")]
     (Some (build_run_body (trigger_build_attributes branch tag commit)))
     false].
Proof.
  intros Hgen. rewrite trigger_build_unfold, snd_bind_py_get.
  destruct (generate_frame s s1 _ Hgen) as (_ & _ & _ & _ & _ & _ & _ & <- & _).
  by apply (make_request_requests _ _ _ s s1 t).
Qed.

Lemma truthy_nonempty (v : string) : v <> "" -> truthy (Some v) = true.
Proof.
  intros H. unfold truthy. destruct (String.eqb_spec v ""); [done|reflexivity].
Qed.

(** C5 (amended). With a token at hand, [trigger_build] sends exactly one
    request; when exactly one of branch, tag, commit is given and its value
    is not the empty string, the attributes of the body hold that
    attribute with that value and nothing else; when none is given the
    attributes are empty. *)
Theorem trigger_build_single_ref (workflow_id v : string) (s s1 : St)
    (t : Token) :
  _generate_jwt_token s = (Ok t, s1) ->
  v <> "" ->
  map req_json
      (new_requests s (snd (trigger_build workflow_id (Some v) None None s)))
    = [Some (build_run_body [("branch", JStr v)])]
  /\ map req_json
      (new_requests s (snd (trigger_build workflow_id None (Some v) None s)))
    = [Some (build_run_body [("tag", JStr v)])]
  /\ map req_json
      (new_requests s (snd (trigger_build workflow_id None None (Some v) s)))
    = [Some (build_run_body [("commit", JStr v)])]
  /\ map req_json
      (new_requests s (snd (trigger_build workflow_id None None None s)))
    = [Some (build_run_body [])].
Proof.
  intros Hgen Hv.
  rewrite !(trigger_build_requests _ _ _ _ s s1 t Hgen).
  unfold trigger_build_attributes. rewrite (truthy_nonempty v Hv).
  repeat split; reflexivity.
Qed.

(** C5, the claim as written fails when the one reference given is the
    empty string: the attributes are empty, the branch is not in them. *)
Lemma trigger_build_single_ref_counterexample :
  let s := example_state 5000000 [("{}", JDict [])]
             (fun _ => Ok (mkResponse 201 (bytes_of "{}"))) in
  map req_json
      (new_requests s (snd (trigger_build "wf-42" (Some "") None None s)))
    = [Some (build_run_body [])]
  /\ build_run_body [] <> build_run_body [("branch", JStr "")].
Proof.
  split; [vm_compute; reflexivity | discriminate].
Qed.

Lemma trigger_build_single_ref_witness :
  let s := example_state 5000000 [("{}", JDict [])]
             (fun _ => Ok (mkResponse 201 (bytes_of "{}"))) in
  map req_json
      (new_requests s (snd (trigger_build "wf-42" (Some "main") None None s)))
    = [Some (build_run_body [("branch", JStr "main")])].
Proof.
  intros s.
  apply (trigger_build_single_ref "wf-42" "main" s
           (snd (_generate_jwt_token s))
           (signed_at example_client 5000000 "EC PRIVATE KEY")).
  - reflexivity.
  - discriminate.
Defined.

(** C10. An empty string for branch, tag or commit makes [trigger_build]
    the same computation as leaving that argument out; and, with a token at
    hand, a non-empty branch is the only attribute sent whatever tag and
    commit are, a non-empty tag is the only one when the branch is absent
    or empty whatever the commit is, and a commit is sent only when both
    branch and tag are absent or empty. *)
Theorem trigger_build_ref_precedence (workflow_id : string)
    (branch tag commit : option string) (s s1 : St) (t : Token) :
  _generate_jwt_token s = (Ok t, s1) ->
  trigger_build workflow_id (Some "") tag commit
    = trigger_build workflow_id None tag commit
  /\ trigger_build workflow_id branch (Some "") commit
    = trigger_build workflow_id branch None commit
  /\ trigger_build workflow_id branch tag (Some "")
    = trigger_build workflow_id branch tag None
  /\ (forall v, v <> "" ->
        map req_json (new_requests s
          (snd (trigger_build workflow_id (Some v) tag commit s)))
        = [Some (build_run_body [("branch", JStr v)])])
  /\ (forall v, v <> "" -> truthy branch = false ->
        map req_json (new_requests s
          (snd (trigger_build workflow_id branch (Some v) commit s)))
        = [Some (build_run_body [("tag", JStr v)])])
  /\ (forall v, v <> "" -> truthy branch = false -> truthy tag = false ->
        map req_json (new_requests s
          (snd (trigger_build workflow_id branch tag (Some v) s)))
        = [Some (build_run_body [("commit", JStr v)])]).
Proof.
  intros Hgen.
  split; [reflexivity|]. split; [reflexivity|]. split; [reflexivity|].
  split; [|split].
  - intros v Hv. rewrite (trigger_build_requests _ _ _ _ s s1 t Hgen).
    unfold trigger_build_attributes. by rewrite (truthy_nonempty v Hv).
  - intros v Hv Hb. rewrite (trigger_build_requests _ _ _ _ s s1 t Hgen).
    unfold trigger_build_attributes. by rewrite Hb, (truthy_nonempty v Hv).
  - intros v Hv Hb Ht. rewrite (trigger_build_requests _ _ _ _ s s1 t Hgen).
    unfold trigger_build_attributes.
    by rewrite Hb, Ht, (truthy_nonempty v Hv).
Qed.

Lemma trigger_build_ref_precedence_witness :
  let s := example_state 5000000 [("{}", JDict [])]
             (fun _ => Ok (mkResponse 201 (bytes_of "{}"))) in
  map req_json (new_requests s
    (snd (trigger_build "wf-42" (Some "main") (Some "v1.0") (Some "abc123") s)))
  = [Some (build_run_body [("branch", JStr "main")])].
Proof.
  intros s.
  destruct (trigger_build_ref_precedence "wf-42" (Some "main") (Some "v1.0")
              (Some "abc123") s (snd (_generate_jwt_token s))
              (signed_at example_client 5000000 "EC PRIVATE KEY"))
    as (_ & _ & _ & Hbranch & _).
  - reflexivity.
  - apply Hbranch. discriminate.
Defined.

(** ** Listing builds *)

Lemma list_builds_unfold (workflow_id : option string) (limit : option Z)
    (s : St) :
  list_builds workflow_id limit s =
  bind (_make_request
          ((if truthy workflow_id
            then "/ciWorkflows/" +:+ str_of workflow_id +:+ "/builds"
            else "/apps/" +:+ app_id (self s) +:+ "/ciBuildRuns")
           +:+ "?limit=" +:+ pretty (default list_builds_default_limit limit))
          "GET" None)
       (fun response => py_get response "data" (JList [])) s.
Proof. reflexivity. Qed.

(** C6 (amended). With a token at hand and a server that answers the
    request with a status outside 400..599 and a JSON object, [list_builds]
    sends one GET carrying that token: to the builds of the workflow when a
    non-empty workflow id is given, to the build runs of the app when the
    id is absent or empty, in both cases with [?limit=] and the limit in
    decimal, 20 when none is given.  It returns the [data] entry of the
    answer as it is: every entry of the array, hence at most [limit] of
    them exactly when the server sent at most [limit]. *)
Theorem list_builds_request (workflow_id : option string) (limit : option Z)
    (s s1 : St) (t : Token) (resp : Response) (kvs : list (string * JSON)) :
  _generate_jwt_token s = (Ok t, s1) ->
  (forall req, transport (world s) req = Ok resp) ->
  status_code resp < 400 \/ 600 <= status_code resp ->
  json_loads (world s) (content resp) = Some (JDict kvs) ->
  exists req,
    list_builds workflow_id limit s
      = (Ok (default (JList []) (dict_lookup "data" kvs)), sent s1 req)
    /\ new_requests s (snd (list_builds workflow_id limit s)) = [req]
    /\ req_verb req = GET
    /\ attached_token req = Some t
    /\ (forall w, workflow_id = Some w -> w <> "" ->
          req_url req = base_url (self s) +:+
            ("/ciWorkflows/" +:+ w +:+ "/builds") +:+ "?limit=" +:+
            pretty (default 20 limit))
    /\ (workflow_id = None \/ workflow_id = Some "" ->
          req_url req = base_url (self s) +:+
            ("/apps/" +:+ app_id (self s) +:+ "/ciBuildRuns") +:+ "?limit=" +:+
            pretty (default 20 limit))
    /\ (forall entries,
          dict_lookup "data" kvs = Some (JList entries) ->
          fst (list_builds workflow_id limit s) = Ok (JList entries)).
Proof.
  intros Hgen Htr Hst Hj.
  destruct (generate_frame s s1 _ Hgen)
    as (_ & _ & _ & _ & _ & Hlog & _ & Hbase & _).
  set (endpoint :=
         (if truthy workflow_id
          then "/ciWorkflows/" +:+ str_of workflow_id +:+ "/builds"
          else "/apps/" +:+ app_id (self s) +:+ "/ciBuildRuns")
         +:+ "?limit=" +:+ pretty (default list_builds_default_limit limit)).
  set (req := mkRequest GET (base_url (self s1) +:+ endpoint)
                [("Authorization", Bearer t);
                 ("Content-Type", HStr "application/json")] None false).
  assert (Hreq : request_for (self s1) t endpoint "GET" None = Some req)
    by reflexivity.
  assert (Hlb : list_builds workflow_id limit s
                = (Ok (default (JList []) (dict_lookup "data" kvs)),
                   sent s1 req)).
  { rewrite list_builds_unfold, bind_py_get. fold endpoint.
    by rewrite (make_request_ok endpoint "GET" None s s1 t req resp
                  (JDict kvs) Hgen Hreq (Htr req) Hst Hj). }
  exists req. rewrite Hlb. simpl fst. simpl snd.
  split; [reflexivity|]. split; [by apply new_requests_sent|].
  split; [reflexivity|]. split; [reflexivity|].
  split; [|split].
  - intros w -> Hw. subst req endpoint. cbn [req_url].
    rewrite (truthy_nonempty w Hw), Hbase. reflexivity.
  - intros [-> | ->]; subst req endpoint; cbn [req_url]; rewrite Hbase;
      reflexivity.
  - intros entries ->. reflexivity.
Qed.

(** C6, the claim as written fails twice: the client returns all the
    entries the server sent, two of them for a limit of one; and an empty
    workflow id counts as no workflow id, the request goes to the build
    runs of the app. *)
Lemma list_builds_request_counterexample :
  let two := JDict [("data", JList [JDict [("id", JStr "b-1")];
                                    JDict [("id", JStr "b-2")]])] in
  let s := example_state 5000000 [("two builds", two)]
             (fun _ => Ok (mkResponse 200 (bytes_of "two builds"))) in
  (exists result,
      fst (list_builds (Some "wf-42") (Some 1) s) = Ok (JList result)
      /\ 1 < Z.of_nat (length result))
  /\ map req_url (new_requests s (snd (list_builds (Some "") (Some 5) s)))
     = ["https://api.appstoreconnect.apple.com/v1/apps/6751781514/ciBuildRuns?limit=5"].
Proof.
  split.
  - eexists. split; [vm_compute; reflexivity | simpl; lia].
  - vm_compute. reflexivity.
Qed.

Lemma list_builds_request_witness :
  let five := JDict [("data", JList [JDict [("id", JStr "b-1")]])] in
  let s := example_state 5000000 [("one build", five)]
             (fun _ => Ok (mkResponse 200 (bytes_of "one build"))) in
  map req_url (new_requests s (snd (list_builds (Some "wf-42") (Some 5) s)))
  = ["https://api.appstoreconnect.apple.com/v1/ciWorkflows/wf-42/builds?limit=5"]
  /\ fst (list_builds (Some "wf-42") (Some 5) s)
     = Ok (JList [JDict [("id", JStr "b-1")]]).
Proof.
  intros five s.
  destruct (list_builds_request (Some "wf-42") (Some 5) s
              (snd (_generate_jwt_token s))
              (signed_at example_client 5000000 "EC PRIVATE KEY")
              (mkResponse 200 (bytes_of "one build"))
              [("data", JList [JDict [("id", JStr "b-1")]])])
    as (req & Hlb & Hnew & _ & _ & Hurl & _ & Hdata).
  - reflexivity.
  - intros req. reflexivity.
  - left. simpl. lia.
  - reflexivity.
  - split.
    + rewrite Hnew. simpl. f_equal.
      rewrite (Hurl "wf-42" eq_refl ltac:(discriminate)). reflexivity.
    + apply (Hdata [JDict [("id", JStr "b-1")]]). reflexivity.
Defined.

(** ** Answers without a [data] entry *)

Lemma fetch_data (endpoint method : string) (data : option JSON)
    (dflt : JSON) (s s1 : St) (t : Token) (req : Request) (resp : Response)
    (kvs : list (string * JSON)) :
  _generate_jwt_token s = (Ok t, s1) ->
  request_for (self s1) t endpoint method data = Some req ->
  transport (world s) req = Ok resp ->
  status_code resp < 400 \/ 600 <= status_code resp ->
  json_loads (world s) (content resp) = Some (JDict kvs) ->
  bind (_make_request endpoint method data)
       (fun response => py_get response "data" dflt) s
  = (Ok (default dflt (dict_lookup "data" kvs)), sent s1 req).
Proof.
  intros Hgen Hreq Htr Hst Hj. rewrite bind_py_get.
  by rewrite (make_request_ok endpoint method data s s1 t req resp
                (JDict kvs) Hgen Hreq Htr Hst Hj).
Qed.

Ltac fetch_default Hgen Htr Hst Hj Hd :=
  match goal with
  | |- fst (bind (_make_request ?e ?m ?d) _ ?s) = _ =>
      erewrite (fetch_data e m d _ s _ _ _ _ _ Hgen eq_refl (Htr _) Hst Hj);
      simpl; rewrite Hd; reflexivity
  end.

(** C9, as the code has it.  When the server answers with a 2xx status and
    a JSON object without a [data] entry, and a token is at hand, the three
    collection operations return the empty list and [get_workflow],
    [get_build], [trigger_build] and [retry_build] return the empty dict;
    [cancel_build] returns nothing: it raises before any request is
    made. *)
Theorem missing_data_defaults (s s1 : St) (t : Token) (resp : Response)
    (kvs : list (string * JSON)) :
  _generate_jwt_token s = (Ok t, s1) ->
  (forall req, transport (world s) req = Ok resp) ->
  200 <= status_code resp < 300 ->
  json_loads (world s) (content resp) = Some (JDict kvs) ->
  dict_lookup "data" kvs = None ->
  fst (list_workflows s) = Ok (JList [])
  /\ (forall wf limit, fst (list_builds wf limit s) = Ok (JList []))
  /\ (forall b, fst (get_build_artifacts b s) = Ok (JList []))
  /\ (forall wf, fst (get_workflow wf s) = Ok (JDict []))
  /\ (forall b, fst (get_build b s) = Ok (JDict []))
  /\ (forall wf branch tag commit,
        fst (trigger_build wf branch tag commit s) = Ok (JDict []))
  /\ (forall b, fst (retry_build b s) = Ok (JDict []))
  /\ (forall b, fst (cancel_build b s)
                = Raise (ValueError "Unsupported method: PATCH")).
Proof.
  intros Hgen Htr Hst Hj Hd.
  assert (Hst' : status_code resp < 400 \/ 600 <= status_code resp) by lia.
  repeat split; intros.
  - change (list_workflows s) with
      (bind (_make_request ("/apps/" +:+ app_id (self s) +:+ "/ciWorkflows")
               "GET" None)
            (fun response => py_get response "data" (JList [])) s).
    fetch_default Hgen Htr Hst' Hj Hd.
  - rewrite list_builds_unfold. fetch_default Hgen Htr Hst' Hj Hd.
  - unfold get_build_artifacts. fetch_default Hgen Htr Hst' Hj Hd.
  - unfold get_workflow. fetch_default Hgen Htr Hst' Hj Hd.
  - unfold get_build. fetch_default Hgen Htr Hst' Hj Hd.
  - rewrite trigger_build_unfold. fetch_default Hgen Htr Hst' Hj Hd.
  - unfold retry_build. fetch_default Hgen Htr Hst' Hj Hd.
  - rewrite cancel_build_unfold, Hgen. reflexivity.
Qed.

Lemma missing_data_defaults_witness :
  let s := example_state 5000000 [("{}", JDict [])]
             (fun _ => Ok (mkResponse 200 (bytes_of "{}"))) in
  fst (get_build "b-1" s) = Ok (JDict [])
  /\ fst (cancel_build "b-1" s)
     = Raise (ValueError "Unsupported method: PATCH").
Proof.
  intros s.
  destruct (missing_data_defaults s (snd (_generate_jwt_token s))
              (signed_at example_client 5000000 "EC PRIVATE KEY")
              (mkResponse 200 (bytes_of "{}")) [])
    as (_ & _ & _ & _ & Hget & _ & _ & Hcancel).
  - reflexivity.
  - intros req. reflexivity.
  - simpl. lia.
  - reflexivity.
  - reflexivity.
  - split; [apply Hget | apply Hcancel].
Defined.

(** ** Downloading an artifact *)

Lemma iter_content_fuel_concat (fuel n : nat) (body : list byte) :
  (0 < n)%nat -> (length body <= fuel)%nat ->
  concat (iter_content_fuel fuel n body) = body.
Proof.
  intros Hn. revert body. induction fuel as [|fuel IH]; intros body Hlen.
  - destruct body; [reflexivity | simpl in Hlen; lia].
  - destruct body as [|b body]; [reflexivity|].
    cbn [iter_content_fuel concat]. rewrite IH.
    + apply take_drop.
    + rewrite length_drop. simpl in Hlen |- *. lia.
Qed.

Lemma iter_content_fuel_sizes (fuel n : nat) (body : list byte) :
  (0 < n)%nat ->
  Forall (fun c => (0 < length c <= n)%nat) (iter_content_fuel fuel n body).
Proof.
  intros Hn. revert body. induction fuel as [|fuel IH]; intros body.
  - constructor.
  - destruct body as [|b body]; [constructor|].
    cbn [iter_content_fuel]. constructor; [|apply IH].
    rewrite length_take. simpl length. lia.
Qed.

Lemma chunk_size_pos : (0 < CHUNK_SIZE)%nat.
Proof. unfold CHUNK_SIZE. lia. Qed.

(** The chunks of a body are never empty, never longer than the chunk
    size, and put together they are the body. *)
Lemma iter_content_spec (body : list byte) :
  concat (iter_content CHUNK_SIZE body) = body
  /\ Forall (fun c => (0 < length c <= CHUNK_SIZE)%nat)
            (iter_content CHUNK_SIZE body).
Proof.
  split.
  - apply iter_content_fuel_concat; [apply chunk_size_pos | lia].
  - apply iter_content_fuel_sizes, chunk_size_pos.
Qed.

(** The write loop appends the chunks in order to the open file and does
    nothing else. *)
Lemma write_chunks_spec (path : string) (chunks : list (list byte)) (s : St)
    (cur : list byte) :
  files (world s) !! path = Some cur ->
  exists s',
    write_chunks path chunks s = (Ok tt, s')
    /\ files (world s') !! path = Some (cur ++ concat chunks)%list
    /\ write_log (world s')
       = (write_log (world s) ++ map (fun c => (path, c)) chunks)%list
    /\ requests_calls (world s') = requests_calls (world s)
    /\ self s' = self s.
Proof.
  revert s cur. induction chunks as [|chunk chunks IH]; intros s cur Hcur.
  - exists s. simpl. rewrite !app_nil_r. by repeat split.
  - cbn [write_chunks]. unfold bind at 1, f_write. unfold_monad.
    set (s1 := mkSt (self s) _).
    destruct (IH s1 (cur ++ chunk)%list) as (s' & Hrun & Hfile & Hlog & Hh & Hs).
    { subst s1. simpl. rewrite Hcur. simpl. apply lookup_insert_eq. }
    exists s'. split; [exact Hrun|]. split.
    { rewrite Hfile. simpl. by rewrite <- app_assoc. }
    split; [|split; [exact Hh | exact Hs]].
    rewrite Hlog. subst s1. simpl. by rewrite <- app_assoc.
Qed.

Lemma download_artifact_unfold (artifact_id output_path : string) (s : St) :
  download_artifact artifact_id output_path s =
  match _generate_jwt_token s with
  | (Raise e, s1) => (Raise e, s1)
  | (Ok t, s1) =>
      let req := mkRequest GET
                   (base_url (self s1) +:+
                    "/ciArtifacts/" +:+ artifact_id +:+ "/download")
                   [("Authorization", Bearer t)] None true in
      let s2 := sent s1 req in
      match transport (world s1) req with
      | Raise e => (Raise e, s2)
      | Ok resp =>
          if (400 <=? status_code resp) && (status_code resp <? 600)
          then (Raise (HTTPError resp), s2)
          else if writable (world s2) output_path
               then write_chunks output_path
                      (iter_content CHUNK_SIZE (content resp))
                      (mkSt (self s2)
                         (set_files (<[output_path := []]> (files (world s2)))
                                    (world s2)))
               else (Raise (PermissionError output_path), s2)
      end
  end.
Proof.
  unfold download_artifact, requests_get, requests_request, raise_for_status,
    open_wb.
  unfold_monad. destruct (_generate_jwt_token s) as [[t|e] s1]; [|reflexivity].
  cbv zeta. destruct (transport (world s1) _) as [resp|e]; [|reflexivity].
  destruct ((400 <=? status_code resp) && (status_code resp <? 600));
    [reflexivity|].
  cbn [world self sent set_requests_calls writable].
  destruct (writable (world s1) output_path); reflexivity.
Qed.

(** C8. A download that succeeds sent one streamed GET for the artifact
    with the token attached, and left at the destination exactly the bytes
    of the response body; it wrote them as a sequence of chunks, none
    empty and none longer than 8192 bytes, appended in order. *)
Theorem download_artifact_streams (artifact_id output_path : string)
    (s s' : St) :
  download_artifact artifact_id output_path s = (Ok tt, s') ->
  exists t req resp chunks,
    new_requests s s' = [req]
    /\ req = mkRequest GET
               (base_url (self s) +:+
                "/ciArtifacts/" +:+ artifact_id +:+ "/download")
               [("Authorization", Bearer t)] None true
    /\ req_stream req = true
    /\ transport (world s) req = Ok resp
    /\ files (world s') !! output_path = Some (content resp)
    /\ write_log (world s')
       = (write_log (world s) ++ map (fun c => (output_path, c)) chunks)%list
    /\ concat chunks = content resp
    /\ Forall (fun c => (0 < length c <= Z.to_nat 8192)%nat) chunks.
Proof.
  rewrite download_artifact_unfold.
  destruct (_generate_jwt_token s) as [[t|e] s1] eqn:Hgen; [|discriminate].
  destruct (generate_frame s s1 _ Hgen)
    as (_ & _ & Htr & _ & _ & Hlog & Hwl & Hbase & _).
  cbv zeta.
  set (req := mkRequest GET _ _ None true).
  destruct (transport (world s1) req) as [resp|e] eqn:Hresp; [|discriminate].
  destruct ((400 <=? status_code resp) && (status_code resp <? 600));
    [discriminate|].
  destruct (writable (world (sent s1 req)) output_path); [|discriminate].
  set (s3 := mkSt _ _).
  destruct (write_chunks_spec output_path
              (iter_content CHUNK_SIZE (content resp)) s3 [])
    as (s4 & Hrun & Hfile & Hwlog & Hhlog & _).
  { subst s3. simpl. apply lookup_insert_eq. }
  rewrite Hrun. intros [= <-].
  destruct (iter_content_spec (content resp)) as [Hcat Hsizes].
  exists t, req, resp, (iter_content CHUNK_SIZE (content resp)).
  split.
  { unfold new_requests. rewrite Hhlog. subst s3. simpl. rewrite Hlog.
    by rewrite drop_app_length. }
  split; [subst req; by rewrite Hbase|].
  split; [reflexivity|].
  split; [by rewrite <- Htr|].
  split; [by rewrite Hfile, Hcat|].
  split; [rewrite Hwlog; subst s3; simpl; by rewrite Hwl|].
  split; [exact Hcat | exact Hsizes].
Qed.

Lemma download_artifact_streams_witness :
  let s := example_state 5000000 []
             (fun _ => Ok (mkResponse 200 (bytes_of "binary artifact"))) in
  files (world (snd (download_artifact "art-7" "out.zip" s))) !! "out.zip"
  = Some (bytes_of "binary artifact").
Proof.
  intros s.
  destruct (download_artifact_streams "art-7" "out.zip" s
              (snd (download_artifact "art-7" "out.zip" s)))
    as (t & req & resp & chunks & _ & Hreq & _ & Hresp & Hfile & _).
  - vm_compute. reflexivity.
  - rewrite Hfile. f_equal. subst req. simpl in Hresp.
    by injection Hresp as <-.
Defined.

(** ** No stale token *)

Lemma generate_token_fresh (s s1 : St) (t : Token) :
  cache_ok s ->
  _generate_jwt_token s = (Ok t, s1) ->
  cache_ok s1
  /\ clock (world s) < exp (tok_payload t) * MICRO
  /\ (cache_valid s = false ->
      iat (tok_payload t) = Z.quot (clock (world s)) MICRO
      /\ In t (drop (length (sign_log (world s))) (sign_log (world s1)))).
Proof.
  intros Hok Hgen.
  destruct (generate_returns s s1 t Hgen)
    as [(Hv & Ht & ->) | (Hv & key & _ & -> & ->)].
  - split; [exact Hok|]. split; [|by rewrite Hv].
    destruct (cache_valid_true s Hv) as (t0 & d & Ht0 & Hd & Hlt).
    rewrite Ht in Ht0. injection Ht0 as <-.
    specialize (Hok t d Ht Hd). unfold local_now in Hlt. lia.
  - pose proof (quot_micro_bounds (clock (world s))) as [Hlo _].
    split; [|split].
    + intros t d [= <-] [= <-]. simpl.
      unfold local_now, timedelta_minutes, MICRO in *. lia.
    + simpl. unfold MICRO in *. lia.
    + intros _. split; [reflexivity|]. simpl.
      rewrite drop_app_length. by left.
Qed.

Lemma write_chunks_offset (path : string) (chunks : list (list byte))
    (s : St) :
  utc_offset (world (snd (write_chunks path chunks s)))
  = utc_offset (world s).
Proof.
  revert s. induction chunks as [|chunk chunks IH]; intros s; [done|].
  cbn [write_chunks]. unfold bind at 1, f_write. unfold_monad.
  by rewrite IH.
Qed.

Lemma make_request_log (endpoint method : string) (data : option JSON)
    (s : St) :
  cache_ok s -> logged_fresh s (snd (_make_request endpoint method data s)).
Proof.
  intros Hok. rewrite make_request_unfold.
  destruct (_generate_jwt_token s) as [[t|e] s1] eqn:Hgen.
  - destruct (generate_token_fresh s s1 t Hok Hgen) as (Hok1 & Hexp & Hiat).
    destruct (generate_frame s s1 _ Hgen) as (Hclk & _ & _ & _ & _ & Hlog & _).
    pose proof (generate_offset s s1 _ Hgen) as Hoff.
    destruct (request_for (self s1) t endpoint method data) as [req|] eqn:Hreq.
    + assert (Hatt : attached_token req = Some t).
      { revert Hreq. unfold request_for.
        destruct (String.eqb method "GET"); [by intros [= <-]|].
        destruct (String.eqb method "POST"); [by intros [= <-]|].
        destruct (String.eqb method "DELETE"); [by intros [= <-]|].
        discriminate. }
      assert (Hfresh : fresh_request s (clock (world s1), req)).
      { split; [exact Hclk|]. exists t. rewrite Hgen. cbn [snd].
        split; [exact Hatt|]. split; [exact Hexp | exact Hiat]. }
      destruct (transport (world s1) req); cbn [snd];
        (split; [exact Hok1|]); (split; [exact Hoff|]);
        exists [(clock (world s1), req)];
        (split; [simpl; by rewrite Hlog | by constructor]).
    + simpl. split; [exact Hok1|]. split; [exact Hoff|].
      exists []. split; [by rewrite app_nil_r|]. constructor.
  - destruct (generate_raises s s1 e Hgen) as [-> _]. simpl.
    split; [exact Hok|]. split; [done|].
    exists []. split; [by rewrite app_nil_r|]. constructor.
Qed.

Lemma download_artifact_log (artifact_id output_path : string) (s : St) :
  cache_ok s ->
  logged_fresh s (snd (download_artifact artifact_id output_path s)).
Proof.
  intros Hok. rewrite download_artifact_unfold.
  destruct (_generate_jwt_token s) as [[t|e] s1] eqn:Hgen.
  - destruct (generate_token_fresh s s1 t Hok Hgen) as (Hok1 & Hexp & Hiat).
    destruct (generate_frame s s1 _ Hgen) as (Hclk & _ & _ & _ & _ & Hlog & _).
    pose proof (generate_offset s s1 _ Hgen) as Hoff.
    cbv zeta. set (req := mkRequest GET _ _ None true).
    assert (Hfresh : Forall (fresh_request s) [(clock (world s1), req)]).
    { constructor; [|constructor]. split; [exact Hclk|].
      exists t. rewrite Hgen. cbn [snd].
      split; [reflexivity|]. split; [exact Hexp | exact Hiat]. }
    assert (Hsent : logged_fresh s (sent s1 req)).
    { split; [exact Hok1|]. split; [exact Hoff|].
      exists [(clock (world s1), req)].
      split; [simpl; by rewrite Hlog | exact Hfresh]. }
    destruct (transport (world s1) req) as [resp|e]; [|exact Hsent].
    destruct ((400 <=? status_code resp) && (status_code resp <? 600));
      [exact Hsent|].
    destruct (writable (world (sent s1 req)) output_path); [|exact Hsent].
    set (s3 := mkSt _ _).
    destruct (write_chunks_spec output_path
                (iter_content CHUNK_SIZE (content resp)) s3 [])
      as (s4 & Hrun & _ & _ & Hhlog & Hself).
    { subst s3. simpl. apply lookup_insert_eq. }
    pose proof (write_chunks_offset output_path
                  (iter_content CHUNK_SIZE (content resp)) s3) as Ho4.
    rewrite Hrun in *. cbn [snd] in *.
    destruct Hsent as (Hc & Ho & Hl). unfold logged_fresh, cache_ok.
    rewrite Hself, Hhlog, Ho4. split; [exact Hc|]. split; [exact Ho|].
    exact Hl.
  - destruct (generate_raises s s1 e Hgen) as [-> _]. simpl.
    split; [exact Hok|]. split; [done|].
    exists []. split; [by rewrite app_nil_r|]. constructor.
Qed.

Lemma run_call_log (c : Call) (s : St) :
  cache_ok s -> logged_fresh s (snd (run_call c s)).
Proof.
  intros Hok. destruct c; cbn [run_call].
  - change (list_workflows s) with
      (bind (_make_request ("/apps/" +:+ app_id (self s) +:+ "/ciWorkflows")
               "GET" None)
            (fun response => py_get response "data" (JList [])) s).
    rewrite snd_bind_py_get. by apply make_request_log.
  - unfold get_workflow. rewrite snd_bind_py_get. by apply make_request_log.
  - rewrite list_builds_unfold, snd_bind_py_get. by apply make_request_log.
  - unfold get_build. rewrite snd_bind_py_get. by apply make_request_log.
  - rewrite trigger_build_unfold, snd_bind_py_get. by apply make_request_log.
  - unfold cancel_build. rewrite snd_bind_py_get. by apply make_request_log.
  - unfold retry_build. rewrite snd_bind_py_get. by apply make_request_log.
  - unfold get_build_artifacts. rewrite snd_bind_py_get.
    by apply make_request_log.
  - assert (Hsnd : snd (bind (download_artifact artifact_id output_path)
                          (fun _ => ret JNull) s)
                   = snd (download_artifact artifact_id output_path s)).
    { unfold bind, ret.
      destruct (download_artifact artifact_id output_path s) as [[[]|e] s'];
        reflexivity. }
    rewrite Hsnd. by apply download_artifact_log.
Qed.

Lemma fresh_request_unexpired (s : St) (e : Z * Request) :
  fresh_request s e -> unexpired_at e.
Proof.
  intros (Hat & t & Ht & Hexp & _). exists t. split; [exact Ht|].
  by rewrite Hat.
Qed.

Lemma run_events_invariant (es : list Event) (s : St) :
  cache_ok s -> Forall unexpired_at (requests_calls (world s)) ->
  offsets_rise (utc_offset (world s)) es ->
  cache_ok (run_events es s)
  /\ Forall unexpired_at (requests_calls (world (run_events es s))).
Proof.
  revert s. induction es as [|e es IH]; intros s Hok Hlog Hes; [by split|].
  cbn [run_events fold_left].
  destruct e as [now fs tr|off|c]; cbn [step offsets_rise] in *.
  - by apply IH.
  - destruct Hes as [Hle Hes]. apply IH; [|done|done].
    intros t d Ht Hd. specialize (Hok t d Ht Hd). cbn. lia.
  - destruct (run_call_log c s Hok) as (Hok' & Hoff & new & Hnew & Hfresh).
    apply IH; [exact Hok'| |by rewrite Hoff].
    rewrite Hnew. apply Forall_app. split; [exact Hlog|].
    eapply Forall_impl; [exact Hfresh|]. apply fresh_request_unexpired.
Qed.

(** While the offset of local time does not get smaller, no stale token:
    start from a freshly constructed client and let any such sequence of
    environment changes and client calls happen.  Every call of [requests]
    in the log carried, as its bearer token, a token whose expiry claim lay
    in the future when the call was made.  Once the local time has reached
    the cached expiry minus the safety margin, a token the client obtains
    is one it signs then, issued at the current time, not the cached one.
    And for any further operation: each call of [requests] it adds carries
    a token unexpired at that time. *)
Theorem no_stale_token (issuer key path app : string) (w : World)
    (es : list Event) (c : Call) :
  Forall unexpired_at (requests_calls w) ->
  offsets_rise (utc_offset w) es ->
  let s := run_events es (mkSt (init issuer key path app) w) in
  Forall unexpired_at (requests_calls (world s))
  /\ (forall e t s1,
        cached_expiry (self s) = Some e ->
        e - SAFETY_MARGIN <= local_now (world s) ->
        _generate_jwt_token s = (Ok t, s1) ->
        sign_log (world s1) = (sign_log (world s) ++ [t])%list
        /\ iat (tok_payload t) = Z.quot (clock (world s)) MICRO)
  /\ exists new,
      requests_calls (world (snd (run_call c s)))
      = (requests_calls (world s) ++ new)%list
      /\ Forall (fresh_request s) new
      /\ Forall unexpired_at new.
Proof.
  intros Hlog Hes s.
  destruct (run_events_invariant es (mkSt (init issuer key path app) w))
    as [Hok Hun]; [by intros t d [=] | exact Hlog | exact Hes |].
  fold s in Hok, Hun. split; [exact Hun|]. split.
  - intros e t s1 He Hle Hgen.
    assert (Hc : cache_valid s = false).
    { apply cache_valid_false.
      intros (t' & e' & _ & He' & Hlt). rewrite He in He'.
      injection He' as <-. lia. }
    destruct (generate_returns s s1 t Hgen)
      as [(Hv & _) | (_ & k & _ & -> & ->)]; [congruence|].
    by split.
  - destruct (run_call_log c s Hok) as (_ & _ & new & Hnew & Hfresh).
    exists new. split; [exact Hnew|]. split; [exact Hfresh|].
    eapply Forall_impl; [exact Hfresh|]. apply fresh_request_unexpired.
Qed.

Lemma no_stale_token_witness :
  let ok : Request -> Result Response :=
    fun _ => Ok (mkResponse 200 (bytes_of "{}")) in
  let w := example_world 5000000 [("{}", JDict [])] ok in
  let es := [Invoke ListWorkflows;
             Timezone (3600 * MICRO);
             Environment (5000000 + 1150 * MICRO) (files w) ok;
             Invoke (GetBuild "b-1")] in
  Forall unexpired_at
    (requests_calls (world (run_events es
       (mkSt (init "iss-1" "key-1" "AuthKey.p8" "6751781514") w)))).
Proof.
  intros ok w es.
  apply (no_stale_token "iss-1" "key-1" "AuthKey.p8" "6751781514" w es
           ListWorkflows).
  - constructor.
  - cbn. unfold MICRO. lia.
Defined.

(** A history in local time UTC: two calls, the second one, made 1150
    seconds after the first, with a token of its own. *)
Example two_calls_history :
  let ok : Request -> Result Response :=
    fun _ => Ok (mkResponse 200 (bytes_of "{}")) in
  let w := example_world 5000000 [("{}", JDict [])] ok in
  let es := [Invoke ListWorkflows;
             Environment (5000000 + 1150 * MICRO) (files w) ok;
             Invoke (GetBuild "b-1")] in
  map (fun e => (fst e, option_map (fun t => iat (tok_payload t))
                          (attached_token (snd e))))
      (requests_calls (world (run_events es
         (mkSt (init "iss-1" "key-1" "AuthKey.p8" "6751781514") w))))
  = [(5000000, Some 5); (1155000000, Some 1155)].
Proof. vm_compute. reflexivity. Qed.

(** C4. An expired token is attached after the offset of local time went
    down.  The cache test compares the local time with a refresh time that
    was taken in local time, while the expiry claim of the token counts
    from the epoch: whenever the local time is still before the stored
    refresh time although the expiry claim has been reached, the
    dispatcher signs nothing and hands [requests] the cached token, expired
    as it is. *)
Theorem stale_token_after_offset_drop (s : St) (t : Token) (d : Z)
    (endpoint : string) :
  token (self s) = Some t -> token_expiry (self s) = Some d ->
  local_now (world s) < d ->
  exp (tok_payload t) * MICRO <= clock (world s) ->
  let s' := snd (_make_request endpoint "GET" None s) in
  exists req,
    requests_calls (world s')
    = (requests_calls (world s) ++ [(clock (world s), req)])%list
    /\ attached_token req = Some t
    /\ ~ unexpired_at (clock (world s), req)
    /\ sign_log (world s') = sign_log (world s).
Proof.
  intros Ht Hd Hlt Hexp s'. subst s'.
  rewrite make_request_unfold, (generate_valid s t d Ht Hd Hlt).
  cbn [request_for String.eqb Ascii.eqb Bool.eqb].
  eexists. assert (Hnot : forall r, attached_token r = Some t ->
                            ~ unexpired_at (clock (world s), r)).
  { intros r Hr (t' & Ht' & Hun). cbn [fst snd] in *. rewrite Hr in Ht'.
    injection Ht' as <-. lia. }
  destruct (transport (world s) _); cbn [snd sent world requests_calls sign_log
    set_requests_calls]; (split; [reflexivity|]); (split; [reflexivity|]);
    (split; [by apply Hnot | reflexivity]).
Qed.

(** The state of the theorem is reached from a fresh client: a first call,
    then local time is set back by an hour, and twenty-five minutes after
    the first call a second one carries the token of the first, whose
    expiry claim lies five minutes in the past. *)
Lemma stale_token_after_offset_drop_witness :
  let ok : Request -> Result Response :=
    fun _ => Ok (mkResponse 200 (bytes_of "{}")) in
  let w := example_world 5000000 [("{}", JDict [])] ok in
  let es := [Invoke ListWorkflows;
             Timezone (- 3600 * MICRO);
             Environment (5000000 + 1500 * MICRO) (files w) ok] in
  let s := run_events es
             (mkSt (init "iss-1" "key-1" "AuthKey.p8" "6751781514") w) in
  map (fun e => (fst e, option_map (fun t => exp (tok_payload t))
                          (attached_token (snd e))))
      (requests_calls
         (world (snd (_make_request "/ciBuildRuns/b-1" "GET" None s))))
  = [(5000000, Some 1205); (1505000000, Some 1205)].
Proof.
  intros ok w es s.
  destruct (stale_token_after_offset_drop s
              (signed_at (init "iss-1" "key-1" "AuthKey.p8" "6751781514")
                 5000000 "EC PRIVATE KEY")
              (5000000 + timedelta_minutes 19) "/ciBuildRuns/b-1")
    as (req & Hlog & Hatt & _).
  - reflexivity.
  - reflexivity.
  - vm_compute. reflexivity.
  - vm_compute. discriminate.
  - rewrite Hlog. rewrite map_app. cbn [map fst snd]. rewrite Hatt.
    reflexivity.
Defined.

(** * Further properties of the client *)

(** ** What a call does to the state *)

Lemma generate_same (s s' : St) (r : Result Token) :
  _generate_jwt_token s = (r, s') ->
  same_configuration (self s) (self s')
  /\ same_environment (world s) (world s').
Proof.
  intros H. destruct r as [t|e].
  - destruct (generate_returns s s' t H) as [(_ & _ & ->) | (_ & k & _ & _ & ->)];
      repeat split.
  - destruct (generate_raises s s' e H) as [-> _]. repeat split.
Qed.

Lemma make_request_effects (endpoint method : string) (data : option JSON)
    (s : St) :
  match _generate_jwt_token s with
  | (Raise e, s1) => _make_request endpoint method data s = (Raise e, s1)
  | (Ok t, s1) =>
      match request_for (self s1) t endpoint method data with
      | None =>
          _make_request endpoint method data s
          = (Raise (ValueError ("Unsupported method: " +:+ method)), s1)
      | Some req =>
          snd (_make_request endpoint method data s) = sent s1 req
      end
  end.
Proof.
  rewrite make_request_unfold.
  destruct (_generate_jwt_token s) as [[t|e] s1]; [|reflexivity].
  destruct (request_for (self s1) t endpoint method data); [|reflexivity].
  destruct (transport (world s1) r); reflexivity.
Qed.

Lemma snd_bind_ret {A B} (m : M A) (b : B) (s : St) :
  snd (bind m (fun _ => ret b) s) = snd (m s).
Proof. unfold bind, ret. destruct (m s) as [[a|e] s']; reflexivity. Qed.

Lemma fetch_state (endpoint method : string) (data : option JSON)
    (dflt : JSON) (s s1 : St) (t : Token) (P : string -> Prop) :
  _generate_jwt_token s = (Ok t, s1) ->
  match request_for (self s1) t endpoint method data with
  | None =>
      exists e,
        bind (_make_request endpoint method data)
             (fun response => py_get response "data" dflt) s = (Raise e, s1)
  | Some req =>
      let s' := snd (bind (_make_request endpoint method data)
                       (fun response => py_get response "data" dflt) s) in
      self s' = self s1
      /\ same_environment (world s1) (world s')
      /\ sign_log (world s') = sign_log (world s1)
      /\ requests_calls (world s')
         = (requests_calls (world s1) ++ [(clock (world s1), req)])%list
      /\ (forall p, P p -> files (world s') !! p = files (world s1) !! p)
  end.
Proof.
  intros Hgen. pose proof (make_request_effects endpoint method data s) as H.
  rewrite Hgen in H.
  destruct (request_for (self s1) t endpoint method data) as [req|].
  - cbv zeta. rewrite snd_bind_py_get, H. repeat split.
  - rewrite bind_py_get, H. by eexists.
Qed.

Lemma write_chunks_frame (path : string) (chunks : list (list byte))
    (s : St) :
  same_environment (world s) (world (snd (write_chunks path chunks s)))
  /\ sign_log (world (snd (write_chunks path chunks s))) = sign_log (world s)
  /\ forall q, q <> path ->
       files (world (snd (write_chunks path chunks s))) !! q
       = files (world s) !! q.
Proof.
  revert s. induction chunks as [|chunk chunks IH]; intros s.
  - by repeat split.
  - cbn [write_chunks]. unfold bind at 1, f_write. unfold_monad.
    set (s1 := mkSt (self s) _). destruct (IH s1) as (He & Hsl & Hf).
    split; [exact He|]. split; [exact Hsl|].
    intros q Hq. rewrite (Hf q Hq). subst s1. simpl.
    by apply lookup_insert_ne.
Qed.

(** The state after any operation: the state token generation left,
    with the one call of [requests] logged when there is one, and,
    for a download, the file system as the download left it. *)
Lemma run_call_state (c : Call) (s : St) :
  match _generate_jwt_token s with
  | (Raise e, s1) => run_call c s = (Raise e, s)
  | (Ok t, s1) =>
      match call_request c (self s1) t with
      | None => exists e, run_call c s = (Raise e, s1)
      | Some req =>
          let s' := snd (run_call c s) in
          self s' = self s1
          /\ same_environment (world s1) (world s')
          /\ sign_log (world s') = sign_log (world s1)
          /\ requests_calls (world s')
             = (requests_calls (world s1) ++ [(clock (world s1), req)])%list
          /\ (forall p, (forall i, c <> DownloadArtifact i p) ->
                files (world s') !! p = files (world s1) !! p)
      end
  end.
Proof.
  destruct (_generate_jwt_token s) as [[t|e] s1] eqn:Hgen.
  - destruct (generate_frame s s1 _ Hgen)
      as (_ & _ & _ & _ & _ & _ & _ & _ & Happ).
    destruct c; cbn [run_call call_request].
    + change (list_workflows s) with
        (bind (_make_request ("/apps/" +:+ app_id (self s) +:+ "/ciWorkflows")
                 "GET" None)
              (fun response => py_get response "data" (JList [])) s).
      rewrite <- Happ. by apply fetch_state.
    + by apply fetch_state.
    + rewrite list_builds_unfold, <- Happ. by apply fetch_state.
    + by apply fetch_state.
    + rewrite trigger_build_unfold. by apply fetch_state.
    + rewrite cancel_build_unfold, Hgen. by eexists.
    + by apply fetch_state.
    + by apply fetch_state.
    + cbv zeta. rewrite snd_bind_ret, download_artifact_unfold, Hgen. cbv zeta.
      set (req := mkRequest GET _ _ None true).
      assert (Hsent : self (sent s1 req) = self s1
        /\ same_environment (world s1) (world (sent s1 req))
        /\ sign_log (world (sent s1 req)) = sign_log (world s1)
        /\ requests_calls (world (sent s1 req))
           = (requests_calls (world s1) ++ [(clock (world s1), req)])%list
        /\ (forall p, (forall i, DownloadArtifact artifact_id output_path
                                 <> DownloadArtifact i p) ->
              files (world (sent s1 req)) !! p = files (world s1) !! p))
        by repeat split.
      destruct (transport (world s1) req) as [resp|e]; [|exact Hsent].
      destruct ((400 <=? status_code resp) && (status_code resp <? 600));
        [exact Hsent|].
      destruct (writable (world (sent s1 req)) output_path); [|exact Hsent].
      set (s3 := mkSt _ _).
      destruct (write_chunks_spec output_path
                  (iter_content CHUNK_SIZE (content resp)) s3 [])
        as (s4 & Hrun & _ & _ & Hhlog & Hself).
      { subst s3. simpl. apply lookup_insert_eq. }
      destruct (write_chunks_frame output_path
                  (iter_content CHUNK_SIZE (content resp)) s3)
        as (He & Hsl & Hf).
      rewrite Hrun in *. cbn [snd] in *.
      split; [by rewrite Hself|]. split; [exact He|].
      split; [by rewrite Hsl|]. split; [by rewrite Hhlog|].
      intros p Hp. assert (p <> output_path) as Hne.
      { intros ->. by apply (Hp artifact_id). }
      rewrite (Hf p Hne). subst s3. simpl. by apply lookup_insert_ne.
  - destruct (generate_raises s s1 e Hgen) as [-> _].
    assert (Hmr : forall endpoint method data dflt,
      bind (_make_request endpoint method data)
           (fun response => py_get response "data" dflt) s = (Raise e, s)).
    { intros. by rewrite bind_py_get, make_request_unfold, Hgen. }
    destruct c; cbn [run_call]; try apply Hmr.
    + rewrite trigger_build_unfold. apply Hmr.
    + unfold bind at 1. by rewrite download_artifact_unfold, Hgen.
Qed.

Lemma call_request_returns_data (c : Call) (cl : Client) (t : Token) :
  returns_data c = true -> exists req, call_request c cl t = Some req.
Proof. destruct c; try discriminate; intros _; by eexists. Qed.

(** The result of an operation that hands back [data]: what the transport
    raised, or what the dispatcher made of the response, with [get]
    applied to a parsed document. *)
Lemma run_call_result (c : Call) (s s1 : St) (t : Token) (req : Request) :
  returns_data c = true ->
  _generate_jwt_token s = (Ok t, s1) ->
  call_request c (self s1) t = Some req ->
  run_call c s =
  (match transport (world s) req with
   | Raise e => Raise e
   | Ok resp =>
       match outcome (world s) resp with
       | Ok (JDict kvs) => Ok (default (call_default c) (dict_lookup "data" kvs))
       | Ok _ => Raise AttributeError
       | Raise e => Raise e
       end
   end, sent s1 req).
Proof.
  intros Hc Hgen Hreq.
  destruct (generate_frame s s1 _ Hgen)
    as (_ & _ & Htr & Hjl & _ & _ & _ & _ & Happ).
  assert (Hout : forall resp, outcome (world s1) resp = outcome (world s) resp).
  { intros resp. unfold outcome. by rewrite Hjl. }
  assert (Hmr : forall endpoint method data dflt,
    request_for (self s1) t endpoint method data = Some req ->
    bind (_make_request endpoint method data)
         (fun response => py_get response "data" dflt) s
    = (match transport (world s) req with
       | Raise e => Raise e
       | Ok resp =>
           match outcome (world s) resp with
           | Ok (JDict kvs) => Ok (default dflt (dict_lookup "data" kvs))
           | Ok _ => Raise AttributeError
           | Raise e => Raise e
           end
       end, sent s1 req)).
  { intros endpoint method data dflt Hr.
    rewrite bind_py_get, make_request_unfold, Hgen, Hr, Htr.
    destruct (transport (world s) req) as [resp|e]; [|reflexivity].
    rewrite Hout. destruct (outcome (world s) resp) as [[]|]; reflexivity. }
  destruct c; try discriminate; cbn [run_call call_default];
    cbn [call_request] in Hreq.
  - change (list_workflows s) with
      (bind (_make_request ("/apps/" +:+ app_id (self s) +:+ "/ciWorkflows")
               "GET" None)
            (fun response => py_get response "data" (JList [])) s).
    rewrite <- Happ. by apply Hmr.
  - by apply Hmr.
  - rewrite list_builds_unfold, <- Happ. by apply Hmr.
  - by apply Hmr.
  - rewrite trigger_build_unfold. by apply Hmr.
  - by apply Hmr.
  - by apply Hmr.
Qed.

(** ** The key file *)

Lemma generate_missing_key (s : St) :
  cache_valid s = false ->
  files (world s) !! private_key_path (self s) = None ->
  _generate_jwt_token s
  = (Raise (FileNotFoundError (private_key_path (self s))), s).
Proof.
  intros Hc Hf. unfold _generate_jwt_token, cache_valid in *. unfold_monad.
  destruct (token (self s)); destruct (token_expiry (self s));
    try rewrite Hc; by rewrite Hf.
Qed.

(** X1. Without a valid cached token and without the key file, every
    operation of the client raises [FileNotFoundError] for the configured
    key path and leaves the whole state as it was: nothing is signed,
    nothing is sent, nothing is written. *)
Theorem missing_key_file_stops_call (c : Call) (s : St) :
  cache_valid s = false ->
  files (world s) !! private_key_path (self s) = None ->
  run_call c s = (Raise (FileNotFoundError (private_key_path (self s))), s).
Proof.
  intros Hc Hf. pose proof (run_call_state c s) as H.
  by rewrite (generate_missing_key s Hc Hf) in H.
Qed.

Lemma missing_key_file_stops_call_witness :
  run_call (TriggerBuild "wf-42" (Some "main") None None) (keyless_state 0)
  = (Raise (FileNotFoundError "AuthKey.p8"), keyless_state 0).
Proof.
  apply (missing_key_file_stops_call
           (TriggerBuild "wf-42" (Some "main") None None) (keyless_state 0));
    reflexivity.
Defined.

(** ** The dispatcher's methods *)

Lemma request_for_unsupported (cl : Client) (t : Token)
    (endpoint method : string) (data : option JSON) :
  method <> "GET" -> method <> "POST" -> method <> "DELETE" ->
  request_for cl t endpoint method data = None.
Proof.
  intros Hg Hp Hd. unfold request_for.
  destruct (String.eqb_spec method "GET"); [done|].
  destruct (String.eqb_spec method "POST"); [done|].
  by destruct (String.eqb_spec method "DELETE").
Qed.

(** X2. The dispatcher checks the method only after it has obtained a
    token.  For a method other than GET, POST and DELETE (the comparison is
    exact, so lower case counts as another method) it never returns and
    never sends a request; with a token obtained it raises [ValueError]
    naming the method; and when the cache was not valid and the key could
    be read, the token signed for the rejected request is now the cached
    one. *)
Theorem unsupported_method_after_token (endpoint method : string)
    (data : option JSON) (s : St) :
  method <> "GET" -> method <> "POST" -> method <> "DELETE" ->
  (exists e, fst (_make_request endpoint method data s) = Raise e)
  /\ new_requests s (snd (_make_request endpoint method data s)) = []
  /\ (forall t s1,
        _generate_jwt_token s = (Ok t, s1) ->
        _make_request endpoint method data s
        = (Raise (ValueError ("Unsupported method: " +:+ method)), s1))
  /\ (forall key,
        cache_valid s = false ->
        files (world s) !! private_key_path (self s) = Some key ->
        ec_key_ok (world s) (string_of_list_byte key) = true ->
        exists t,
          sign_log (world (snd (_make_request endpoint method data s)))
          = (sign_log (world s) ++ [t])%list
          /\ token (self (snd (_make_request endpoint method data s)))
             = Some t).
Proof.
  intros Hg Hp Hd.
  assert (Hun : _make_request endpoint method data s =
                match _generate_jwt_token s with
                | (Ok t, s1) =>
                    (Raise (ValueError ("Unsupported method: " +:+ method)), s1)
                | (Raise e, s1) => (Raise e, s1)
                end).
  { rewrite make_request_unfold.
    destruct (_generate_jwt_token s) as [[t|e] s1]; [|reflexivity].
    by rewrite (request_for_unsupported _ _ _ _ _ Hg Hp Hd). }
  rewrite Hun. split; [|split; [|split]].
  - destruct (_generate_jwt_token s) as [[t|e] s1]; by eexists.
  - destruct (_generate_jwt_token s) as [[t|e] s1] eqn:Hgen;
      destruct (generate_frame s s1 _ Hgen) as (_ & _ & _ & _ & _ & Hlog & _);
      unfold new_requests; cbn [snd]; rewrite Hlog; by rewrite drop_all.
  - by intros t s1 ->.
  - intros key Hc Hf Hk. rewrite (generate_stale s key Hc Hf Hk).
    by eexists.
Qed.

Lemma unsupported_method_after_token_witness :
  _make_request "/ciBuildRuns/b-1" "get" None (example_state 5000000 [] offline)
  = (Raise (ValueError "Unsupported method: get"),
     refreshed (example_state 5000000 [] offline)
       (signed_at example_client 5000000 "EC PRIVATE KEY")).
Proof.
  destruct (unsupported_method_after_token "/ciBuildRuns/b-1" "get" None
              (example_state 5000000 [] offline))
    as (_ & _ & H & _); try discriminate.
  apply (H (signed_at example_client 5000000 "EC PRIVATE KEY")). reflexivity.
Defined.

(** ** The requests of the operations *)

Lemma run_call_requests (c : Call) (s s1 : St) (t : Token) :
  _generate_jwt_token s = (Ok t, s1) ->
  new_requests s (snd (run_call c s))
  = match call_request c (self s) t with
    | Some req => [req]
    | None => []
    end.
Proof.
  intros Hgen. pose proof (run_call_state c s) as H. rewrite Hgen in H.
  destruct (generate_frame s s1 _ Hgen)
    as (_ & _ & _ & _ & _ & Hlog & _ & Hbase & Happ).
  assert (Hcr : call_request c (self s1) t = call_request c (self s) t).
  { destruct c; cbn [call_request]; unfold request_for;
      by rewrite ?Hbase, ?Happ. }
  rewrite Hcr in H. unfold new_requests.
  destruct (call_request c (self s) t) as [req|].
  - destruct H as (_ & _ & _ & -> & _). rewrite Hlog.
    by rewrite drop_app_length.
  - destruct H as (e & ->). cbn [snd]. rewrite Hlog. by rewrite drop_all.
Qed.

(** X3. With a token at hand, each of these operations calls [requests]
    exactly once, passing the bearer token and the JSON content type, and
    as URL the base URL followed by the endpoint with the id as it was
    given: [requests.get] on the app's [ciWorkflows] for the list of
    workflows, on [ciWorkflows/<id>] for a workflow, on [ciBuildRuns/<id>]
    for a build, on [ciBuildRuns/<id>/artifacts] for the artifacts of a
    build, and [requests.post] on [ciBuildRuns/<id>/retry] without a body
    for a retry.  What the library does with such a call on the wire (it
    normalises the URL and follows redirects) is outside the client's code
    and outside this statement. *)
Theorem operation_requests (s s1 : St) (t : Token) (i : string) :
  _generate_jwt_token s = (Ok t, s1) ->
  let headers := [("Authorization", Bearer t);
                  ("Content-Type", HStr "application/json")] in
  let base := base_url (self s) in
  new_requests s (snd (list_workflows s))
  = [mkRequest GET (base +:+ "/apps/" +:+ app_id (self s) +:+ "/ciWorkflows")
               headers None false]
  /\ new_requests s (snd (get_workflow i s))
     = [mkRequest GET (base +:+ "/ciWorkflows/" +:+ i) headers None false]
  /\ new_requests s (snd (get_build i s))
     = [mkRequest GET (base +:+ "/ciBuildRuns/" +:+ i) headers None false]
  /\ new_requests s (snd (get_build_artifacts i s))
     = [mkRequest GET (base +:+ "/ciBuildRuns/" +:+ i +:+ "/artifacts")
                  headers None false]
  /\ new_requests s (snd (retry_build i s))
     = [mkRequest POST (base +:+ "/ciBuildRuns/" +:+ i +:+ "/retry")
                  headers None false].
Proof.
  intros Hgen headers base.
  split; [exact (run_call_requests ListWorkflows s s1 t Hgen)|].
  split; [exact (run_call_requests (GetWorkflow i) s s1 t Hgen)|].
  split; [exact (run_call_requests (GetBuild i) s s1 t Hgen)|].
  split; [exact (run_call_requests (GetBuildArtifacts i) s s1 t Hgen)|].
  exact (run_call_requests (RetryBuild i) s s1 t Hgen).
Qed.

Lemma operation_requests_witness :
  map (fun r => (req_verb r, req_url r))
      (new_requests (example_state 5000000 [] offline)
         (snd (retry_build "b-9" (example_state 5000000 [] offline))))
  = [(POST,
      "https://api.appstoreconnect.apple.com/v1/ciBuildRuns/b-9/retry")].
Proof.
  destruct (operation_requests (example_state 5000000 [] offline)
              (snd (_generate_jwt_token (example_state 5000000 [] offline)))
              (signed_at example_client 5000000 "EC PRIVATE KEY") "b-9")
    as (_ & _ & _ & _ & H); [reflexivity|].
  rewrite H. reflexivity.
Defined.

(** ** How the client calls [requests], over any history *)

Lemma run_call_log_shape (c : Call) (s : St) :
  same_configuration (self s) (self (snd (run_call c s)))
  /\ exists new,
      requests_calls (world (snd (run_call c s)))
      = (requests_calls (world s) ++ new)%list
      /\ new_requests s (snd (run_call c s)) = map snd new
      /\ (new = []
          \/ exists t req, call_request c (self s) t = Some req
                           /\ new = [(clock (world s), req)]).
Proof.
  pose proof (run_call_state c s) as H. pose proof (run_call_requests c s) as Hn.
  destruct (_generate_jwt_token s) as [[t|e] s1] eqn:Hgen.
  - destruct (generate_same s s1 _ Hgen) as [Hcfg _].
    destruct (generate_frame s s1 _ Hgen)
      as (Hclk & _ & _ & _ & _ & Hlog & _ & Hbase & Happ).
    assert (Hcr : call_request c (self s1) t = call_request c (self s) t).
    { destruct c; cbn [call_request]; unfold request_for;
        by rewrite ?Hbase, ?Happ. }
    rewrite Hcr in H. specialize (Hn s1 t eq_refl).
    destruct (call_request c (self s) t) as [req|] eqn:Hreq.
    + destruct H as (Hs & _ & _ & Hh & _). split; [by rewrite Hs|].
      exists [(clock (world s), req)]. rewrite Hh, Hlog, Hclk.
      split; [done|]. split; [done|]. right. by exists t, req.
    + destruct H as (e & He). rewrite He in *. cbn [snd].
      split; [done|]. exists []. rewrite app_nil_r. split; [done|].
      split; [done|]. by left.
  - rewrite H. cbn [snd]. split; [by repeat split|]. exists [].
    rewrite app_nil_r. split; [done|]. split; [|by left].
    unfold new_requests. by rewrite drop_all.
Qed.

Lemma call_request_get_or_post (c : Call) (cl : Client) (t : Token)
    (req : Request) :
  call_request c cl t = Some req ->
  get_or_post req
  /\ (req_json req <> None -> exists wf b tg cm, c = TriggerBuild wf b tg cm)
  /\ (req_stream req = true -> exists i p, c = DownloadArtifact i p).
Proof.
  destruct c; cbn; intros [= <-]; cbn;
    (split; [first [by left | by right]|]); split; try done; eauto.
Qed.

(** X4. An operation calls [requests] at most once, and what it calls
    is [requests.get] without a body or [requests.post]; only
    [trigger_build] passes a body and only [download_artifact] asks for a
    streamed answer.  So in any history of operations and environment
    changes the client never calls [requests.delete], although the
    dispatcher has a branch for it, nor anything for PATCH.  The count is
    of the client's calls of the library, not of what the library puts on
    the wire for one call. *)
Theorem client_calls_get_or_post (c : Call) (s : St) (es : list Event) :
  ((length (new_requests s (snd (run_call c s))) <= 1)%nat
   /\ Forall (fun r =>
        get_or_post r
        /\ (req_json r <> None -> exists wf b tg cm, c = TriggerBuild wf b tg cm)
        /\ (req_stream r = true -> exists i p, c = DownloadArtifact i p))
        (new_requests s (snd (run_call c s))))
  /\ (Forall (fun e => get_or_post (snd e)) (requests_calls (world s)) ->
      Forall (fun e => get_or_post (snd e))
             (requests_calls (world (run_events es s)))).
Proof.
  split.
  - destruct (run_call_log_shape c s) as (_ & new & _ & -> & [-> | Hone]).
    + split; [simpl; lia | constructor].
    + destruct Hone as (t & req & Hreq & ->). split; [simpl; lia|].
      constructor; [|constructor].
      exact (call_request_get_or_post c _ t req Hreq).
  - revert s. induction es as [|e es IH]; intros s Hlog; [done|].
    cbn [run_events fold_left]. apply IH. destruct e as [now fs tr|off|c'];
      cbn [step]; [done|done|].
    destruct (run_call_log_shape c' s) as (_ & new & -> & _ & [-> | Hone]).
    + by rewrite app_nil_r.
    + destruct Hone as (t & req & Hreq & ->). apply Forall_app.
      split; [done|]. constructor; [|constructor].
      exact (proj1 (call_request_get_or_post c' _ t req Hreq)).
Qed.

Lemma client_calls_get_or_post_witness :
  Forall (fun e => get_or_post (snd e))
    (requests_calls (world (run_events
       [Invoke (RetryBuild "b-1"); Invoke (CancelBuild "b-1");
        Invoke (DownloadArtifact "a-1" "out.zip")]
       (example_state 5000000 [] offline)))).
Proof.
  apply (client_calls_get_or_post ListWorkflows
           (example_state 5000000 [] offline)).
  constructor.
Defined.

(** X5. The configuration of a client (issuer id, key id, key path, app
    id and base URL) is the same after any history of calls and
    environment changes: the operations write the token cache and nothing
    else of the client. *)
Theorem configuration_is_immutable (es : list Event) (s : St) :
  same_configuration (self s) (self (run_events es s)).
Proof.
  revert s. induction es as [|e es IH]; intros s; [by repeat split|].
  cbn [run_events fold_left].
  assert (Hstep : same_configuration (self s) (self (step s e))).
  { destruct e as [now fs tr|off|c]; cbn [step];
      [by repeat split|by repeat split|].
    apply run_call_log_shape. }
  destruct Hstep as (H1 & H2 & H3 & H4 & H5).
  destruct (IH (step s e)) as (G1 & G2 & G3 & G4 & G5).
  unfold run_events in *. repeat split; congruence.
Qed.

Lemma prefix_append (a b : string) : String.prefix a (a +:+ b) = true.
Proof.
  induction a as [|x a IH]; [by destruct b|]. simpl.
  by destruct (ascii_dec x x).
Qed.

Lemma call_request_on_api_base (c : Call) (cl : Client) (t : Token)
    (req : Request) :
  call_request c cl t = Some req -> on_api_base cl req.
Proof.
  destruct c; cbn; intros [= <-]; apply prefix_append.
Qed.

(** X6. A client built by the constructor never changes its base URL and
    puts it in front of every URL it builds: in any history, whatever ids,
    limits and paths the caller passes, every URL string handed to
    [requests] begins with [https://api.appstoreconnect.apple.com/v1].
    This is about the string and no more: ids go into it as they were
    given, so an id with dot segments, [?] or [#] changes what the library
    requests, as the witness shows for such an id, and the library follows
    redirects wherever they lead. *)
Theorem urls_begin_with_api_base (issuer key path app : string) (w : World)
    (es : list Event) :
  requests_calls w = [] ->
  Forall (fun e =>
            String.prefix "https://api.appstoreconnect.apple.com/v1"
                          (req_url (snd e)) = true)
         (requests_calls
            (world (run_events es (mkSt (init issuer key path app) w)))).
Proof.
  intros Hw.
  assert (Hgen : forall es s,
    Forall (fun e => on_api_base (self s) (snd e)) (requests_calls (world s)) ->
    Forall (fun e => on_api_base (self s) (snd e))
           (requests_calls (world (run_events es s)))).
  { clear. induction es as [|e es IH]; intros s Hlog; [done|].
    cbn [run_events fold_left].
    assert (Hb : base_url (self (step s e)) = base_url (self s)).
    { destruct e as [now fs tr|off|c]; cbn [step]; [done|done|].
      by destruct (run_call_log_shape c s) as ((_ & _ & _ & _ & ->) & _). }
    unfold on_api_base in *. rewrite <- Hb. apply IH. rewrite Hb.
    destruct e as [now fs tr|off|c]; cbn [step]; [done|done|].
    destruct (run_call_log_shape c s) as (_ & new & -> & _ & [-> | Hone]).
    - by rewrite app_nil_r.
    - destruct Hone as (t & req & Hreq & ->). apply Forall_app.
      split; [done|]. constructor; [|constructor].
      exact (call_request_on_api_base c _ t req Hreq). }
  apply (Hgen es (mkSt (init issuer key path app) w)). cbn. rewrite Hw.
  constructor.
Qed.

Lemma urls_begin_with_api_base_witness :
  Forall (fun e =>
            String.prefix "https://api.appstoreconnect.apple.com/v1"
                          (req_url (snd e)) = true)
    (requests_calls (world (run_events
       [Invoke (GetWorkflow "../../v2/users");
        Invoke (ListBuilds (Some "wf?x=1") (Some (-3)))]
       (mkSt (init "iss-1" "key-1" "AuthKey.p8" "6751781514")
             (example_world 5000000 [] offline))))).
Proof.
  apply (urls_begin_with_api_base "iss-1" "key-1" "AuthKey.p8" "6751781514"
           (example_world 5000000 [] offline)).
  reflexivity.
Defined.

(** ** Reuse of the cached token *)

Lemma call_request_attached (c : Call) (cl : Client) (t : Token)
    (req : Request) :
  call_request c cl t = Some req -> attached_token req = Some t.
Proof. destruct c; cbn; by intros [= <-]. Qed.

(** X7. While the local time stays before the stored refresh time, the
    client lives on its cached token: over any history of calls,
    environment changes and changes of the offset of local time that keeps
    the local time before it (the clock going backwards included, the key
    file removed or replaced included) the client object is unchanged,
    nothing is signed, and every call of [requests] carries that token. *)
Theorem cache_reuse_over_history (s : St) (t : Token) (d : Z)
    (es : list Event) :
  token (self s) = Some t -> token_expiry (self s) = Some d ->
  local_now (world s) < d ->
  local_before d (clock (world s)) (utc_offset (world s)) es ->
  self (run_events es s) = self s
  /\ sign_log (world (run_events es s)) = sign_log (world s)
  /\ exists new,
      requests_calls (world (run_events es s))
      = (requests_calls (world s) ++ new)%list
      /\ Forall (fun e => attached_token (snd e) = Some t) new.
Proof.
  revert s. induction es as [|e es IH]; intros s Ht Hd Hlt Hes.
  - split; [done|]. split; [done|]. exists []. by rewrite app_nil_r.
  - cbn [run_events fold_left].
    assert (Hstep : self (step s e) = self s
              /\ sign_log (world (step s e)) = sign_log (world s)
              /\ local_now (world (step s e)) < d
              /\ local_before d (clock (world (step s e)))
                   (utc_offset (world (step s e))) es
              /\ exists new,
                  requests_calls (world (step s e))
                  = (requests_calls (world s) ++ new)%list
                  /\ Forall (fun e => attached_token (snd e) = Some t) new).
    { destruct e as [now fs tr|off|c]; cbn [step local_before] in *.
      - destruct Hes as [He Hes]. split; [done|]. split; [done|].
        split; [exact He|]. split; [exact Hes|].
        exists []. by rewrite app_nil_r.
      - destruct Hes as [He Hes]. split; [done|]. split; [done|].
        split; [exact He|]. split; [exact Hes|].
        exists []. by rewrite app_nil_r.
      - pose proof (run_call_state c s) as H.
        rewrite (generate_valid s t d Ht Hd Hlt) in H.
        destruct (call_request c (self s) t) as [req|] eqn:Hreq.
        + destruct H as (Hs & (Hclk & _ & _ & _ & _ & Hoff) & Hsl & Hh & _).
          split; [done|]. split; [done|].
          split; [unfold local_now in *; by rewrite Hclk, Hoff|].
          split; [by rewrite Hclk, Hoff|].
          exists [(clock (world s), req)]. split; [done|].
          constructor; [|constructor].
          exact (call_request_attached c _ t req Hreq).
        + destruct H as (e & ->). cbn [snd]. split; [done|]. split; [done|].
          split; [done|]. split; [done|]. exists []. by rewrite app_nil_r. }
    destruct Hstep as (Hs & Hsl & Hclk & Hes' & new & Hh & Hnew).
    destruct (IH (step s e)) as (Gs & Gsl & new' & Gh & Gnew);
      [by rewrite Hs | by rewrite Hs | done | done |].
    unfold run_events in *. split; [by rewrite Gs|]. split; [by rewrite Gsl|].
    exists (new ++ new')%list. rewrite Gh, Hh, <- app_assoc.
    split; [done|]. by apply Forall_app.
Qed.

Lemma cache_reuse_over_history_witness :
  let s := snd (list_workflows (example_state 5000000 [] offline)) in
  sign_log (world (run_events
     [Environment (5000000 + 1100 * MICRO) ∅ offline; Invoke (GetBuild "b-1");
      Timezone (- 3600 * MICRO);
      Environment 0 ∅ offline; Invoke (RetryBuild "b-1")] s))
  = sign_log (world s).
Proof.
  intros s.
  apply (cache_reuse_over_history s
           (signed_at example_client 5000000 "EC PRIVATE KEY")
           (5000000 + timedelta_minutes 19)).
  - reflexivity.
  - reflexivity.
  - vm_compute. reflexivity.
  - vm_compute. repeat split.
Defined.

(** ** What the operations make of the answer *)

Lemma run_call_answer (c : Call) (s s1 : St) (t : Token) :
  returns_data c = true ->
  _generate_jwt_token s = (Ok t, s1) ->
  exists req,
    call_request c (self s1) t = Some req
    /\ run_call c s =
       (match transport (world s) req with
        | Raise e => Raise e
        | Ok resp =>
            match outcome (world s) resp with
            | Ok (JDict kvs) =>
                Ok (default (call_default c) (dict_lookup "data" kvs))
            | Ok _ => Raise AttributeError
            | Raise e => Raise e
            end
        end, sent s1 req)
    /\ new_requests s (snd (run_call c s)) = [req].
Proof.
  intros Hc Hgen.
  destruct (call_request_returns_data c (self s1) t Hc) as [req Hreq].
  exists req. split; [exact Hreq|].
  rewrite (run_call_result c s s1 t req Hc Hgen Hreq). split; [done|].
  destruct (generate_frame s s1 _ Hgen) as (_ & _ & _ & _ & _ & Hlog & _).
  by apply new_requests_sent.
Qed.

(** X8. A failure of the transport comes out of the operation as it is:
    when the HTTP layer raises [e], the operation raises [e]; the request
    was attempted once and not again, and the token obtained for it stays
    cached. *)
Theorem transport_error_propagates (c : Call) (s s1 : St) (t : Token)
    (e : Exn) :
  returns_data c = true ->
  _generate_jwt_token s = (Ok t, s1) ->
  (forall req, transport (world s) req = Raise e) ->
  fst (run_call c s) = Raise e
  /\ length (new_requests s (snd (run_call c s))) = 1%nat
  /\ self (snd (run_call c s)) = self s1.
Proof.
  intros Hc Hgen Htr.
  destruct (run_call_answer c s s1 t Hc Hgen) as (req & _ & -> & Hn).
  cbn [fst snd] in *. rewrite (Htr req). by rewrite Hn.
Qed.

Lemma transport_error_propagates_witness :
  fst (run_call (GetBuild "b-1") (example_state 5000000 [] offline))
  = Raise ConnectionError.
Proof.
  apply (transport_error_propagates (GetBuild "b-1")
           (example_state 5000000 [] offline)
           (snd (_generate_jwt_token (example_state 5000000 [] offline)))
           (signed_at example_client 5000000 "EC PRIVATE KEY"));
    reflexivity.
Defined.

(** X9. An answer with a status outside 400..599 whose body is not JSON
    (the empty body of a 204, say) makes the operation raise
    [JSONDecodeError] although the request has been sent and accepted:
    the failure comes after the effect. *)
Theorem unparsable_answer_raises (c : Call) (s s1 : St) (t : Token)
    (resp : Response) :
  returns_data c = true ->
  _generate_jwt_token s = (Ok t, s1) ->
  (forall req, transport (world s) req = Ok resp) ->
  status_code resp < 400 \/ 600 <= status_code resp ->
  json_loads (world s) (content resp) = None ->
  fst (run_call c s) = Raise JSONDecodeError
  /\ length (new_requests s (snd (run_call c s))) = 1%nat.
Proof.
  intros Hc Hgen Htr Hst Hj.
  destruct (run_call_answer c s s1 t Hc Hgen) as (req & _ & -> & Hn).
  cbn [fst snd] in *. rewrite (Htr req), Hn. split; [|done].
  unfold outcome. rewrite Hj.
  destruct Hst as [H|H]; [apply Z.leb_gt in H | apply Z.ltb_ge in H];
    rewrite H; [done | by rewrite andb_false_r].
Qed.

Lemma unparsable_answer_raises_witness :
  let s := example_state 5000000 []
             (fun _ => Ok (mkResponse 204 (bytes_of ""))) in
  fst (run_call (RetryBuild "b-1") s) = Raise JSONDecodeError
  /\ length (new_requests s (snd (run_call (RetryBuild "b-1") s))) = 1%nat.
Proof.
  intros s.
  apply (unparsable_answer_raises (RetryBuild "b-1") s
           (snd (_generate_jwt_token s))
           (signed_at example_client 5000000 "EC PRIVATE KEY")
           (mkResponse 204 (bytes_of ""))); try reflexivity.
  left. simpl. lia.
Defined.

(** X10. An answer that parses to JSON but not to an object (a list, a
    string, a number, [null]) makes the operation raise [AttributeError]:
    the operations call [get] on whatever was parsed. *)
Theorem non_object_answer_raises (c : Call) (s s1 : St) (t : Token)
    (resp : Response) (j : JSON) :
  returns_data c = true ->
  _generate_jwt_token s = (Ok t, s1) ->
  (forall req, transport (world s) req = Ok resp) ->
  status_code resp < 400 \/ 600 <= status_code resp ->
  json_loads (world s) (content resp) = Some j ->
  (forall kvs, j <> JDict kvs) ->
  fst (run_call c s) = Raise AttributeError.
Proof.
  intros Hc Hgen Htr Hst Hj Hnd.
  destruct (run_call_answer c s s1 t Hc Hgen) as (req & _ & -> & _).
  cbn [fst]. rewrite (Htr req), (outcome_parsed _ _ j Hst Hj).
  destruct j; try reflexivity. by destruct (Hnd kvs).
Qed.

Lemma non_object_answer_raises_witness :
  let s := example_state 5000000 [("[]", JList [])]
             (fun _ => Ok (mkResponse 200 (bytes_of "[]"))) in
  fst (run_call ListWorkflows s) = Raise AttributeError.
Proof.
  intros s.
  apply (non_object_answer_raises ListWorkflows s
           (snd (_generate_jwt_token s))
           (signed_at example_client 5000000 "EC PRIVATE KEY")
           (mkResponse 200 (bytes_of "[]")) (JList [])); try reflexivity.
  - left. simpl. lia.
  - discriminate.
Defined.

(** X11. When the answer is a JSON object with a [data] entry, the
    operation returns that entry as it is, whatever its shape: a list
    operation hands back a non-list and a single-resource operation a
    non-object without complaint. *)
Theorem data_entry_returned_verbatim (c : Call) (s s1 : St) (t : Token)
    (resp : Response) (kvs : list (string * JSON)) (v : JSON) :
  returns_data c = true ->
  _generate_jwt_token s = (Ok t, s1) ->
  (forall req, transport (world s) req = Ok resp) ->
  status_code resp < 400 \/ 600 <= status_code resp ->
  json_loads (world s) (content resp) = Some (JDict kvs) ->
  dict_lookup "data" kvs = Some v ->
  fst (run_call c s) = Ok v.
Proof.
  intros Hc Hgen Htr Hst Hj Hv.
  destruct (run_call_answer c s s1 t Hc Hgen) as (req & _ & -> & _).
  cbn [fst]. rewrite (Htr req), (outcome_parsed _ _ _ Hst Hj).
  by rewrite Hv.
Qed.

Lemma data_entry_returned_verbatim_witness :
  let s := example_state 5000000 [("odd", JDict [("data", JStr "text")])]
             (fun _ => Ok (mkResponse 200 (bytes_of "odd"))) in
  fst (run_call ListWorkflows s) = Ok (JStr "text").
Proof.
  intros s.
  apply (data_entry_returned_verbatim ListWorkflows s
           (snd (_generate_jwt_token s))
           (signed_at example_client 5000000 "EC PRIVATE KEY")
           (mkResponse 200 (bytes_of "odd")) [("data", JStr "text")]);
    try reflexivity.
  left. simpl. lia.
Defined.

(** ** Downloads and the file system *)

(** X12. A download the server rejects with a status from 400 to 599
    raises the HTTP error holding the response and leaves the file system
    as it was: the destination is neither created nor truncated, nothing
    is written. *)
Theorem download_rejected_keeps_files (artifact_id output_path : string)
    (s s1 : St) (t : Token) (resp : Response) :
  _generate_jwt_token s = (Ok t, s1) ->
  (forall req, transport (world s) req = Ok resp) ->
  400 <= status_code resp < 600 ->
  fst (download_artifact artifact_id output_path s) = Raise (HTTPError resp)
  /\ files (world (snd (download_artifact artifact_id output_path s)))
     = files (world s)
  /\ write_log (world (snd (download_artifact artifact_id output_path s)))
     = write_log (world s).
Proof.
  intros Hgen Htr [H1 H2]. rewrite download_artifact_unfold, Hgen. cbv zeta.
  destruct (generate_frame s s1 _ Hgen) as (_ & Hf & Ht & _ & _ & _ & Hw & _).
  rewrite Ht, Htr. apply Z.leb_le in H1. apply Z.ltb_lt in H2.
  rewrite H1, H2. cbn. by rewrite Hf, Hw.
Qed.

Lemma download_rejected_keeps_files_witness :
  let gone := mkResponse 404 (bytes_of "not found") in
  let s := example_state 5000000 [] (fun _ => Ok gone) in
  fst (download_artifact "a-1" "AuthKey.p8" s) = Raise (HTTPError gone)
  /\ files (world (snd (download_artifact "a-1" "AuthKey.p8" s)))
     = files (world s).
Proof.
  intros gone s.
  destruct (download_rejected_keeps_files "a-1" "AuthKey.p8" s
              (snd (_generate_jwt_token s))
              (signed_at example_client 5000000 "EC PRIVATE KEY") gone)
    as (H1 & H2 & _); [reflexivity | reflexivity | simpl; lia |].
  by split.
Defined.

(** X13. Whatever a download does, it touches no file but its
    destination: every other path holds after the call what it held
    before. *)
Theorem download_touches_destination_only (artifact_id output_path : string)
    (s : St) (q : string) :
  q <> output_path ->
  files (world (snd (download_artifact artifact_id output_path s))) !! q
  = files (world s) !! q.
Proof.
  intros Hq.
  pose proof (run_call_state (DownloadArtifact artifact_id output_path) s) as H.
  cbn [run_call] in H. rewrite snd_bind_ret in H.
  destruct (_generate_jwt_token s) as [[t|e] s1] eqn:Hgen.
  - destruct (generate_frame s s1 _ Hgen) as (_ & Hf & _).
    cbn [call_request] in H. destruct H as (_ & _ & _ & _ & H).
    rewrite H, Hf; [done|]. intros i [= _ ->]. done.
  - apply (f_equal snd) in H. cbn [snd] in H. rewrite snd_bind_ret in H.
    by rewrite H.
Qed.

Lemma download_touches_destination_only_witness :
  let s := example_state 5000000 []
             (fun _ => Ok (mkResponse 200 (bytes_of "binary artifact"))) in
  files (world (snd (download_artifact "a-1" "out.zip" s))) !! "AuthKey.p8"
  = Some (bytes_of "EC PRIVATE KEY").
Proof.
  intros s.
  rewrite (download_touches_destination_only "a-1" "out.zip" s "AuthKey.p8").
  - reflexivity.
  - discriminate.
Defined.

(** ** The shape of the cache *)

Lemma generate_holds_last (s s1 : St) (r : Result Token) :
  cache_holds_last s -> _generate_jwt_token s = (r, s1) ->
  cache_holds_last s1.
Proof.
  intros Hc Hgen. destruct r as [t|e].
  - destruct (generate_returns s s1 t Hgen)
      as [(_ & _ & ->) | (_ & key & _ & -> & ->)]; [done|].
    split; [by eexists|]. intros t' [= <-]. cbn. apply last_snoc.
  - by destruct (generate_raises s s1 e Hgen) as [-> _].
Qed.

(** X14. After any history of calls, environment changes and changes of
    the offset of local time, the cache of a client built by the
    constructor holds nothing older than its last signing: a refresh time
    is stored only together with a token, and the token stored is the one
    the client signed last. *)
Theorem cache_holds_last_signed (issuer key path app : string) (w : World)
    (es : list Event) :
  cache_holds_last (run_events es (mkSt (init issuer key path app) w)).
Proof.
  assert (Hgen : forall es s, cache_holds_last s ->
                              cache_holds_last (run_events es s)).
  { clear. induction es as [|e es IH]; intros s Hc; [done|].
    cbn [run_events fold_left]. apply IH.
    destruct e as [now fs tr|off|c]; cbn [step]; [exact Hc|exact Hc|].
    pose proof (run_call_state c s) as H.
    destruct (_generate_jwt_token s) as [[t|e] s1] eqn:Hg.
    - pose proof (generate_holds_last s s1 _ Hc Hg) as Hc1.
      destruct (call_request c (self s1) t).
      + destruct H as (Hs & _ & Hsl & _). unfold cache_holds_last in *.
        by rewrite Hs, Hsl.
      + destruct H as (e & ->). exact Hc1.
    - by rewrite H. }
  apply Hgen. split; [by intros [? [=]]|]. by intros t [=].
Qed.

(** ** The signer of the access script *)

Lemma generate_jwt_token_unfold (issuer kid path : string) (s : St) :
  generate_jwt_token issuer kid path s =
  match files (world s) !! path with
  | None => (Raise (FileNotFoundError path), s)
  | Some key =>
      if ec_key_ok (world s) (string_of_list_byte key)
      then let t := JwtEncode
                      (mkPayload issuer (Z.quot (clock (world s)) MICRO)
                         (Z.quot (clock (world s)) MICRO + 1200)
                         "appstoreconnect-v1")
                      (string_of_list_byte key) ES256
                      (mkJwtHeaders kid "JWT") in
           (Ok t, mkSt (self s)
                       (set_sign_log (sign_log (world s) ++ [t]) (world s)))
      else (Raise InvalidKeyError, s)
  end.
Proof.
  unfold generate_jwt_token, jwt_encode. unfold_monad.
  destruct (files (world s) !! path) as [key|]; [|reflexivity]. cbn.
  destruct (ec_key_ok (world s) (string_of_list_byte key)); reflexivity.
Qed.

Lemma generate_bad_key (s : St) (key : list byte) :
  cache_valid s = false ->
  files (world s) !! private_key_path (self s) = Some key ->
  ec_key_ok (world s) (string_of_list_byte key) = false ->
  _generate_jwt_token s = (Raise InvalidKeyError, s).
Proof.
  intros Hc Hf Hk. unfold _generate_jwt_token, cache_valid, jwt_encode in *.
  unfold_monad.
  destruct (token (self s)); destruct (token_expiry (self s));
    try rewrite Hc; rewrite Hf; cbn; by rewrite Hk.
Qed.

(** X15. [generate_jwt_token] of [test_app_access.py] signs what the
    client signs: called with the configuration of a client whose cache
    holds no valid token, it returns the same result and leaves the same
    world as the client's [_generate_jwt_token].  Unlike the client it
    keeps nothing: the client object is untouched, and with a readable key
    it signs a new token on every call, a valid cached token or not. *)
Theorem script_signer_agrees (s : St) :
  cache_valid s = false ->
  let script := generate_jwt_token (issuer_id (self s)) (key_id (self s))
                                   (private_key_path (self s)) in
  fst (script s) = fst (_generate_jwt_token s)
  /\ world (snd (script s)) = world (snd (_generate_jwt_token s))
  /\ forall s' : St,
      self (snd (script s')) = self s'
      /\ forall key,
          files (world s') !! private_key_path (self s) = Some key ->
          ec_key_ok (world s') (string_of_list_byte key) = true ->
          exists t,
            fst (script s') = Ok t
            /\ sign_log (world (snd (script s')))
               = (sign_log (world s') ++ [t])%list.
Proof.
  intros Hc script.
  assert (Hsame : script s = (fst (_generate_jwt_token s),
                              mkSt (self s) (world (snd (_generate_jwt_token s))))).
  { subst script. rewrite generate_jwt_token_unfold.
    destruct (files (world s) !! private_key_path (self s)) as [key|] eqn:Hf.
    - destruct (ec_key_ok (world s) (string_of_list_byte key)) eqn:Hk.
      + by rewrite (generate_stale s key Hc Hf Hk).
      + rewrite (generate_bad_key s key Hc Hf Hk). by destruct s.
    - rewrite (generate_missing_key s Hc Hf). by destruct s. }
  split; [by rewrite Hsame|]. split; [by rewrite Hsame|].
  intros s'. subst script. rewrite generate_jwt_token_unfold. split.
  - destruct (files (world s') !! private_key_path (self s)); [|done].
    by destruct (ec_key_ok (world s') _).
  - intros key Hf Hk. rewrite Hf, Hk. by eexists.
Qed.

Lemma script_signer_agrees_witness :
  let s := example_state 5000000 [] offline in
  fst (generate_jwt_token "iss-1" "key-1" "AuthKey.p8" s)
  = fst (_generate_jwt_token s).
Proof.
  intros s. apply (script_signer_agrees s). reflexivity.
Defined.

(** ** Scripts that only call [requests.get] *)

Lemma only_gets_refl (w : World) : only_gets 0 w w.
Proof.
  split; [done|]. split; [done|]. exists []. rewrite app_nil_r.
  split; [done|]. split; [simpl; lia | constructor].
Qed.

Lemma only_gets_trans (n k : nat) (w w' w'' : World) :
  only_gets n w w' -> only_gets k w' w'' -> only_gets (n + k) w w''.
Proof.
  intros (Hf & Hw & new & Hh & Hl & Hall) (Gf & Gw & new' & Gh & Gl & Gall).
  split; [congruence|]. split; [congruence|].
  exists (new ++ new')%list. rewrite Gh, Hh, <- app_assoc. split; [done|].
  split; [rewrite length_app; lia | by apply Forall_app].
Qed.

Lemma only_gets_weaken (n k : nat) (w w' : World) :
  (n <= k)%nat -> only_gets n w w' -> only_gets k w w'.
Proof.
  intros Hle (Hf & Hw & new & Hh & Hl & Hall). split; [done|]. split; [done|].
  exists new. split; [done|]. split; [lia | done].
Qed.

Lemma gets_ret {A} (good : A -> Prop) (a : A) :
  good a -> gets 0 good (sret a).
Proof. intros Ha p. split; [apply only_gets_refl | exact Ha]. Qed.

Lemma gets_raise {A} (good : A -> Prop) (e : PyExn) :
  gets 0 good (sraise e).
Proof. intros p. split; [apply only_gets_refl | exact I]. Qed.

Lemma gets_print (line : nat) (args : list Arg) :
  gets 0 (fun _ => True) (print line args).
Proof. intros p. split; [apply only_gets_refl | exact I]. Qed.

Lemma gets_bind {A B} (n k : nat) (G : A -> Prop) (H : B -> Prop)
    (m : Script A) (f : A -> Script B) :
  gets n G m -> (forall a, G a -> gets k H (f a)) ->
  gets (n + k) H (sbind m f).
Proof.
  intros Hm Hf p. unfold sbind. destruct (Hm p) as [Hr Hg].
  destruct (m p) as [[a|e] p']; cbn [fst snd] in *.
  - destruct (Hf a Hg p') as [Hr' Hh]. split; [|exact Hh].
    by apply (only_gets_trans n k _ (pworld p')).
  - split; [|exact I]. apply (only_gets_weaken n); [lia | exact Hr].
Qed.

Lemma gets_weaken {A} (n k : nat) (G G' : A -> Prop) (m : Script A) :
  (n <= k)%nat -> (forall a, G a -> G' a) -> gets n G m -> gets k G' m.
Proof.
  intros Hle Himp Hm p. destruct (Hm p) as [Hr Hg]. split.
  - by apply (only_gets_weaken n).
  - destruct (fst (m p)); [by apply Himp | exact I].
Qed.

Lemma gets_try {A} (n k : nat) (G : A -> Prop) (body : Script A)
    (handler : PyExn -> Script A) :
  gets n G body -> (forall e, gets k G (handler e)) ->
  gets (n + k) G (try_except body handler).
Proof.
  intros Hb Hh p. unfold try_except. destruct (Hb p) as [Hr Hg].
  destruct (body p) as [[a|e] p']; cbn [fst snd] in *.
  - split; [|exact Hg]. apply (only_gets_weaken n); [lia | exact Hr].
  - destruct (Hh e p') as [Hr' Hg']. split; [|exact Hg'].
    by apply (only_gets_trans n k _ (pworld p')).
Qed.

Lemma gets_for_each {A} (l : list A) (body : A -> Script unit) :
  (forall x, gets 0 (fun _ => True) (body x)) ->
  gets 0 (fun _ => True) (for_each l body).
Proof.
  intros Hb. induction l as [|x l IH]; cbn [for_each].
  - by apply gets_ret.
  - apply (gets_bind 0 0 (fun _ => True)); [apply Hb | intros _ _; exact IH].
Qed.

Lemma gets_py_item (v : JSON) (key : string) :
  gets 0 (fun _ => True) (py_item v key).
Proof.
  destruct v; try apply gets_raise. cbn [py_item].
  destruct (dict_lookup key kvs); [by apply gets_ret | apply gets_raise].
Qed.

Lemma gets_py_iter (v : JSON) : gets 0 (fun _ => True) (py_iter v).
Proof. destruct v; first [apply gets_raise | by apply gets_ret]. Qed.

Lemma gets_py_first (v : JSON) : gets 0 (fun _ => True) (py_first v).
Proof.
  destruct v as [| | |s|l|kvs]; try apply gets_raise.
  - destruct s; [apply gets_raise | by apply gets_ret].
  - destruct l; [apply gets_raise | by apply gets_ret].
Qed.

(** A GET through the dispatcher, with [get] on the answer: one read-only
    request at most, and the client keeps its base URL. *)
Lemma gets_call_get (endpoint : string) (dflt : JSON) (c : Client) :
  base_url c = "https://api.appstoreconnect.apple.com/v1" ->
  gets 1 (fun r => base_url (snd r)
                    = "https://api.appstoreconnect.apple.com/v1")
        (call (bind (_make_request endpoint "GET" None)
                    (fun response => py_get response "data" dflt)) c).
Proof.
  intros Hbase p. unfold call. set (s := mkSt c (pworld p)).
  pose proof (make_request_effects endpoint "GET" None s) as H.
  pose proof (snd_bind_py_get (_make_request endpoint "GET" None) dflt s) as Hs.
  destruct (_generate_jwt_token s) as [[t|e] s1] eqn:Hgen.
  - destruct (generate_frame s s1 _ Hgen)
      as (_ & Hf & _ & _ & _ & Hlog & Hwl & Hb & _).
    cbn [request_for String.eqb Ascii.eqb Bool.eqb] in H.
    assert (Hw : only_gets 1 (pworld p)
                   (world (snd (bind (_make_request endpoint "GET" None)
                      (fun response => py_get response "data" dflt) s)))).
    { rewrite Hs, H. split; [exact Hf|]. split; [exact Hwl|].
      eexists [_]. cbn. rewrite Hlog. split; [reflexivity|].
      split; [lia|]. constructor; [|constructor].
      split; [done|]. split; [done|]. cbn [req_url snd]. rewrite Hb.
      change (base_url (self s)) with (base_url c). rewrite Hbase.
      apply prefix_append. }
    assert (Hc : base_url (self (snd (bind (_make_request endpoint "GET" None)
                      (fun response => py_get response "data" dflt) s)))
                 = "https://api.appstoreconnect.apple.com/v1").
    { rewrite Hs, H. cbn. by rewrite Hb. }
    destruct (bind _ _ s) as [[a|e] s']; cbn [fst snd pworld] in *;
      (split; [exact Hw | done]).
  - destruct (generate_raises s s1 e Hgen) as [-> _].
    rewrite bind_py_get, H. cbn. split; [|exact I].
    apply (only_gets_weaken 0); [lia | apply only_gets_refl].
Qed.

Lemma gets_call_list_builds (workflow_id : option string) (limit : option Z)
    (c : Client) :
  base_url c = "https://api.appstoreconnect.apple.com/v1" ->
  gets 1 (fun _ => True) (call (list_builds workflow_id limit) c).
Proof.
  intros Hb q.
  destruct (gets_call_get
              ((if truthy workflow_id
                then "/ciWorkflows/" +:+ str_of workflow_id +:+ "/builds"
                else "/apps/" +:+ app_id c +:+ "/ciBuildRuns")
               +:+ "?limit=" +:+ pretty (default list_builds_default_limit limit))
              (JList []) c Hb q) as [H1 H2].
  split; [exact H1|].
  by destruct (fst (call (list_builds workflow_id limit) c q)).
Qed.

Ltac quiet_step :=
  match goal with
  | |- gets ?k _ (sbind _ _) =>
      apply (gets_bind 0 k (fun _ => True));
      [ first [ apply gets_print | apply gets_py_item | apply gets_py_iter
              | apply gets_py_first ]
      | intros ? _ ]
  end.

Ltac quiet_loop :=
  apply gets_for_each; intros ?; repeat quiet_step; apply gets_print.

(** X16. [main], the example run of [xcode_cloud_automation.py], calls
    [requests] at most three times, whatever the calls return and however
    the values in the answers are formatted; each call is [requests.get]
    without a body, with a URL string that begins with
    [https://api.appstoreconnect.apple.com/v1] (the ids read from the
    answers go into it as they are); it writes no file; and it always
    returns: every exception ends in the troubleshooting text. *)
Theorem main_calls_requests_get_only (py_format : JSON -> string) (p : Proc) :
  only_gets 3 (pworld p) (pworld (snd (main py_format p)))
  /\ fst (main py_format p) = PyOk tt.
Proof.
  split.
  - assert (H : gets 3 (fun _ => True) (main py_format)); [|apply H].
    unfold main. apply (gets_try 3 0).
    + quiet_step.
      apply (gets_bind 1 2
               (fun r => base_url (snd r)
                         = "https://api.appstoreconnect.apple.com/v1")).
      { intros q.
        exact (gets_call_get ("/apps/" +:+ APP_ID +:+ "/ciWorkflows")
                 (JList [])
                 (init ISSUER_ID KEY_ID PRIVATE_KEY_PATH APP_ID) eq_refl q). }
      intros r Hr. quiet_step.
      apply (gets_bind 0 2 (fun _ => True)); [quiet_loop | intros _ _].
      destruct (json_truthy (fst r));
        [|apply (gets_weaken 0 2 (fun _ => True)); [lia | done |];
          by apply gets_ret].
      do 5 quiet_step.
      apply (gets_bind 1 1
               (fun r => base_url (snd r)
                         = "https://api.appstoreconnect.apple.com/v1")).
      { apply gets_call_get. exact Hr. }
      intros r' Hr'. do 7 quiet_step.
      apply (gets_bind 1 0 (fun _ => True));
        [by apply gets_call_list_builds|].
      intros r'' _. quiet_step. quiet_loop.
    + intros e. repeat quiet_step. apply gets_print.
  - unfold main, try_except.
    match goal with
    | |- fst (match ?b p with _ => _ end) = _ =>
        destruct (b p) as [[[]|e] p']; reflexivity
    end.
Qed.

(** X17. When the first call of [main], the listing of the workflows,
    raises, [main] attempts nothing more: the world is as that call left
    it, and the output is the heading, the error line with that very
    exception, and the five lines of troubleshooting. *)
Theorem main_reports_first_failure (py_format : JSON -> string) (p : Proc)
    (e : Exn) (s' : St) :
  list_workflows (mkSt (init ISSUER_ID KEY_ID PRIVATE_KEY_PATH APP_ID)
                       (pworld p)) = (Raise e, s') ->
  main py_format p
  = (PyOk tt,
     mkProc (world s')
       (stdout p ++ [mkPrinted 185 []; mkPrinted 217 [AExn (Lib e)];
                     mkPrinted 218 []; mkPrinted 219 []; mkPrinted 220 [];
                     mkPrinted 221 []; mkPrinted 222 []])).
Proof.
  intros H. unfold main, try_except, sbind, print, call. cbn [pworld stdout].
  rewrite H. cbn [pworld stdout]. by rewrite <- !app_assoc.
Qed.

Lemma main_reports_first_failure_witness :
  let w := set_files ∅ (example_world 5000000 [] offline) in
  main (fun _ => "") (mkProc w [])
  = (PyOk tt,
     mkProc w [mkPrinted 185 [];
               mkPrinted 217
                 [AExn (Lib (FileNotFoundError "AuthKey_PZZU8CMTA6.p8"))];
               mkPrinted 218 []; mkPrinted 219 []; mkPrinted 220 [];
               mkPrinted 221 []; mkPrinted 222 []]).
Proof.
  intros w.
  apply (main_reports_first_failure (fun _ => "") (mkProc w [])
           (FileNotFoundError "AuthKey_PZZU8CMTA6.p8")
           (mkSt (init ISSUER_ID KEY_ID PRIVATE_KEY_PATH APP_ID) w)).
  reflexivity.
Defined.

(** ** The run of [main] when the answers have the expected entries *)

Lemma silent_ret {A} (a : A) : silent (sret a).
Proof. by intros p. Qed.

Lemma silent_raise {A} (e : PyExn) : silent (@sraise A e).
Proof. by intros p. Qed.










Lemma has_item_inj (v : JSON) (key : string) (x y : JSON) :
  has_item v key x -> has_item v key y -> x = y.
Proof. intros (kvs & -> & Hx) (kvs' & [= <-] & Hy). congruence. Qed.





(** ** [test_app_access] *)

Lemma gets_py_len (v : JSON) : gets 0 (fun _ => True) (py_len v).
Proof. destruct v; first [apply gets_raise | by apply gets_ret]. Qed.

Lemma gets_lib_frame {A} (m : M A) :
  (forall s, world (snd (m s)) = world s) ->
  gets 0 (fun _ => True) (lib m).
Proof.
  intros Hm p. unfold lib. specialize (Hm (mkSt (init "" "" "" "") (pworld p))).
  destruct (m _) as [[a|e] s]; cbn [fst snd pworld world] in *; rewrite Hm;
    (split; [apply only_gets_refl | exact I]).
Qed.

Lemma response_json_frame (r : Response) (s : St) :
  world (snd (response_json r s)) = world s.
Proof.
  unfold response_json. unfold_monad.
  by destruct (json_loads (world s) (content r)).
Qed.

Lemma py_get_frame (d : JSON) (key : string) (dflt : JSON) (s : St) :
  world (snd (py_get d key dflt s)) = world s.
Proof. by destruct d. Qed.

Lemma gets_lib_generate (issuer kid path : string) :
  gets 0 (fun _ => True) (lib (generate_jwt_token issuer kid path)).
Proof.
  intros p. unfold lib. rewrite generate_jwt_token_unfold. cbn [world].
  destruct (files (pworld p) !! path) as [key|];
    [destruct (ec_key_ok (pworld p) (string_of_list_byte key))|];
    cbn [fst snd pworld world]; (split; [|exact I]);
    try apply only_gets_refl.
  split; [done|]. split; [done|]. exists []. cbn. rewrite app_nil_r.
  split; [done|]. split; [lia | constructor].
Qed.

Lemma gets_lib_get (endpoint : string) (headers : list (string * HeaderValue)) :
  gets 1 (fun _ => True)
    (lib (requests_get ("https://api.appstoreconnect.apple.com/v1" +:+ endpoint)
            headers false)).
Proof.
  intros p. unfold lib, requests_get, requests_request. unfold_monad.
  cbn [world].
  assert (H : only_gets 1 (pworld p)
    (set_requests_calls
       (requests_calls (pworld p)
        ++ [(clock (pworld p),
             mkRequest GET
               ("https://api.appstoreconnect.apple.com/v1" +:+ endpoint)
               headers None false)]) (pworld p))).
  { split; [done|]. split; [done|]. eexists [_]. split; [reflexivity|].
    split; [cbn; lia|]. constructor; [|constructor].
    split; [done|]. split; [done|]. apply prefix_append. }
  destruct (transport (pworld p) _) as [resp|e]; cbn [fst snd pworld world];
    (split; [exact H | exact I]).
Qed.

Ltac access_step :=
  match goal with
  | |- gets ?k _ (sbind _ _) =>
      apply (gets_bind 0 k (fun _ => True));
      [ first [ apply gets_print | apply gets_py_item | apply gets_py_iter
              | apply gets_py_len | apply gets_lib_generate
              | apply gets_lib_frame; intros ?;
                first [ apply response_json_frame | apply py_get_frame ] ]
      | intros ? _ ]
  end.

Ltac access_last :=
  first [ apply gets_print | apply gets_py_len
        | apply gets_lib_frame; intros ?;
          first [ apply response_json_frame | apply py_get_frame ]
        | apply gets_for_each; intros ?; repeat access_step;
          apply gets_print ].

(** One check of [test_app_access]: a GET and the report on its answer. *)
Ltac access_check k :=
  apply (gets_bind 1 k (fun _ => True)); [apply gets_lib_get|];
  intros ? _;
  apply (gets_bind 0 k (fun _ => True));
  [ match goal with
    | |- gets _ _ (if ?c then _ else _) => destruct c
    end; repeat access_step; access_last
  | intros _ _ ].

(** X19. [test_app_access] calls [requests] at most four times, whatever
    the calls return; each call is [requests.get] without a body, with a
    URL string that begins with
    [https://api.appstoreconnect.apple.com/v1]; it writes no file; and it
    always returns: every exception ends in the error line. *)
Theorem test_app_access_calls_requests_get_only (p : Proc) :
  only_gets 4 (pworld p) (pworld (snd (test_app_access p)))
  /\ fst (test_app_access p) = PyOk tt.
Proof.
  split.
  - assert (H : gets 4 (fun _ => True) test_app_access); [|apply H].
    unfold test_app_access. apply (gets_try 4 0).
    + do 3 access_step.
      access_check 3%nat. access_step.
      access_check 2%nat. access_step.
      access_check 1%nat. access_step.
      apply (gets_bind 1 0 (fun _ => True)); [apply gets_lib_get|].
      intros response _.
      destruct (status_code response =? 200); repeat access_step; access_last.
    + intros e. apply gets_print.
  - unfold test_app_access, try_except.
    match goal with
    | |- fst (match ?b p with _ => _ end) = _ =>
        destruct (b p) as [[[]|e] p']; reflexivity
    end.
Qed.

Lemma sbind_lib {A B} (m : M A) (a : A) (s : St) (k : A -> Script B)
    (p : Proc) :
  m (mkSt (init "" "" "" "") (pworld p)) = (Ok a, s) ->
  sbind (lib m) k p = k a (mkProc (world s) (stdout p)).
Proof. intros H. unfold sbind, lib. by rewrite H. Qed.

Lemma sbind_lib_raise {A B} (m : M A) (e : Exn) (s : St) (k : A -> Script B)
    (p : Proc) :
  m (mkSt (init "" "" "" "") (pworld p)) = (Raise e, s) ->
  sbind (lib m) k p = (PyRaise (Lib e), mkProc (world s) (stdout p)).
Proof. intros H. unfold sbind, lib. by rewrite H. Qed.

Lemma requests_get_unfold (url : string)
    (headers : list (string * HeaderValue)) (s : St) :
  requests_get url headers false s
  = (transport (world s) (mkRequest GET url headers None false),
     sent s (mkRequest GET url headers None false)).
Proof.
  unfold requests_get, requests_request. unfold_monad.
  by destruct (transport (world s) _).
Qed.

Lemma sbind_print {A} (line : nat) (args : list Arg) (k : unit -> Script A)
    (p : Proc) :
  sbind (print line args) k p
  = k tt (mkProc (pworld p) (stdout p ++ [mkPrinted line args])).
Proof. reflexivity. Qed.

Lemma sbind_assoc {A B C} (m : Script A) (f : A -> Script B)
    (k : B -> Script C) (p : Proc) :
  sbind (sbind m f) k p = sbind m (fun a => sbind (f a) k) p.
Proof. unfold sbind. by destruct (m p) as [[a|e] p']. Qed.

Ltac script_prints :=
  repeat (progress (rewrite ?sbind_assoc, ?sbind_print; cbn [pworld stdout])).

(** X20. A status other than 200 stops nothing in [test_app_access]:
    unlike the client's dispatcher it never calls [raise_for_status].
    With a readable, valid key, when every call of [requests.get] hands
    back a response whose status is not 200, the run signs one token,
    makes all four calls with it, in the order apps, the app, its
    workflows, its build runs, and prints for each the two lines of the
    failure report (and the four lines of hints after the workflows); the
    error line is not printed.  (A call that raises, as the library does
    on a redirect loop, is not such a response: it ends the run at the
    error line.) *)
Theorem test_app_access_reports_every_status (p : Proc) (key : list byte)
    (answer : Request -> Response) :
  files (pworld p) !! PRIVATE_KEY_PATH = Some key ->
  ec_key_ok (pworld p) (string_of_list_byte key) = true ->
  (forall r, transport (pworld p) r = Ok (answer r)) ->
  (forall r, status_code (answer r) <> 200) ->
  let t := signed_at (init ISSUER_ID KEY_ID PRIVATE_KEY_PATH APP_ID)
             (clock (pworld p)) (string_of_list_byte key) in
  let p' := snd (test_app_access p) in
  sign_log (pworld p') = (sign_log (pworld p) ++ [t])%list
  /\ requests_calls (pworld p')
     = (requests_calls (pworld p)
        ++ map (fun endpoint => (clock (pworld p), get_request t endpoint))
             access_endpoints)%list
  /\ map print_line (stdout p')
     = (map print_line (stdout p)
        ++ [48; 51; 62; 63; 66; 73; 74; 77; 88; 89; 90; 91; 92; 93; 96;
            103; 104]%nat)%list.
Proof.
  intros Hkey Hok Htr Hst t p'. subst p'. destruct p as [w out].
  cbn [pworld stdout] in *.
  assert (Hne : forall r, (status_code (answer r) =? 200) = false).
  { intros r. by apply Z.eqb_neq. }
  assert (E : exists q, test_app_access (mkProc w out) = (PyOk tt, q)
    /\ sign_log (pworld q) = (sign_log w ++ [t])%list
    /\ requests_calls (pworld q)
       = (requests_calls w
          ++ map (fun endpoint => (clock w, get_request t endpoint))
               access_endpoints)%list
    /\ map print_line (stdout q)
       = (map print_line out
          ++ [48; 51; 62; 63; 66; 73; 74; 77; 88; 89; 90; 91; 92; 93; 96;
              103; 104]%nat)%list).
  { eexists. split.
    - unfold test_app_access, try_except.
      erewrite sbind_lib.
      2: { rewrite generate_jwt_token_unfold. cbn [world pworld].
           rewrite Hkey, Hok. reflexivity. }
      cbn [world pworld stdout]. script_prints.
      do 3 (erewrite sbind_lib;
            [|rewrite requests_get_unfold;
              cbn [world pworld transport set_sign_log set_requests_calls sent];
              rewrite Htr; reflexivity];
            rewrite Hne; script_prints).
      erewrite sbind_lib;
        [|rewrite requests_get_unfold;
          cbn [world pworld transport set_sign_log set_requests_calls sent];
          rewrite Htr; reflexivity].
      rewrite Hne. script_prints. cbn [print pworld stdout]. reflexivity.
    - cbn [pworld stdout world sent self sign_log requests_calls set_requests_calls
           set_sign_log clock].
      split; [reflexivity|]. split.
      + rewrite <- !app_assoc. reflexivity.
      + rewrite <- !app_assoc, map_app. reflexivity. }
  destruct E as (q & -> & E). exact E.
Qed.

(** X21. Without the key file [test_app_access] does nothing but report
    it: the token is made before anything else, so the run prints the
    error line with the [FileNotFoundError] and nothing more, not even
    its heading; no request is sent and the world is as it was. *)
Theorem test_app_access_without_key (p : Proc) :
  files (pworld p) !! PRIVATE_KEY_PATH = None ->
  test_app_access p
  = (PyOk tt,
     mkProc (pworld p)
       (stdout p
        ++ [mkPrinted 107 [AExn (Lib (FileNotFoundError PRIVATE_KEY_PATH))]])).
Proof.
  intros Hkey. unfold test_app_access, try_except.
  erewrite sbind_lib_raise.
  2: { rewrite generate_jwt_token_unfold. cbn [world pworld].
       rewrite Hkey. reflexivity. }
  reflexivity.
Qed.

Lemma test_app_access_without_key_witness :
  let w := set_files ∅ (example_world 5000000 [] offline) in
  test_app_access (mkProc w [])
  = (PyOk tt,
     mkProc w
       [mkPrinted 107
          [AExn (Lib (FileNotFoundError "AuthKey_PZZU8CMTA6.p8"))]]).
Proof.
  intros w. apply (test_app_access_without_key (mkProc w [])). reflexivity.
Defined.

(** X22. A failure of the transport in the first check of
    [test_app_access] ends the run: the exception goes to the error line,
    and the three checks that follow are not attempted.  One token was
    signed and one request, the GET on [/apps], was attempted. *)
Theorem test_app_access_stops_at_failure (p : Proc) (key : list byte)
    (e : Exn) :
  files (pworld p) !! PRIVATE_KEY_PATH = Some key ->
  ec_key_ok (pworld p) (string_of_list_byte key) = true ->
  let t := signed_at (init ISSUER_ID KEY_ID PRIVATE_KEY_PATH APP_ID)
             (clock (pworld p)) (string_of_list_byte key) in
  transport (pworld p) (get_request t "/apps") = Raise e ->
  let p' := snd (test_app_access p) in
  fst (test_app_access p) = PyOk tt
  /\ sign_log (pworld p') = (sign_log (pworld p) ++ [t])%list
  /\ requests_calls (pworld p')
     = (requests_calls (pworld p)
        ++ [(clock (pworld p), get_request t "/apps")])%list
  /\ stdout p'
     = (stdout p ++ [mkPrinted 48 []; mkPrinted 51 [];
                     mkPrinted 107 [AExn (Lib e)]])%list.
Proof.
  intros Hkey Hok t Htr p'. subst p'. destruct p as [w out].
  cbn [pworld stdout] in *.
  assert (E : test_app_access (mkProc w out)
    = (PyOk tt,
       mkProc (set_requests_calls
                 (requests_calls w ++ [(clock w, get_request t "/apps")])
                 (set_sign_log (sign_log w ++ [t]) w))
              (out ++ [mkPrinted 48 []; mkPrinted 51 [];
                       mkPrinted 107 [AExn (Lib e)]]))).
  { unfold test_app_access, try_except.
    erewrite sbind_lib.
    2: { rewrite generate_jwt_token_unfold. cbn [world pworld].
         rewrite Hkey, Hok. reflexivity. }
    cbn [world pworld stdout]. script_prints.
    erewrite sbind_lib_raise.
    2: { rewrite requests_get_unfold.
         cbn [world pworld transport set_sign_log set_requests_calls sent].
         unfold get_request, t, signed_at in Htr. cbn in Htr.
         cbn. rewrite Htr. reflexivity. }
    unfold print. cbn [pworld stdout world sent]. rewrite <- !app_assoc.
    reflexivity. }
  rewrite E. done.
Qed.

Lemma test_app_access_stops_at_failure_witness :
  let w := set_files {[ PRIVATE_KEY_PATH := bytes_of "EC PRIVATE KEY" ]}
             (example_world 5000000 [] offline) in
  map print_line (stdout (snd (test_app_access (mkProc w []))))
  = [48; 51; 107]%nat.
Proof.
  intros w.
  destruct (test_app_access_stops_at_failure (mkProc w [])
              (bytes_of "EC PRIVATE KEY") ConnectionError)
    as (_ & _ & _ & H); [reflexivity | reflexivity | reflexivity |].
  rewrite H. reflexivity.
Defined.

Lemma test_app_access_reports_every_status_witness :
  let w := set_files {[ PRIVATE_KEY_PATH := bytes_of "EC PRIVATE KEY" ]}
             (example_world 5000000 []
                (fun _ => Ok (mkResponse 404 (bytes_of "not found")))) in
  map (fun e => req_url (snd e))
      (requests_calls (pworld (snd (test_app_access (mkProc w [])))))
  = ["https://api.appstoreconnect.apple.com/v1/apps";
     "https://api.appstoreconnect.apple.com/v1/apps/6751781514";
     "https://api.appstoreconnect.apple.com/v1/apps/6751781514/ciWorkflows";
     "https://api.appstoreconnect.apple.com/v1/apps/6751781514/ciBuildRuns"].
Proof.
  intros w.
  destruct (test_app_access_reports_every_status (mkProc w [])
              (bytes_of "EC PRIVATE KEY")
              (fun _ => mkResponse 404 (bytes_of "not found")))
    as (_ & H & _); [reflexivity | reflexivity | reflexivity | |].
  - intros r. cbn. lia.
  - rewrite H. reflexivity.
Defined.

(** ** The setup check *)

Lemma differs_from_spec (v : JSON) (s : string) :
  differs_from v s = true <-> v <> JStr s.
Proof.
  destruct v; cbn [differs_from]; try (split; [discriminate | done]).
  rewrite negb_true_iff, String.eqb_neq. split; [congruence|].
  intros H E. apply H. by rewrite E.
Qed.

Lemma value_set_given (app : list (string * JSON)) (key : string) :
  test_xcode_cloud_setup.value_set key (default JNull (dict_lookup key app))
  = true
  <-> setting_given app key ("YOUR_" +:+ str_upper key +:+ "_HERE").
Proof.
  unfold test_xcode_cloud_setup.value_set, setting_given.
  rewrite andb_true_iff, differs_from_spec. split.
  - intros [Ht Hd]. destruct (dict_lookup key app) as [v|]; [|discriminate].
    by exists v.
  - intros (v & -> & Ht & Hd). done.
Qed.

Lemma for_each_prints {A} (l : list A) (line : A -> nat * list Arg)
    (p : Proc) :
  for_each l (fun x => print (fst (line x)) (snd (line x))) p
  = (PyOk tt,
     mkProc (pworld p)
       (stdout p ++ map (fun x => mkPrinted (fst (line x)) (snd (line x))) l)).
Proof.
  revert p. induction l as [|x l IH]; intros p.
  - cbn. rewrite app_nil_r. by destruct p.
  - cbn [for_each]. rewrite sbind_print, IH. cbn [pworld stdout map].
    by rewrite <- app_assoc.
Qed.

Lemma for_each_report {A} (l : list A) (c : A -> bool) (l1 l2 : nat)
    (a1 a2 : A -> list Arg) (p : Proc) :
  for_each l (fun x => if c x then print l1 (a1 x) else print l2 (a2 x)) p
  = (PyOk tt,
     mkProc (pworld p)
       (stdout p ++ map (fun x => if c x then mkPrinted l1 (a1 x)
                                  else mkPrinted l2 (a2 x)) l)).
Proof.
  revert p. induction l as [|x l IH]; intros p.
  - cbn. rewrite app_nil_r. by destruct p.
  - cbn [for_each]. unfold sbind at 1.
    destruct (c x) eqn:Hc; cbn [print]; rewrite IH; cbn [pworld stdout map];
      rewrite Hc, <- app_assoc; reflexivity.
Qed.

Lemma sbind_lib_get {A} (kvs : list (string * JSON)) (key : string)
    (dflt : JSON) (k : JSON -> Script A) (p : Proc) :
  sbind (lib (py_get (JDict kvs) key dflt)) k p
  = k (default dflt (dict_lookup key kvs)) (mkProc (pworld p) (stdout p)).
Proof. reflexivity. Qed.

Ltac printed_heading :=
  cbn [stdout pworld]; eexists;
  (split; [rewrite <- ?app_assoc; reflexivity|]);
  rewrite ?in_app_iff; cbn [In]; intuition.

Lemma check_config_values_run (w : World) (out : list Printed) :
  exists b out',
    test_xcode_cloud_setup.check_config_values (mkProc w out)
    = (PyOk b, mkProc w out')
    /\ (exists rest, out' = (out ++ rest)%list /\ In (mkPrinted 71 []) rest)
    /\ (b = true <-> config_values_set w).
Proof.
  unfold test_xcode_cloud_setup.check_config_values.
  rewrite sbind_print. cbn [pworld stdout]. unfold try_except.
  unfold sbind at 1. unfold json_load_file at 1. cbn [pworld].
  destruct (files w !! "xcode_cloud_config.json") as [bs|] eqn:Hf.
  2: { exists false. eexists. split; [reflexivity|].
       split; [printed_heading|].
       split; [intros [=]|]. intros (? & ? & ? & ? & _). congruence. }
  destruct (json_loads w bs) as [config|] eqn:Hj.
  2: { exists false. eexists. split; [reflexivity|].
       split; [printed_heading|].
       split; [intros [=]|]. intros (? & ? & ? & ? & ? & _). congruence. }
  assert (Hno : forall v, json_loads w bs = Some v -> config_values_set w ->
            exists kvs, v = JDict kvs).
  { intros v Hj' (? & config' & ? & ? & ? & _). exists config'. congruence. }
  destruct config as [| | | | |config];
    try (exists false; eexists; split; [reflexivity|];
         split; [printed_heading|];
         split; [intros [=]|]; intros Hc;
         by destruct (Hno _ Hj Hc) as [? [=]]).
  clear Hno. rewrite sbind_lib_get. cbn [pworld stdout].
  destruct (dict_lookup "app_store_connect" config) as [app_config|] eqn:Ha;
    cbn [default from_option]; unfold id.
  2: { exists false. eexists. split; [reflexivity|].
       split; [printed_heading|].
       split; [intros [=]|]. intros (? & ? & ? & ? & ? & ? & _). congruence. }
  assert (Hno : forall v, dict_lookup "app_store_connect" config = Some v ->
            config_values_set w -> exists kvs, v = JDict kvs).
  { intros v Ha' (? & ? & app' & ? & ? & ? & _). exists app'. congruence. }
  destruct app_config as [| | | | |app];
    try (exists false; eexists; split; [reflexivity|];
         split; [printed_heading|];
         split; [intros [=]|]; intros Hc;
         by destruct (Hno _ Ha Hc) as [? [=]]).
  clear Hno. rewrite !sbind_lib_get. cbn [pworld stdout].
  unfold sbind at 1. rewrite for_each_report. cbn [sret pworld stdout].
  eexists. eexists. split; [reflexivity|]. split; [printed_heading|].
  cbn [forallb fst snd]. rewrite !andb_true_iff, !value_set_given. split.
  - intros (H1 & H2 & H3 & H4 & _). by exists bs, config, app.
  - intros (bs' & config' & app' & Hf' & Hj' & Ha' & H1 & H2 & H3 & H4).
    assert (app' = app) as -> by congruence. done.
Qed.

(** X23. [check_config_values] never raises and touches nothing; it
    returns [True] exactly when [xcode_cloud_config.json] exists and parses
    to an object whose [app_store_connect] entry is an object in which
    [issuer_id], [key_id], [app_id] and [private_key_path] are all present,
    truthy, and different from their placeholders [YOUR_ISSUER_ID_HERE],
    [YOUR_KEY_ID_HERE], [YOUR_APP_ID_HERE] and
    [YOUR_PRIVATE_KEY_PATH_HERE].  A missing or unparsable file, a
    document or an entry that is not an object, all give [False]. *)
Theorem check_config_values_decides (p : Proc) :
  exists b,
    fst (test_xcode_cloud_setup.check_config_values p) = PyOk b
    /\ (b = true <-> config_values_set (pworld p))
    /\ pworld (snd (test_xcode_cloud_setup.check_config_values p)) = pworld p.
Proof.
  destruct p as [w out].
  destruct (check_config_values_run w out) as (b & out' & E & _ & Hb).
  exists b. rewrite E. done.
Qed.

Lemma test_dependencies_run (importable : string -> bool) (p : Proc) :
  exists out',
    test_xcode_cloud_setup.test_dependencies importable p
    = (PyOk (importable "jwt" && importable "requests"
             && importable "cryptography"),
       mkProc (pworld p) out')
    /\ (exists rest, out' = (stdout p ++ rest)%list
                     /\ In (mkPrinted 11 []) rest).
Proof.
  unfold test_xcode_cloud_setup.test_dependencies, try_except, sbind,
    py_import, print, sret.
  destruct (importable "jwt"); [destruct (importable "requests");
    [destruct (importable "cryptography")|]|];
    (eexists; split; [reflexivity | printed_heading]).
Qed.

Lemma test_config_files_run (p : Proc) :
  exists out',
    test_xcode_cloud_setup.test_config_files p
    = (PyOk (bool_decide (is_Some (files (pworld p) !! "xcode_cloud_automation.py"))
             && bool_decide (is_Some (files (pworld p) !! "xcode_cloud_config.json"))
             && bool_decide (is_Some (files (pworld p) !! "requirements.txt"))),
       mkProc (pworld p) out')
    /\ (exists rest, out' = (stdout p ++ rest)%list
                     /\ In (mkPrinted 38 []) rest).
Proof.
  destruct p as [w out].
  unfold test_xcode_cloud_setup.test_config_files, for_fold, sbind,
    os_path_exists, print, sret. cbn [pworld stdout].
  destruct (files w !! "xcode_cloud_automation.py"); cbn [pworld stdout];
    (destruct (files w !! "xcode_cloud_config.json"); cbn [pworld stdout]);
    (destruct (files w !! "requirements.txt"); cbn [pworld stdout]);
    (eexists; split; [reflexivity | printed_heading]).
Qed.

Lemma test_private_key_run (p : Proc) :
  exists out',
    test_xcode_cloud_setup.test_private_key p
    = (PyOk (bool_decide (is_Some (files (pworld p) !! "AuthKey_PZZU8CMTA6.p8"))),
       mkProc (pworld p) out')
    /\ (exists rest, out' = (stdout p ++ rest)%list
                     /\ In (mkPrinted 58 []) rest).
Proof.
  destruct p as [w out].
  unfold test_xcode_cloud_setup.test_private_key, sbind, os_path_exists,
    print, sret. cbn [pworld stdout].
  destruct (files w !! "AuthKey_PZZU8CMTA6.p8");
    (eexists; split; [reflexivity | printed_heading]).
Qed.

Lemma sbind_run {A B} (m : Script A) (k : A -> Script B) (p : Proc) (a : A)
    (p' : Proc) :
  m p = (PyOk a, p') -> sbind m k p = k a p'.
Proof. intros H. unfold sbind. by rewrite H. Qed.

(** X24. The setup check as a whole: [main] of
    [test_xcode_cloud_setup.py] never raises and touches nothing; all four
    checks run whatever the earlier ones found (the heading of each is
    printed); and it returns [True] exactly when [jwt], [requests] and
    [cryptography] can be imported, the files
    [xcode_cloud_automation.py], [xcode_cloud_config.json] and
    [requirements.txt] exist, the key file [AuthKey_PZZU8CMTA6.p8] exists,
    and the configuration values are set. *)
Theorem setup_main_decides (importable : string -> bool) (p : Proc) :
  exists b,
    fst (test_xcode_cloud_setup.main importable p) = PyOk b
    /\ (b = true <-> setup_ready importable (pworld p))
    /\ pworld (snd (test_xcode_cloud_setup.main importable p)) = pworld p
    /\ exists new,
         stdout (snd (test_xcode_cloud_setup.main importable p))
         = (stdout p ++ new)%list
         /\ Forall (fun line => In line (map print_line new))
                   [11; 38; 58; 71]%nat.
Proof.
  destruct p as [w out]. cbn [pworld stdout].
  assert (E : exists b out',
    test_xcode_cloud_setup.main importable (mkProc w out)
    = (PyOk b, mkProc w out')
    /\ (b = true <-> setup_ready importable w)
    /\ exists new, out' = (out ++ new)%list
         /\ In (mkPrinted 11 []) new /\ In (mkPrinted 38 []) new
         /\ In (mkPrinted 58 []) new /\ In (mkPrinted 71 []) new).
  { unfold test_xcode_cloud_setup.main. rewrite !sbind_print.
    cbn [pworld stdout].
    destruct (test_dependencies_run importable
                (mkProc w ((out ++ [mkPrinted 104 []]) ++ [mkPrinted 105 []])))
      as (out1 & E1 & rest1 & -> & I1).
    rewrite (sbind_run _ _ _ _ _ E1). cbn [pworld stdout] in *.
    destruct (test_config_files_run (mkProc w
                (((out ++ [mkPrinted 104 []]) ++ [mkPrinted 105 []]) ++ rest1)))
      as (out2 & E2 & rest2 & -> & I2).
    rewrite (sbind_run _ _ _ _ _ E2). cbn [pworld stdout] in *.
    destruct (test_private_key_run (mkProc w
                ((((out ++ [mkPrinted 104 []]) ++ [mkPrinted 105 []]) ++ rest1)
                 ++ rest2)))
      as (out3 & E3 & rest3 & -> & I3).
    rewrite (sbind_run _ _ _ _ _ E3). cbn [pworld stdout] in *.
    destruct (check_config_values_run w
                (((((out ++ [mkPrinted 104 []]) ++ [mkPrinted 105 []]) ++ rest1)
                  ++ rest2) ++ rest3))
      as (b4 & out4 & E4 & (rest4 & -> & I4) & H4).
    rewrite (sbind_run _ _ _ _ _ E4). rewrite sbind_print.
    cbn [pworld stdout].
    set (b := if negb b4 then false else _).
    assert (Hb : b = true <-> setup_ready importable w).
    { assert (Hand : b = (importable "jwt" && importable "requests"
                          && importable "cryptography")
                         && (bool_decide (is_Some (files w !! "xcode_cloud_automation.py"))
                             && bool_decide (is_Some (files w !! "xcode_cloud_config.json"))
                             && bool_decide (is_Some (files w !! "requirements.txt")))
                         && bool_decide (is_Some (files w !! "AuthKey_PZZU8CMTA6.p8"))
                         && b4).
      { subst b. destruct b4; [|by rewrite andb_false_r].
        destruct (bool_decide (is_Some (files w !! "AuthKey_PZZU8CMTA6.p8")));
          [|by rewrite !andb_false_r].
        destruct (bool_decide _ && bool_decide _ && bool_decide _);
          [|by rewrite !andb_false_r].
        by destruct (importable "jwt" && importable "requests"
                     && importable "cryptography"). }
      rewrite Hand. unfold setup_ready.
      rewrite !andb_true_iff, !bool_decide_eq_true, H4. tauto. }
    exists b. destruct b; cbn [sbind print sret pworld stdout];
      (eexists; split; [reflexivity|]; split; [exact Hb|];
       eexists; split; [rewrite <- !app_assoc; reflexivity|];
       rewrite ?in_app_iff; cbn [In]; intuition). }
  destruct E as (b & out' & E & Hb & new & -> & I1 & I2 & I3 & I4).
  exists b. rewrite E. cbn [fst snd pworld stdout].
  split; [done|]. split; [done|]. split; [done|]. exists new.
  split; [done|].
  repeat (apply Forall_cons_2 || apply Forall_nil_2);
    [apply (in_map print_line _ _ I1) | apply (in_map print_line _ _ I2)
    | apply (in_map print_line _ _ I3) | apply (in_map print_line _ _ I4)].
Qed.

(** X25. The key check of the setup script looks for the file both
    signers read: [test_private_key] never raises, and once it has
    returned [True], neither the first token request of the client that
    [main] builds nor [generate_jwt_token] as [test_app_access] calls it
    raises [FileNotFoundError].  (They can fail otherwise: on the content
    of the key, or on a path that exists and cannot be read.) *)
Theorem key_check_covers_signers (p : Proc) :
  let s := mkSt (init ISSUER_ID KEY_ID PRIVATE_KEY_PATH APP_ID) (pworld p) in
  (exists b, fst (test_xcode_cloud_setup.test_private_key p) = PyOk b)
  /\ (fst (test_xcode_cloud_setup.test_private_key p) = PyOk true ->
      forall path,
        fst (_generate_jwt_token s) <> Raise (FileNotFoundError path)
        /\ fst (generate_jwt_token ISSUER_ID KEY_ID PRIVATE_KEY_PATH s)
           <> Raise (FileNotFoundError path)).
Proof.
  intros s. destruct (test_private_key_run p) as (out' & E & _).
  rewrite E. split; [by eexists|]. cbn [fst].
  rewrite generate_jwt_token_unfold. subst s. cbn [world self].
  change (files (pworld p) !! "AuthKey_PZZU8CMTA6.p8")
    with (files (pworld p) !! PRIVATE_KEY_PATH).
  set (s := mkSt (init ISSUER_ID KEY_ID PRIVATE_KEY_PATH APP_ID) (pworld p)).
  destruct (files (pworld p) !! PRIVATE_KEY_PATH) as [key|] eqn:Hf;
    [|by intros [=]].
  intros _ path.
  destruct (ec_key_ok (pworld p) (string_of_list_byte key)) eqn:Hk.
  - by rewrite (generate_stale s key eq_refl Hf Hk).
  - by rewrite (generate_bad_key s key eq_refl Hf Hk).
Qed.

Lemma key_check_covers_signers_witness :
  let w := set_files {[ PRIVATE_KEY_PATH := bytes_of "EC PRIVATE KEY" ]}
             (example_world 5000000 [] offline) in
  fst (_generate_jwt_token
         (mkSt (init ISSUER_ID KEY_ID PRIVATE_KEY_PATH APP_ID) w))
  <> Raise (FileNotFoundError PRIVATE_KEY_PATH).
Proof.
  intros w.
  exact (proj1 (proj2 (key_check_covers_signers (mkProc w [])) eq_refl
                  PRIVATE_KEY_PATH)).
Defined.
